(** * stempeg: reading and writing stem containers

    A shallow embedding of [stempeg/read.py] and [stempeg/write.py].

    Python values are modelled as follows.
    - Python [int]s are [Z]; array extents are [nat].
    - Python [float] arguments (seconds) are the rationals they denote ([Q]);
      NaN and the infinities are not represented.
    - A numpy array is its shape together with its elements in row-major
      (C) order; numpy's views and strides are not observable by the code
      modelled here, only shapes and elements are.
    - Raising is modelled by [Raise]; effects on the outside world (ffmpeg
      processes, directories, warnings) are logged in an explicit [world]
      that survives an exception, as it does in Python.
    - What the external tools answer (ffprobe's JSON, ffmpeg's output buffer,
      exit status, broken pipes) is supplied by an environment record. *)

From Stdlib Require Import List ZArith QArith Qround String Ascii Bool Lia
  Arith PeanoNat DecimalString.
Import ListNotations.

Close Scope Q_scope.
Local Open Scope string_scope.
Local Open Scope list_scope.
Local Open Scope nat_scope.

(* ===================================================================== *)
(** * Python: exceptions, results, the effect monad *)
(* ===================================================================== *)

Module Py.

(** The exception classes the modelled code can raise.  In Python
    [NotImplementedError] is a subclass of [RuntimeError]; [FFmpegError] is
    [ffmpeg._run.Error] of the ffmpeg-python package. *)
Inductive exn_class :=
| Warning | RuntimeError | NotImplementedError | AttributeError
| IndexError | ValueError | TypeError | KeyError | FFmpegError | IOError.

Record exn := Exn { exn_cls : exn_class; exn_msg : string }.

Inductive result (A : Type) :=
| Ok (a : A)
| Raise (e : exn).
Arguments Ok {A} a.
Arguments Raise {A} e.

Definition is_ok {A} (r : result A) : bool :=
  match r with Ok _ => true | Raise _ => false end.

Definition raised_class {A} (r : result A) : option exn_class :=
  match r with Ok _ => None | Raise e => Some (exn_cls e) end.

(** [x in (1, 2)]-style equality on classes. *)
Definition exn_class_eqb (a b : exn_class) : bool :=
  match a, b with
  | Warning, Warning | RuntimeError, RuntimeError
  | NotImplementedError, NotImplementedError
  | AttributeError, AttributeError | IndexError, IndexError
  | ValueError, ValueError | TypeError, TypeError | KeyError, KeyError
  | FFmpegError, FFmpegError | IOError, IOError => true
  | _, _ => false
  end.

(** Pure error monad. *)
Definition rbind {A B} (r : result A) (k : A -> result B) : result B :=
  match r with Ok a => k a | Raise e => Raise e end.

(** Effectful computations: a world is threaded through and is kept when
    an exception propagates. *)
Definition M (W A : Type) : Type := W -> result A * W.

Definition ret {W A} (a : A) : M W A := fun w => (Ok a, w).
Definition raise {W A} (e : exn) : M W A := fun w => (Raise e, w).
Definition bind {W A B} (m : M W A) (k : A -> M W B) : M W B :=
  fun w => match m w with
           | (Ok a, w') => k a w'
           | (Raise e, w') => (Raise e, w')
           end.
Definition lift {W A} (r : result A) : M W A := fun w => (r, w).
Definition modify {W} (f : W -> W) : M W unit := fun w => (Ok tt, f w).

(** [try: body except cls: handler] *)
Definition try_except {W A} (body : M W A) (cls : exn_class)
    (handler : exn -> M W A) : M W A :=
  fun w => match body w with
           | (Ok a, w') => (Ok a, w')
           | (Raise e, w') =>
               if exn_class_eqb (exn_cls e) cls then handler e w'
               else (Raise e, w')
           end.

(** [try: body finally: cleanup], and leaving a [with] block. *)
Definition finally {W A} (body : M W A) (cleanup : M W unit) : M W A :=
  fun w => let '(r, w') := body w in
           let '(_, w'') := cleanup w' in (r, w'').

(** [for x in xs: body], with the loop-carried variables in [acc]. *)
Fixpoint for_each {W X S} (xs : list X) (body : X -> S -> M W S) (acc : S)
    : M W S :=
  match xs with
  | [] => ret acc
  | x :: rest => bind (body x acc) (for_each rest body)
  end.

(** [[f(x) for x in xs]] where [f] may raise. *)
Fixpoint map_result {X Y} (f : X -> result Y) (xs : list X)
    : result (list Y) :=
  match xs with
  | [] => Ok []
  | x :: rest =>
      rbind (f x) (fun y =>
      rbind (map_result f rest) (fun ys => Ok (y :: ys)))
  end.

(** [range(n)] *)
Definition range (n : Z) : list Z := map Z.of_nat (seq 0 (Z.to_nat n)).

(** [xs[i]] on a Python list: negative indices count from the end and an
    index out of range raises [IndexError]. *)
Definition getitem {A} (xs : list A) (i : Z) : result A :=
  let n := Z.of_nat (List.length xs) in
  let j := if (i <? 0)%Z then (i + n)%Z else i in
  if ((0 <=? j) && (j <? n))%Z then
    match nth_error xs (Z.to_nat j) with
    | Some x => Ok x
    | None => Raise (Exn IndexError "list index out of range")
    end
  else Raise (Exn IndexError "list index out of range").

(** [str(n)] and ["%d" % n] for an integer. *)
Definition str_int (n : Z) : string := NilZero.string_of_int (Z.to_int n).

(** ["%02d" % n] for [0 <= n]. *)
Definition fmt_02d (n : Z) : string :=
  if (n <? 10)%Z then ("0" ++ str_int n)%string else str_int n.

(** [sep.join(parts)] *)
Definition join (sep : string) (parts : list string) : string :=
  String.concat sep parts.

(** [s.split(sep)] for a one-character separator. *)
Fixpoint split_char (sep : ascii) (s : string) : list string :=
  match s with
  | EmptyString => [EmptyString]
  | String c rest =>
      if Ascii.eqb c sep then EmptyString :: split_char sep rest
      else match split_char sep rest with
           | [] => [String c EmptyString]
           | p :: ps => String c p :: ps
           end
  end.

(** The attributes of the standard [warnings] module that take a message.
    [warnings.warn(msg)] records the warning and returns; looking up any
    other name raises [AttributeError], as module attribute access does. *)
Definition warnings_attr {W} (record : string -> W -> W) (name : string)
    : result (string -> M W unit) :=
  if String.eqb name "warn" then Ok (fun msg => modify (record msg))
  else Raise (Exn AttributeError
                ("module 'warnings' has no attribute '" ++ name ++ "'")%string).

End Py.

Import Py.

Declare Scope py_scope.
Delimit Scope py_scope with py.
Notation "x <- m ;; k" := (Py.bind m (fun x => k))
  (at level 61, m at next level, right associativity) : py_scope.
Notation "m ;;; k" := (Py.bind m (fun _ => k))
  (at level 61, right associativity) : py_scope.
Notation "x <-- r ;; k" := (Py.rbind r (fun x => k))
  (at level 61, r at next level, right associativity) : py_scope.

(* ===================================================================== *)
(** * numpy arrays *)
(* ===================================================================== *)

Module np.
Section NDArray.
Context {A : Type}.
Local Open Scope py_scope.

Record ndarray := Array { shape : list nat; data : list A }.

Definition size_of (sh : list nat) : nat := fold_right Nat.mul 1 sh.

(** Every array numpy builds has as many elements as its shape says. *)
Definition wf (a : ndarray) : Prop := List.length (data a) = size_of (shape a).

Definition ndim (a : ndarray) : nat := List.length (shape a).

(** Row-major offset of a multi-index, and its inverse. *)
Fixpoint ravel (sh idx : list nat) : nat :=
  match sh, idx with
  | _ :: rest, i :: is_ => i * size_of rest + ravel rest is_
  | _, _ => 0
  end.

Fixpoint unravel (sh : list nat) (off : nat) : list nat :=
  match sh with
  | [] => []
  | _ :: rest => off / size_of rest :: unravel rest (off mod size_of rest)
  end.

Fixpoint in_bounds (sh idx : list nat) : bool :=
  match sh, idx with
  | [], [] => true
  | d :: rest, i :: is_ => (i <? d) && in_bounds rest is_
  | _, _ => false
  end.

(** [a[i0, i1, ...]] with a full, non-negative index. *)
Definition get (a : ndarray) (idx : list nat) : option A :=
  if in_bounds (shape a) idx then nth_error (data a) (ravel (shape a) idx)
  else None.

(** The elements of [xs] at the offsets [offs], in that order. *)
Definition gather (xs : list A) (offs : list nat) : list A :=
  flat_map (fun o => match nth_error xs o with
                     | Some x => [x]
                     | None => []
                     end) offs.

Fixpoint index_of (x : nat) (xs : list nat) : nat :=
  match xs with
  | [] => 0
  | y :: rest => if Nat.eqb x y then 0 else S (index_of x rest)
  end.

Definition is_permutation (axes : list nat) : bool :=
  forallb (fun k => existsb (Nat.eqb k) axes) (seq 0 (List.length axes))
  && forallb (fun ax => ax <? List.length axes) axes.

(** The index of [a] that index [idx'] of [a.transpose(axes)] reads:
    the [idx] with [idx[axes[i]] = idx'[i]]. *)
Definition source_index (axes idx' : list nat) : list nat :=
  map (fun k => nth (index_of k axes) idx' 0) (seq 0 (List.length axes)).

(** [a.transpose(axes)]: axis [i] of the result is axis [axes[i]] of
    [a]. *)
Definition transpose (axes : list nat) (a : ndarray) : result ndarray :=
  if Nat.eqb (List.length axes) (ndim a) && is_permutation axes then
    let sh' := map (fun ax => nth ax (shape a) 0) axes in
    let old_offset off' :=
      ravel (shape a) (source_index axes (unravel sh' off')) in
    Ok (Array sh' (gather (data a) (map old_offset (seq 0 (size_of sh')))))
  else Raise (Exn ValueError "axes don't match array").

(** Resolution of a requested shape that may hold one [-1]. *)
Definition count_unknown (req : list Z) : nat :=
  List.length (filter (fun d => (d =? -1)%Z) req).

Definition known_size (req : list Z) : nat :=
  size_of (map Z.to_nat (filter (fun d => negb (d =? -1)%Z) req)).

Definition resolve_shape (total : nat) (req : list Z)
    : result (list nat) :=
  if existsb (fun d => (d <? -1)%Z) req then
    Raise (Exn ValueError "negative dimensions not allowed")
  else match count_unknown req with
       | 0 =>
           if Nat.eqb (known_size req) total then Ok (map Z.to_nat req)
           else Raise (Exn ValueError "cannot reshape array")
       | 1 =>
           let k := known_size req in
           if Nat.eqb k 0 then Raise (Exn ValueError "cannot reshape array")
           else if Nat.eqb (total mod k) 0 then
             Ok (map (fun d => if (d =? -1)%Z then total / k
                               else Z.to_nat d) req)
           else Raise (Exn ValueError "cannot reshape array")
       | _ => Raise (Exn ValueError "can only specify one unknown dimension")
       end.

(** [a.reshape(req)]: same elements in row-major order, new shape. *)
Definition reshape (req : list Z) (a : ndarray) : result ndarray :=
  sh <-- resolve_shape (size_of (shape a)) req ;;
  Ok (Array sh (data a)).

(** [np.squeeze(a)]: drop every axis of extent one. *)
Definition squeeze (a : ndarray) : ndarray :=
  Array (filter (fun d => negb (Nat.eqb d 1)) (shape a)) (data a).

(** [a[..., 0]] *)
Definition index_last0 (a : ndarray) : result ndarray :=
  match rev (shape a) with
  | [] => Raise (Exn IndexError "too many indices for array")
  | last :: front_rev =>
      if Nat.eqb last 0 then
        Raise (Exn IndexError "index 0 is out of bounds for axis with size 0")
      else
        let sh' := rev front_rev in
        Ok (Array sh'
              (gather (data a)
                      (map (fun i => i * last) (seq 0 (size_of sh')))))
  end.

(** [t[:n, :]] on a two-dimensional array, [0 <= n]. *)
Definition take_rows (n : nat) (t : ndarray) : result ndarray :=
  match shape t with
  | [rows; cols] =>
      Ok (Array [Nat.min n rows; cols]
                (firstn (Nat.min n rows * cols) (data t)))
  | _ => Raise (Exn IndexError "too many indices for array")
  end.

(** [np.array(arrays)] for a list of arrays: a new leading axis.  Arrays
    of unequal shape are refused (numpy 1.24 and later). *)
Definition stack (arrays : list ndarray) : result ndarray :=
  match arrays with
  | [] => Ok (Array [0] [])
  | a0 :: _ =>
      if forallb (fun a => if list_eq_dec Nat.eq_dec (shape a) (shape a0)
                           then true else false) arrays
      then Ok (Array (List.length arrays :: shape a0) (flat_map data arrays))
      else Raise (Exn ValueError
                    "setting an array element with a sequence")
  end.

(** [np.frombuffer(buffer, dtype='<f4')] as a one-dimensional array; the
    buffer is given as the sequence of its 32-bit samples. *)
Definition frombuffer (samples : list A) : ndarray :=
  Array [List.length samples] samples.

Definition map_elems (f : A -> A) (a : ndarray) : ndarray :=
  Array (shape a) (map f (data a)).

End NDArray.
Arguments ndarray A : clear implicits.
End np.

Import np.

(* ===================================================================== *)
(** * The outside world *)
(* ===================================================================== *)

(** Keyword arguments [read_stems] gives to [ffmpeg.output('pipe:', ...)]. *)
Record output_kwargs := OutputKwargs {
  kw_format : string;        (* 'format' *)
  kw_ar : Z;                 (* 'ar' *)
  kw_t : option string;      (* 't', set only when a duration is given *)
  kw_ss : option string;     (* 'ss', set only when a start is given *)
  kw_map : string            (* 'map' *)
}.

(** One entry of the list [ffprobe] reports under ['streams']. *)
Record stream := Stream {
  st_index : Z;              (* 'index' *)
  st_codec_type : string;    (* 'codec_type' *)
  st_sample_rate : Z;        (* int(stream['sample_rate']) *)
  st_channels : Z            (* int(stream['channels']) *)
}.

(** The dictionary [ffmpeg.probe] returns; the key ['streams'] may be
    missing. *)
Record probe_info := ProbeInfo { pi_streams : option (list stream) }.

Inductive dtype := float32 | float64 | other_dtype (name : string).

Definition dtype_eqb (a b : dtype) : bool :=
  match a, b with
  | float32, float32 | float64, float64 => true
  | other_dtype x, other_dtype y => String.eqb x y
  | _, _ => false
  end.

Section World.
Context {sample : Type}.

(** The ffmpeg process [write_audio] starts, with everything it was given:
    input and output keyword arguments and the samples written to its
    standard input. *)
Record encode_call := EncodeCall {
  enc_path : string;
  enc_in_ar : Q;                  (* input 'ar' *)
  enc_in_ac : Z;                  (* input 'ac' *)
  enc_out_ar : Q;                 (* output 'ar' *)
  enc_audio_bitrate : option Z;   (* output 'audio_bitrate' *)
  enc_codec : option string;      (* output 'codec' *)
  enc_shape : list nat;           (* shape of the array written *)
  enc_payload : list sample       (* data.astype('<f4').tobytes() *)
}.

Inductive process :=
| FFprobe (filename : string)
| FFmpegDecode (filename : string) (kw : output_kwargs)
| FFmpegEncode (call : encode_call)
| FFmpegVersion
| Subprocess (cmd : list string).   (* sp.check_call(cmd) *)

Inductive fs_op :=
| MkdirParentOf (path : string)   (* Path(path).parent.mkdir(...) *)
| CreateTempFile (name : string)  (* tmp.NamedTemporaryFile(...) *)
| RemoveTempFile (name : string). (* leaving the with block *)

Record world := World {
  procs : list process;           (* processes started, oldest first *)
  fs_log : list fs_op;            (* file-system writes, oldest first *)
  warnings_log : list string      (* warnings shown *)
}.

Definition empty_world : world := World [] [] [].

Definition spawn (p : process) : M world unit :=
  modify (fun w => World (procs w ++ [p]) (fs_log w) (warnings_log w)).

Definition fs_write (op : fs_op) : M world unit :=
  modify (fun w => World (procs w) (fs_log w ++ [op]) (warnings_log w)).

Definition show_warning (msg : string) (w : world) : world :=
  World (procs w) (fs_log w) (warnings_log w ++ [msg]).

(** The module object [warnings] as the code sees it. *)
Definition warnings : string -> result (string -> M world unit) :=
  warnings_attr show_warning.

(** What the pipe to an encoding ffmpeg does. *)
Record pipe_outcome := PipeOutcome {
  write_raises_ioerror : bool;    (* process.stdin.write(...) *)
  close_raises_ioerror : bool;    (* process.stdin.close() *)
  exit_status : Z;                (* process.wait() *)
  stderr_text : string            (* process.stderr.read() *)
}.

(** The answers of the external tools. *)
Record environment := Environment {
  ffprobe : string -> string + probe_info;  (* [inl stderr]: ffprobe failed *)
  ffmpeg_decode : string -> output_kwargs -> list sample;
  astype : dtype -> sample -> sample;
  ffmpeg_encode : encode_call -> pipe_outcome;
  ffmpeg_version_output : result (option string);
                                  (* what stempeg.ffmpeg_version() returns *)
  bytes_repr : string -> string;  (* repr() of a bytes object *)
  tempfile_name : string -> string;
                                  (* name NamedTemporaryFile(suffix) gives *)
  check_call : list string -> Z   (* exit status of a command *)
}.

End World.

Arguments encode_call sample : clear implicits.
Arguments process sample : clear implicits.
Arguments world sample : clear implicits.
Arguments environment sample : clear implicits.

(* ===================================================================== *)
(** * read.py *)
(* ===================================================================== *)

(** The float literal [1e-4]: the double nearest to one ten-thousandth. *)
Definition float_1e_4 : Q := (7378697629483821 # 73786976294838206464)%Q.

(** [x < y] on floats. *)
Definition float_ltb (x y : Q) : bool := negb (Qle_bool y x).

(** Truth value of a float: everything but zero. *)
Definition float_truthy (x : Q) : bool := negb (Qeq_bool x 0).

(** Nearest integer, ties to even: how ["%.6f"] rounds the last digit. *)
Definition round_half_even (x : Q) : Z :=
  let f := Qfloor x in
  let twice_frac := (2 * (x - inject_Z f))%Q in
  if Qle_bool twice_frac 1 then
    if Qeq_bool twice_frac 1 then (if Z.even f then f else f + 1)%Z else f
  else (f + 1)%Z.

(** Left-pad a digit string with zeros to [width] characters. *)
Definition zero_pad (width : nat) (s : string) : string :=
  (string_of_list_ascii (repeat "0"%char (width - String.length s)) ++ s)%string.

(** ["%09.6f" % s] for [0 <= s]. *)
Definition fmt_09_6f (s : Q) : string :=
  let micro := round_half_even (s * 1000000)%Q in
  zero_pad 9 (str_int (micro / 1000000)%Z ++ "."
              ++ zero_pad 6 (str_int (micro mod 1000000)%Z))%string.

(** [_to_ffmpeg_time(n)]: [divmod] twice, then ['%d:%02d:%09.6f']. *)
Definition _to_ffmpeg_time (n : Q) : string :=
  let m := Qfloor (n / 60)%Q in
  let s := (n - 60 * inject_Z m)%Q in
  let h := (m / 60)%Z in
  let m := (m mod 60)%Z in
  (str_int h ++ ":" ++ fmt_02d m ++ ":" ++ fmt_09_6f s)%string.

(** The line break in the source's message strings. *)
Definition nl : string := String (ascii_of_nat 10) EmptyString.

(** [class Info]: what one ffprobe call told about a file. *)
Record Info := MkInfo {
  info_filename : string;
  Info_info : probe_info;         (* self.info *)
  audio_streams : list stream
}.

(** A value that is an int or a list of ints, as [stem_id] (when it is not
    [None]) and [substreams] are. *)
Inductive int_or_list :=
| an_int (i : Z)
| a_list (l : list Z).

Section Read.
Context {sample : Type}.
Variable env : environment sample.
Local Open Scope py_scope.

Local Notation "'IO'" := (M (world sample)).

(** [ffmpeg.probe(filename)] *)
Definition ffmpeg_probe (filename : string) : IO probe_info :=
  spawn (FFprobe filename) ;;;
  match ffprobe env filename with
  | inl err => raise (Exn FFmpegError err)
  | inr pi => ret pi
  end.

(** [Info.__init__] *)
Definition Info_init (filename : string) : IO Info :=
  pi <- ffmpeg_probe filename ;;
  match pi_streams pi with
  | None => raise (Exn KeyError "'streams'")
  | Some ss =>
      ret (MkInfo filename pi
             (filter (fun st => String.eqb (st_codec_type st) "audio") ss))
  end.

Definition nb_audio_streams (self : Info) : nat :=
  List.length (audio_streams self).

Definition audio_stream_idx (self : Info) : list Z :=
  map st_index (audio_streams self).

Definition Info_sample_rate (self : Info) (idx : Z) : result Z :=
  st <-- getitem (audio_streams self) idx ;; Ok (st_sample_rate st).

Definition Info_channels (self : Info) (idx : Z) : result Z :=
  st <-- getitem (audio_streams self) idx ;; Ok (st_channels st).

(** Lines 98 to 101: the fix for very small start values. *)
Definition effective_start (start : option Q) : option Q :=
  match start with
  | Some s =>
      if float_truthy s then
        if float_ltb s float_1e_4 then None else Some s
      else Some s
  | None => None
  end.

(** Lines 107 to 113: [output_kwargs] for one sub-stream. *)
Definition decode_kwargs (sample_rate : Z) (duration start : option Q)
    (stem : Z) : output_kwargs :=
  OutputKwargs "f32le" sample_rate
    (option_map _to_ffmpeg_time duration)
    (option_map _to_ffmpeg_time start)
    ("0:" ++ str_int stem)%string.

(** Lines 121 and 122: the cast to the requested dtype. *)
Definition cast_to (dt : dtype) (waveform : ndarray sample)
    : ndarray sample :=
  if dtype_eqb float32 dt then waveform
  else map_elems (astype env dt) waveform.

(** One round of [for stem in substreams]; the loop carries
    [sample_rate] and [stems]. *)
Definition decode_stem (filename : string) (metadata : Info)
    (start duration : option Q) (dt : dtype) (stem : Z)
    (acc : option Z * list (ndarray sample))
    : IO (option Z * list (ndarray sample)) :=
  let '(sample_rate, stems) := acc in
  sample_rate <- match sample_rate with
                 | None => lift (Info_sample_rate metadata stem)
                 | Some r => ret r
                 end ;;
  channels <- lift (Info_channels metadata stem) ;;
  let output_kwargs := decode_kwargs sample_rate duration start stem in
  spawn (FFmpegDecode filename output_kwargs) ;;;
  let buffer := ffmpeg_decode env filename output_kwargs in
  waveform <- lift (reshape [(-1)%Z; channels] (frombuffer buffer)) ;;
  let waveform := cast_to dt waveform in
  ret (Some sample_rate, stems ++ [waveform]).

(** [t.shape[0]] of a decoded stem. *)
Definition nb_rows (t : ndarray sample) : nat := hd 0 (shape t).

(** The alignment step: lines 125 to 129. *)
Definition align_stems (stems : list (ndarray sample))
    : IO (list (ndarray sample)) :=
  let stem_durations := map nb_rows stems in
  match stem_durations with
  | [] => raise (Exn IndexError
                   "index 0 is out of bounds for axis 0 with size 0")
  | first :: _ =>
      if negb (forallb (Nat.eqb first) stem_durations) then
        warning <- lift (warnings "warning") ;;
        warning "Stems differ in length and were shortend" ;;;
        let min_length := fold_right Nat.min first stem_durations in
        lift (map_result (take_rows min_length) stems)
      else ret stems
  end.

(** Stems folded into the channels of one stream: lines 133 to 138. *)
Definition stems_of_channels (stems_from_channels : Z)
    (stems : ndarray sample) : result (ndarray sample) :=
  if negb (stems_from_channels =? 0)%Z && (1 <? last (shape stems) 0) then
    stems <-- transpose [1; 0; 2] stems ;;
    stems <-- reshape [Z.of_nat (nth 0 (shape stems) 0);
                       Z.of_nat (nth 1 (shape stems) 0);
                       (-1)%Z; stems_from_channels] stems ;;
    stems <-- transpose [2; 0; 3; 1] stems ;;
    index_last0 stems
  else Ok stems.

(** Lines 59 to 72: the metadata, probed or passed in. *)
Definition probe_metadata (filename : string) (info : option Info)
    : IO Info :=
  try_except
    (metadata <- match info with
                 | None => Info_init filename
                 | Some i => ret i
                 end ;;
     ffmpeg_probe filename ;;;
     ret metadata)
    FFmpegError
    (fun e => raise (Exn Warning
       ("An error occurs with ffprobe (see ffprobe output below)"
        ++ nl ++ nl ++ exn_msg e)%string)).

(** Lines 73 to 95: which sub-streams to decode. *)
Definition select_substreams (metadata : Info)
    (stem_id : option int_or_list) (stems_from_channels : Z)
    : result (list Z) :=
  if match pi_streams (Info_info metadata) with
     | None => true
     | Some _ => false
     end
     || Nat.eqb (nb_audio_streams metadata) 0
  then Raise (Exn Warning "No stream was found with ffprobe")
  else
    substreams <--
      (if negb (stems_from_channels =? 0)%Z then
         if negb (Nat.eqb (nb_audio_streams metadata) 1) then
           Raise (Exn Warning
             "In this configuration, only a single substream is processed")
         else
           st0 <-- getitem (audio_streams metadata) 0%Z ;;
           if negb (st_channels st0 mod stems_from_channels =? 0)%Z then
             Raise (Exn Warning "Stems should be encoded as multi-channel")
           else Ok (an_int 0)
       else
         match stem_id with
         | Some stem_id => Ok stem_id
         | None => Ok (a_list (audio_stream_idx metadata))
         end) ;;
    Ok (match substreams with
        | a_list l => l
        | an_int i => [i]
        end).

Definition read_stems (filename : string) (start duration : option Q)
    (stem_id : option int_or_list) (always_3d : bool) (dt : dtype)
    (info : option Info) (sample_rate : option Z) (stems_from_channels : Z)
    : IO (ndarray sample * option Z) :=
  metadata <- probe_metadata filename info ;;
  substreams <- lift (select_substreams metadata stem_id
                        stems_from_channels) ;;
  (* apply fix for very small start values of `-ss <0.000001` *)
  let start := effective_start start in
  loop_vars <-
    for_each substreams
      (decode_stem filename metadata start duration dt)
      (sample_rate, []) ;;
  let '(sample_rate, stems) := loop_vars in
  stems <- align_stems stems ;;
  stems <- lift (stack stems) ;;
  stems <- lift (stems_of_channels stems_from_channels stems) ;;
  let stems := if always_3d then stems else squeeze stems in
  ret (stems, sample_rate).

End Read.

(* ===================================================================== *)
(** * write.py *)
(* ===================================================================== *)

(** One stem's arguments in [build_channel_map]: the map of its labelled
    output and its three metadata tags. *)
Definition stream_args (stem_names : list string) (idx : Z)
    : result (list string) :=
  (title <-- getitem stem_names idx ;;
   handler <-- getitem stem_names idx ;;
   handler_name <-- getitem stem_names idx ;;
   Ok [ "-map";
        ("[a" ++ str_int idx ++ "]")%string;
        (* add title tag (e.g. displayed by VLC) *)
        ("-metadata:s:a:" ++ str_int idx)%string;
        ("title=" ++ title)%string;
        (* add handler tag (e.g. read by ffmpeg < 4.1) *)
        ("-metadata:s:a:" ++ str_int idx)%string;
        ("handler=" ++ handler)%string;
        (* add handler tag for ffmpeg >= 4.1 *)
        ("-metadata:s:a:" ++ str_int idx)%string;
        ("handler_name=" ++ handler_name)%string ])%py.

(** ["[a:0]pan=mono| c0=c%d[a%d]" % (idx, idx)] *)
Definition pan_mono (idx : Z) : string :=
  ("[a:0]pan=mono| c0=c" ++ str_int idx ++ "[a" ++ str_int idx ++ "]")%string.

(** ["[a:0]pan=stereo| c0=c%d | c1=c%d[a%d]" % (idx * 2, idx * 2 + 1, idx)] *)
Definition pan_stereo (idx : Z) : string :=
  ("[a:0]pan=stereo| c0=c" ++ str_int (idx * 2)%Z
   ++ " | c1=c" ++ str_int (idx * 2 + 1)%Z
   ++ "[a" ++ str_int idx ++ "]")%string.

Definition build_channel_map (nb_stems nb_channels : Z)
    (stem_names : list string) : result (list string) :=
  (if negb (nb_stems =? Z.of_nat (List.length stem_names))%Z then
     Raise (Exn RuntimeError "Please provide a list of stem names")
   else if (nb_channels =? 1)%Z then
     per_stem <-- map_result (stream_args stem_names) (range nb_stems) ;;
     Ok (["-filter_complex"; join ";" (map pan_mono (range nb_stems))]
         ++ List.concat per_stem)
   else if (nb_channels =? 2)%Z then
     per_stem <-- map_result (stream_args stem_names) (range nb_stems) ;;
     Ok (["-filter_complex"; join ";" (map pan_stereo (range nb_stems))]
         ++ List.concat per_stem)
   else
     Raise (Exn NotImplementedError
              "Stempeg only support mono or stereo stems"))%py.

(** ["%d" % x] for a float: the integer part. *)
Definition fmt_d_float (x : Q) : string :=
  str_int (Z.quot (Qnum x) (Z.pos (Qden x))).

(** [int(c)] for a one-character string. *)
Definition int_of_char (c : ascii) : result Z :=
  let n := nat_of_ascii c in
  if (48 <=? n) && (n <=? 57) then Ok (Z.of_nat (n - 48))
  else Raise (Exn ValueError "invalid literal for int() with base 10").

Section Write.
Context {sample : Type}.
Variable env : environment sample.
Local Open Scope py_scope.

Local Notation "'IO'" := (M (world sample)).

(** The pipe to the encoder. *)
Definition stdin_write (call : encode_call sample) : IO unit :=
  if write_raises_ioerror (ffmpeg_encode env call)
  then raise (Exn IOError "[Errno 32] Broken pipe") else ret tt.

Definition stdin_close (call : encode_call sample) : IO unit :=
  if close_raises_ioerror (ffmpeg_encode env call)
  then raise (Exn IOError "[Errno 32] Broken pipe") else ret tt.

Definition process_wait (call : encode_call sample) : IO Z :=
  ret (exit_status (ffmpeg_encode env call)).

(** The ffmpeg invocation [write_audio] makes for data of one or two
    dimensions, lines 504 to 525, with the bytes line 527 writes to its
    standard input: the samples cast to little-endian float32, in the
    array's own order. *)
Definition encode_process (path : string) (data : ndarray sample)
    (sample_rate : Q) (output_sample_rate : option Q)
    (codec : option string) (bitrate : option Z) (nb_channels : nat)
    : encode_call sample :=
  let output_sample_rate :=
    match output_sample_rate with
    | None => sample_rate
    | Some r => r
    end in
  let audio_bitrate :=
    match bitrate with
    | Some b => if (b =? 0)%Z then None else Some b
    | None => None
    end in
  EncodeCall path sample_rate (Z.of_nat nb_channels) output_sample_rate
    audio_bitrate codec (shape data)
    (map (astype env float32) (np.data data)).

Definition write_audio (path : string) (data : ndarray sample)
    (sample_rate : Q) (output_sample_rate : option Q)
    (codec : option string) (bitrate : option Z) : IO unit :=
  (* check if path is available and creat it *)
  fs_write (MkdirParentOf path) ;;;
  nb_channels <-
    (if Nat.eqb (ndim data) 1 then ret 1%nat
     else if Nat.eqb (ndim data) 2 then ret (last (shape data) 0)
     else raise (Exn RuntimeError "Number of channels not supported")) ;;
  let process :=
    encode_process path data sample_rate output_sample_rate codec bitrate
      nb_channels in
  spawn (FFmpegEncode process) ;;;
  try_except
    (stdin_write process ;;;
     stdin_close process ;;;
     process_wait process ;;;
     ret tt)
    IOError
    (fun _ => raise (Exn Warning
       ("FFMPEG error: "
        ++ bytes_repr env (stderr_text (ffmpeg_encode env process)))%string)).

(** The capability the mux strategies share: being called with
    [(data, path, sample_rate)].  Calling may update the mapper object,
    whose new state is returned. *)
Class Mapper (T : Type) := {
  is_ChannelsMapper : T -> bool;      (* isinstance(m, ChannelsMapper) *)
  set_stem_names : list string -> T -> T;   (* m.stem_names = names *)
  call : T -> ndarray sample -> string -> Q -> IO T
}.

Record ChannelsMapper := MkChannelsMapper {
  cm_codec : option string;
  cm_bitrate : option Z;
  cm_output_sample_rate : option Q;
  cm_stem_names : option (list string)  (* set from outside, never read *)
}.

(** [ChannelsMapper.__call__] *)
Definition ChannelsMapper_call (self : ChannelsMapper)
    (data : ndarray sample) (path : string) (sample_rate : Q)
    : IO ChannelsMapper :=
  (* check output sample rate *)
  let self :=
    match cm_output_sample_rate self with
    | None => MkChannelsMapper (cm_codec self) (cm_bitrate self)
                (Some sample_rate) (cm_stem_names self)
    | Some _ => self
    end in
  match shape data with
  | [nb_stems; nb_samples; nb_channels] =>
      (* (stems, samples, channels) -> (samples, stems, channels) *)
      data <- lift (transpose [1; 0; 2] data) ;;
      (* aggregate stem and channels *)
      data <- lift (reshape [Z.of_nat nb_samples; (-1)%Z] data) ;;
      let data := squeeze data in
      write_audio path data sample_rate (cm_output_sample_rate self)
        (cm_codec self) (cm_bitrate self) ;;;
      ret self
  | _ => raise (Exn ValueError "not enough values to unpack")
  end.

#[export] Instance ChannelsMapper_Mapper : Mapper ChannelsMapper := {
  is_ChannelsMapper := fun _ => true;
  set_stem_names := fun names self =>
    MkChannelsMapper (cm_codec self) (cm_bitrate self)
      (cm_output_sample_rate self) (Some names);
  call := ChannelsMapper_call
}.


Record StreamsMapper := MkStreamsMapper {
  sm_codec : option string;
  sm_bitrate : option Z;
  sm_output_sample_rate : option Q;
  sm_stem_names : option (list string)
}.

(** [StreamsMapper.__call__] *)
Definition StreamsMapper_call (self : StreamsMapper)
    (data : ndarray sample) (path : string) (sample_rate : Q)
    : IO StreamsMapper :=
  match shape data with
  | [nb_stems; nb_samples; nb_channels] =>
      let output_sample_rate :=
        match sm_output_sample_rate self with
        | None => sample_rate
        | Some r => r
        end in
      let stem_names :=
        match sm_stem_names self with
        | None => map (fun k => ("Stem " ++ str_int k)%string)
                      (range (Z.of_nat nb_stems))
        | Some names => names
        end in
      let self := MkStreamsMapper (sm_codec self) (sm_bitrate self)
                    (Some output_sample_rate) (Some stem_names) in
      (* (stems, samples, channels) -> (samples, stems, channels) *)
      data <- lift (transpose [1; 0; 2] data) ;;
      (* aggregate stem and channels *)
      data <- lift (reshape [Z.of_nat nb_samples; (-1)%Z] data) ;;
      (* stems as multistream file (real stems)
         create temporary file and merge afterwards *)
      let tempfile := tempfile_name env ".wav" in
      fs_write (CreateTempFile tempfile) ;;;
      finally
        ((* write audio to temporary file *)
         write_audio tempfile data sample_rate (Some output_sample_rate)
           (Some "pcm_s16le") None ;;;
         (* check if path is available and creat it *)
         fs_write (MkdirParentOf path) ;;;
         channel_map <- lift (build_channel_map (Z.of_nat nb_stems)
                                (Z.of_nat nb_channels) stem_names) ;;
         (* convert tempfile to multistem file assuming
            each stem occupies a pair of channels *)
         let cmd :=
           ["ffmpeg"; "-y"; "-acodec"; "pcm_s16le"; "-i"; tempfile]
           ++ channel_map
           ++ ["-vn"]
           ++ match sm_codec self with
              | Some c => ["-c:a"; c]
              | None => []
              end
           ++ ["-ar"; fmt_d_float output_sample_rate;
               "-strict"; "-2"; "-loglevel"; "error"]
           ++ match sm_bitrate self with
              | Some b => ["-ab"; str_int b]
              | None => []
              end
           ++ [path] in
         spawn (Subprocess cmd) ;;;
         if (check_call env cmd =? 0)%Z then ret self
         else raise (Exn RuntimeError
                       ("Command returned non-zero exit status "
                        ++ str_int (check_call env cmd))%string))
        (fs_write (RemoveTempFile tempfile))
  | _ => raise (Exn ValueError "not enough values to unpack")
  end.

#[export] Instance StreamsMapper_Mapper : Mapper StreamsMapper := {
  is_ChannelsMapper := fun _ => false;
  set_stem_names := fun names self =>
    MkStreamsMapper (sm_codec self) (sm_bitrate self)
      (sm_output_sample_rate self) (Some names);
  call := StreamsMapper_call
}.

(** [data] of [write_stems]: a tensor, or a dict from stem name to a
    [(samples, channels)] array, in insertion order. *)
Inductive stems_data :=
| Tensor (a : ndarray sample)
| Dict (items : list (string * ndarray sample)).

(** [stempeg.ffmpeg_version()] *)
Definition ffmpeg_version : IO (option string) :=
  spawn FFmpegVersion ;;; lift (ffmpeg_version_output env).

(** [int(version[0])] *)
Definition major_version (version : option string) : result Z :=
  match version with
  | None => Raise (Exn TypeError "'NoneType' object is not subscriptable")
  | Some EmptyString => Raise (Exn IndexError "string index out of range")
  | Some (String c _) => int_of_char c
  end.

Definition write_stems {T} `{Mapper T} (path : string) (data : stems_data)
    (sample_rate : Q) (mapper : T) : IO T :=
  version <- ffmpeg_version ;;
  major <- lift (major_version version) ;;
  (if (major <? 3)%Z then
     warning <- lift (warnings "warning") ;;
     warning "Writing stems with FFMPEG version < 3 is unsupported"
   else ret tt) ;;;
  resolved <-
    match data with
    | Dict items =>
        let keys := map fst items in
        let values := map snd items in
        data <- lift (stack values) ;;
        let stem_names := keys in
        ret (data, if negb (is_ChannelsMapper mapper)
                   then set_stem_names stem_names mapper
                   else mapper)
    | Tensor a => ret (a, mapper)
    end ;;
  let '(data, mapper) := resolved in
  if negb (Nat.eqb (ndim data) 3) then
    raise (Exn RuntimeError "Input tensor dimension should be 3d")
  else
    call mapper data path sample_rate.

End Write.

Arguments Mapper sample T : clear implicits.
Arguments stems_data sample : clear implicits.

(* ===================================================================== *)
(** * Concrete inputs *)
(* ===================================================================== *)

(** Samples are written as integers in the examples; the code moves them
    around and casts them. *)

(** An environment in which ffprobe reports [streams], sub-stream [m]
    decodes to [decoded m], every encoder behaves as [outcome] and
    [ffmpeg -version] reports [version]. *)
Definition demo_env (streams : list stream) (decoded : string -> list Z)
    (outcome : pipe_outcome) (version : string) : environment Z :=
  Environment
    (fun _ => inr (ProbeInfo (Some streams)))
    (fun _ kw => decoded (kw_map kw))
    (fun _ x => x)
    (fun _ => outcome)
    (Ok (Some version))
    (fun s => ("b'" ++ s ++ "'")%string)
    (fun suffix => ("/tmp/tmpstems" ++ suffix)%string)
    (fun _ => 0%Z).

Definition quiet_encoder : pipe_outcome := PipeOutcome false false 0 "".

(** Two mono sub-streams, 44100 Hz and 48000 Hz. *)
Definition two_streams : list stream :=
  [Stream 0 "audio" 44100 1; Stream 1 "audio" 48000 1].

(** Two mono sub-streams of 44100 Hz; sub-stream 0 decodes to two samples,
    sub-stream 1 to one. *)
Definition uneven_env : environment Z :=
  demo_env [Stream 0 "audio" 44100 1; Stream 1 "audio" 44100 1]
    (fun m => if String.eqb m "0:0" then [10; 11]%Z else [20]%Z)
    quiet_encoder "4.2.1".

(** The two sub-streams of different rates, both decoding to two
    samples. *)
Definition even_env : environment Z :=
  demo_env two_streams
    (fun m => if String.eqb m "0:0" then [10; 11]%Z else [20; 21]%Z)
    quiet_encoder "4.2.1".

(** One sub-stream of four channels, two samples long: two stereo stems
    folded into channels. *)
Definition four_channel_env : environment Z :=
  demo_env [Stream 0 "audio" 44100 4]
    (fun _ => [1; 2; 3; 4; 5; 6; 7; 8]%Z) quiet_encoder "4.2.1".

(** One stereo sub-stream, four samples long. *)
Definition stereo_env : environment Z :=
  demo_env [Stream 0 "audio" 44100 2]
    (fun _ => [1; 2; 3; 4; 5; 6; 7; 8]%Z) quiet_encoder "4.2.1".

(** An encoder that takes all its input and then exits with status 1. *)
Definition failing_encoder_env : environment Z :=
  demo_env [] (fun _ => []) (PipeOutcome false false 1 "Conversion failed!")
    "4.2.1".

(** ffmpeg 2.8 is installed. *)
Definition old_ffmpeg_env : environment Z :=
  demo_env [] (fun _ => []) quiet_encoder "2.8.15".

Definition plain_channels_mapper : ChannelsMapper :=
  MkChannelsMapper None None None None.

(** The tensor [write_stems] checks: [data] itself, or the stacked values of
    the dict. *)
Definition resolved_tensor {sample} (data : stems_data sample)
    : result (ndarray sample) :=
  match data with
  | Tensor a => Ok a
  | Dict items => stack (map snd items)
  end.

(** Whether the character [c] occurs in [s]. *)
Fixpoint contains_char (c : ascii) (s : string) : bool :=
  match s with
  | EmptyString => false
  | String x rest => Ascii.eqb x c || contains_char c rest
  end.

(** The ['ss'] option of every decoder in a list of processes. *)
Definition seek_options {sample} (ps : list (process sample))
    : list (option string) :=
  flat_map (fun p => match p with
                     | FFmpegDecode _ kw => [kw_ss kw]
                     | _ => []
                     end) ps.

(* ===================================================================== *)
(** * Further concrete inputs *)
(* ===================================================================== *)

(** A mono sub-stream of 44100 Hz and a stereo sub-stream of 48000 Hz, two
    samples long each. *)
Definition mono_stereo_env : environment Z :=
  demo_env [Stream 0 "audio" 44100 1; Stream 1 "audio" 48000 2]
    (fun m => if String.eqb m "0:0" then [10; 11]%Z
              else [20; 21; 22; 23]%Z)
    quiet_encoder "4.2.1".

(** [numpy.float32(n)] for an integer [n] (of size below 2^128): the
    nearest number with a significand of 24 bits, ties to even.  Up to
    2^24 every integer is kept; 2^24 + 1 becomes 2^24. *)
Definition float32_of_int (n : Z) : Z :=
  let e := (Z.log2 (Z.abs n) - 23)%Z in
  if (e <=? 0)%Z then n
  else (round_half_even (n # Z.to_pos (2 ^ e)) * 2 ^ e)%Z.

(** One sub-stream of four channels, with numpy's cast of integers to
    float32: the sub-stream decodes to what the interleaved-multichannel
    strategy writes for the tensor of shape (2, 2, 2) with the samples 1 to
    7 and 2^24 + 1.  (The integers of the examples are exact in every other
    dtype.) *)
Definition rounding_env : environment Z :=
  Environment
    (fun _ => inr (ProbeInfo (Some [Stream 0 "audio" 44100 4])))
    (fun _ _ => [1; 2; 5; 6; 3; 4; 7; 16777216]%Z)
    (fun dt x => match dt with
                 | float32 => float32_of_int x
                 | _ => x
                 end)
    (fun _ => quiet_encoder)
    (Ok (Some "4.2.1"))
    (fun s => ("b'" ++ s ++ "'")%string)
    (fun suffix => ("/tmp/tmpstems" ++ suffix)%string)
    (fun _ => 0%Z).

(** A file on which ffprobe fails. *)
Definition unreadable_env : environment Z :=
  Environment
    (fun _ => inl "stems.mp4: No such file or directory")
    (fun _ _ => []) (fun _ x => x) (fun _ => quiet_encoder)
    (Ok (Some "4.2.1")) (fun s => s) (fun s => s) (fun _ => 0%Z).

(** A video stream first, then one audio sub-stream with container
    index 1. *)
Definition video_first_env : environment Z :=
  demo_env [Stream 0 "video" 0 0; Stream 1 "audio" 44100 2]
    (fun _ => [1; 2; 3; 4]%Z) quiet_encoder "4.2.1".

(** Whether a process is one [read_stems] may start on [filename]. *)
Definition read_process {sample} (filename : string) (p : process sample)
    : bool :=
  match p with
  | FFprobe f => String.eqb f filename
  | FFmpegDecode f _ => String.eqb f filename
  | _ => false
  end.

(** A container with a video stream only. *)
Definition video_only_env : environment Z :=
  demo_env [Stream 0 "video" 0 0] (fun _ => []) quiet_encoder "4.2.1".

(** Whether a process is a decoding ffmpeg. *)
Definition is_decode {sample} (p : process sample) : bool :=
  match p with
  | FFmpegDecode _ _ => true
  | _ => false
  end.

(* ===================================================================== *)
(** * write.py: the remaining strategies *)
(* ===================================================================== *)

(** The command [StreamsMapper.__call__] hands to [sp.check_call]: lines
    439 to 464, for the temporary file, the channel map and the mapper's
    settings. *)
Definition remux_command (tempfile : string) (channel_map : list string)
    (codec : option string) (output_sample_rate : Q) (bitrate : option Z)
    (path : string) : list string :=
  ["ffmpeg"; "-y"; "-acodec"; "pcm_s16le"; "-i"; tempfile]
  ++ channel_map
  ++ ["-vn"]
  ++ match codec with
     | Some c => ["-c:a"; c]
     | None => []
     end
  ++ ["-ar"; fmt_d_float output_sample_rate;
      "-strict"; "-2"; "-loglevel"; "error"]
  ++ match bitrate with
     | Some b => ["-ab"; str_int b]
     | None => []
     end
  ++ [path].

(** [["Stem " + str(k) for k in range(nb_stems)]] *)
Definition default_stem_names (nb_stems : nat) : list string :=
  map (fun k => ("Stem " ++ str_int k)%string) (range (Z.of_nat nb_stems)).

(** Every encoder takes all its input: no write to and no close of a pipe
    raises. *)
Definition pipes_hold {sample} (env : environment sample) : Prop :=
  forall call,
    write_raises_ioerror (ffmpeg_encode env call) = false
    /\ close_raises_ioerror (ffmpeg_encode env call) = false.

Definition plain_streams_mapper : StreamsMapper :=
  MkStreamsMapper None None None None.

(** The remuxing ffmpeg exits with status 1. *)
Definition failing_remux_env : environment Z :=
  Environment
    (fun _ => inr (ProbeInfo (Some [])))
    (fun _ _ => []) (fun _ x => x) (fun _ => quiet_encoder)
    (Ok (Some "4.2.1")) (fun s => s)
    (fun suffix => ("/tmp/tmpstems" ++ suffix)%string) (fun _ => 1%Z).

(** Whether a file-system operation creates a directory. *)
Definition is_mkdir (op : fs_op) : bool :=
  match op with
  | MkdirParentOf _ => true
  | _ => false
  end.

(** [a[idx]] along the first axis, for [0 <= idx]. *)
Definition item {A} (idx : nat) (a : ndarray A) : result (ndarray A) :=
  match shape a with
  | [] => Raise (Exn IndexError "too many indices for array")
  | d :: rest =>
      if idx <? d then
        Ok (Array rest
              (firstn (size_of rest) (skipn (idx * size_of rest) (data a))))
      else Raise (Exn IndexError "index is out of bounds for axis 0")
  end.

Section FilesMapperModel.
Context {sample : Type}.
Variable env : environment sample.

(** [pathlib]: [Path(p).parent] and [Path(p).suffix] as strings, and
    [str(Path(directory, name))]. *)
Variable parent_of : string -> string.
Variable suffix_of : string -> string.
Variable joined : string -> string -> string.

Local Open Scope py_scope.

(** A [FilesMapper] built with [multiprocess=False], so that [self._pool]
    is [None] and every stem is written by a direct call of [write_audio];
    the branch that hands the calls to a process pool is not modelled. *)
Record FilesMapper := MkFilesMapper {
  fm_codec : option string;
  fm_bitrate : option Z;
  fm_output_sample_rate : option Q;
  fm_stem_names : option (list string)
}.

(** Lines 308 to 311: the file of stem [name]. *)
Definition stem_filepath (path name : string) : string :=
  joined (parent_of path) (name ++ suffix_of path)%string.

(** [FilesMapper.__call__] with [self._pool] being [None]. *)
Definition FilesMapper_call (self : FilesMapper) (data : ndarray sample)
    (path : string) (sample_rate : Q) : M (world sample) FilesMapper :=
  match shape data with
  | [] => raise (Exn IndexError "tuple index out of range")
  | nb_stems :: _ =>
      let output_sample_rate :=
        match fm_output_sample_rate self with
        | None => sample_rate
        | Some r => r
        end in
      let stem_names :=
        match fm_stem_names self with
        | None => default_stem_names nb_stems
        | Some names => names
        end in
      let self := MkFilesMapper (fm_codec self) (fm_bitrate self)
                    (Some output_sample_rate) (Some stem_names) in
      for_each (range (Z.of_nat nb_stems))
        (fun idx (_ : unit) =>
           name <- lift (getitem stem_names idx) ;;
           stem <- lift (item (Z.to_nat idx) data) ;;
           write_audio env (stem_filepath path name) stem sample_rate
             (Some output_sample_rate) (fm_codec self) (fm_bitrate self))
        tt ;;;
      ret self
  end.

#[export] Instance FilesMapper_Mapper : Mapper sample FilesMapper := {
  is_ChannelsMapper := fun _ => false;
  set_stem_names := fun names self =>
    MkFilesMapper (fm_codec self) (fm_bitrate self)
      (fm_output_sample_rate self) (Some names);
  call := FilesMapper_call
}.

End FilesMapperModel.

(* ===================================================================== *)
(** * __init__.py: the checks for installed binaries *)
(* ===================================================================== *)

Section InstallChecks.

(** [shutil.which] *)
Variable which : string -> option string.

(** [for binary in binaries: if shutil.which(binary) is None: raise
    OSError(...)]; [OSError] and [IOError] are one class. *)
Fixpoint check_binaries (binaries : list string) : result unit :=
  match binaries with
  | [] => Ok tt
  | binary :: rest =>
      match which binary with
      | None => Raise (Exn IOError (binary ++ " binary not found")%string)
      | Some _ => check_binaries rest
      end
  end.

(** What iterating over a string gives: its characters. *)
Definition characters (s : string) : list string :=
  map (fun c => String c EmptyString) (list_ascii_of_string s).

(** [_check_ffmpeg_install]: [for binary in ('ffmpeg', 'ffprobe')] *)
Definition _check_ffmpeg_install : result unit :=
  check_binaries ["ffmpeg"; "ffprobe"].

(** [_check_mp4box_install]: [for binary in ('mp4box')], where
    [('mp4box')] is the string itself, not a tuple. *)
Definition _check_mp4box_install : result unit :=
  check_binaries (characters "mp4box").

End InstallChecks.

(** A machine with mp4box installed and nothing else. *)
Definition which_only_mp4box (binary : string) : option string :=
  if String.eqb binary "mp4box" then Some "/usr/bin/mp4box" else None.

(** The directory is what stands before the last slash and the suffix what
    follows the last dot, for the plain relative paths of the examples. *)
Definition demo_parent (path : string) : string :=
  if String.eqb path "out/stems.wav" then "out" else ".".
Definition demo_suffix (path : string) : string :=
  if String.eqb path "out/stems.wav" then ".wav" else "".
Definition demo_joined (directory name : string) : string :=
  (directory ++ "/" ++ name)%string.

(** An ffprobe whose answer has no ['streams'] entry. *)
Definition no_streams_key_env : environment Z :=
  Environment
    (fun _ => inr (ProbeInfo None))
    (fun _ _ => []) (fun _ x => x) (fun _ => quiet_encoder)
    (Ok (Some "4.2.1")) (fun s => s) (fun s => s) (fun _ => 0%Z).

(* ===================================================================== *)
(** * Properties of the array operations *)
(* ===================================================================== *)

Section NDArrayFacts.
Context {A : Type}.
Implicit Types (a b : ndarray A) (sh idx : list nat) (xs : list A).

Lemma gather_cons xs o offs x :
  nth_error xs o = Some x -> gather xs (o :: offs) = x :: gather xs offs.
Proof. intros E. unfold gather. simpl. now rewrite E. Qed.

Lemma gather_nth xs offs i :
  Forall (fun o => o < List.length xs) offs ->
  nth_error (gather xs offs) i =
  match nth_error offs i with
  | Some o => nth_error xs o
  | None => None
  end.
Proof.
  intros Hall. revert i. induction Hall as [|o offs Ho _ IH]; intros i.
  - now destruct i.
  - destruct (nth_error xs o) as [x|] eqn:E.
    + rewrite (gather_cons _ _ _ _ E). destruct i; simpl; auto.
    + apply nth_error_None in E. lia.
Qed.

Lemma gather_length xs offs :
  Forall (fun o => o < List.length xs) offs ->
  List.length (gather xs offs) = List.length offs.
Proof.
  induction 1 as [|o offs Ho _ IH]; [reflexivity|].
  destruct (nth_error xs o) as [x|] eqn:E.
  - rewrite (gather_cons _ _ _ _ E). simpl. now rewrite IH.
  - apply nth_error_None in E. lia.
Qed.

Lemma in_bounds_length sh idx :
  in_bounds sh idx = true -> List.length idx = List.length sh.
Proof.
  revert idx. induction sh as [|d sh IH]; intros [|i idx]; simpl;
    try discriminate; auto.
  intros H. apply andb_true_iff in H as [_ H]. now rewrite (IH _ H).
Qed.

Lemma in_bounds_nth sh idx k :
  in_bounds sh idx = true -> k < List.length sh -> nth k idx 0 < nth k sh 0.
Proof.
  revert idx k. induction sh as [|d sh IH]; intros [|i idx] k; simpl;
    try discriminate; try lia.
  intros H Hk. apply andb_true_iff in H as [Hi H].
  apply Nat.ltb_lt in Hi. destruct k; [exact Hi|]. apply IH; [exact H|lia].
Qed.

Lemma in_bounds_intro sh idx :
  List.length idx = List.length sh ->
  (forall k, k < List.length sh -> nth k idx 0 < nth k sh 0) ->
  in_bounds sh idx = true.
Proof.
  revert idx. induction sh as [|d sh IH]; intros [|i idx]; simpl;
    try discriminate; auto.
  intros Hlen Hk. apply andb_true_iff. split.
  - apply Nat.ltb_lt. apply (Hk 0). lia.
  - apply IH; [lia|]. intros k Hl. apply (Hk (S k)). lia.
Qed.

Lemma ravel_lt sh idx :
  in_bounds sh idx = true -> ravel sh idx < size_of sh.
Proof.
  revert idx. induction sh as [|d sh IH]; intros [|i idx]; simpl;
    try discriminate; try lia.
  intros H. apply andb_true_iff in H as [Hi H]. apply Nat.ltb_lt in Hi.
  specialize (IH _ H). fold (size_of sh). nia.
Qed.

Lemma unravel_ravel sh idx :
  in_bounds sh idx = true -> unravel sh (ravel sh idx) = idx.
Proof.
  revert idx. induction sh as [|d sh IH]; intros [|i idx]; simpl;
    try discriminate; auto.
  intros H. apply andb_true_iff in H as [Hi H].
  pose proof (ravel_lt _ _ H) as Hr.
  rewrite Nat.div_add_l by lia. rewrite Nat.div_small by exact Hr.
  rewrite Nat.add_0_r. f_equal.
  rewrite Nat.add_comm, Nat.Div0.mod_add, Nat.mod_small by exact Hr.
  now apply IH.
Qed.

Lemma unravel_in_bounds sh off :
  off < size_of sh -> in_bounds sh (unravel sh off) = true.
Proof.
  revert off. induction sh as [|d sh IH]; intros off; simpl; auto.
  fold (size_of sh). intros H.
  assert (size_of sh <> 0) by nia.
  apply andb_true_iff. split.
  - apply Nat.ltb_lt. apply Nat.Div0.div_lt_upper_bound. lia.
  - apply IH. now apply Nat.mod_upper_bound.
Qed.

Lemma ravel_unravel sh off :
  off < size_of sh -> ravel sh (unravel sh off) = off.
Proof.
  revert off. induction sh as [|d sh IH]; intros off; simpl.
  - lia.
  - fold (size_of sh). intros H.
    assert (size_of sh <> 0) by nia.
    rewrite IH by now apply Nat.mod_upper_bound.
    pose proof (Nat.div_mod_eq off (size_of sh)). lia.
Qed.

Lemma size_of_snoc sh last : size_of (sh ++ [last]) = size_of sh * last.
Proof.
  induction sh as [|d sh IH]; simpl; [lia|].
  fold (size_of (sh ++ [last])). fold (size_of sh). rewrite IH. lia.
Qed.

Lemma ravel_snoc sh idx last i :
  List.length idx = List.length sh ->
  ravel (sh ++ [last]) (idx ++ [i]) = ravel sh idx * last + i.
Proof.
  revert idx. induction sh as [|d sh IH]; intros [|j idx]; simpl;
    try discriminate; try lia.
  intros Hlen. rewrite IH by lia.
  fold (size_of (sh ++ [last])). fold (size_of sh).
  rewrite size_of_snoc. lia.
Qed.

Lemma in_bounds_snoc sh idx last i :
  in_bounds sh idx = true -> i < last ->
  in_bounds (sh ++ [last]) (idx ++ [i]) = true.
Proof.
  revert idx. induction sh as [|d sh IH]; intros [|j idx]; simpl;
    try discriminate.
  - intros _ H. apply Nat.ltb_lt in H. now rewrite H.
  - intros H Hi. apply andb_true_iff in H as [Hj H].
    rewrite Hj. simpl. now apply IH.
Qed.

End NDArrayFacts.

Section TransposeFacts.
Context {A : Type}.
Implicit Types (a b : ndarray A) (sh idx axes : list nat).

Lemma index_of_spec k axes :
  existsb (Nat.eqb k) axes = true ->
  index_of k axes < List.length axes /\ nth (index_of k axes) axes 0 = k.
Proof.
  induction axes as [|x axes IH]; simpl; [discriminate|].
  destruct (Nat.eqb k x) eqn:E.
  - apply Nat.eqb_eq in E. intros _. split; [lia|congruence].
  - simpl. intros H. destruct (IH H). split; [lia|assumption].
Qed.

Lemma is_permutation_mem axes k :
  is_permutation axes = true -> k < List.length axes ->
  existsb (Nat.eqb k) axes = true.
Proof.
  unfold is_permutation. intros H Hk. apply andb_true_iff in H as [H _].
  rewrite forallb_forall in H. apply H. apply in_seq. lia.
Qed.

Lemma source_index_in_bounds sh axes idx' :
  is_permutation axes = true ->
  List.length axes = List.length sh ->
  in_bounds (map (fun ax => nth ax sh 0) axes) idx' = true ->
  in_bounds sh (source_index axes idx') = true.
Proof.
  intros Hp Hlen Hb. unfold source_index. apply in_bounds_intro.
  - now rewrite length_map, length_seq.
  - intros k Hk.
    rewrite (nth_indep _ 0 (nth (index_of 0 axes) idx' 0))
      by (rewrite length_map, length_seq; lia).
    rewrite (map_nth (fun k => nth (index_of k axes) idx' 0)).
    rewrite seq_nth by lia. simpl.
    destruct (index_of_spec k axes) as [Hj Hn];
      [apply is_permutation_mem; [exact Hp|lia]|].
    pose proof (in_bounds_nth _ _ (index_of k axes) Hb) as Hlt.
    rewrite length_map in Hlt. specialize (Hlt Hj).
    assert (E : nth (index_of k axes) (map (fun ax => nth ax sh 0) axes) 0
                = nth k sh 0).
    { rewrite (nth_indep _ 0 (nth 0 sh 0)) by (rewrite length_map; exact Hj).
      rewrite (map_nth (fun ax => nth ax sh 0)). now rewrite Hn. }
    now rewrite E in Hlt.
Qed.

Lemma transpose_spec axes a :
  wf a ->
  List.length axes = ndim a ->
  is_permutation axes = true ->
  exists b,
    transpose axes a = Ok b
    /\ shape b = map (fun ax => nth ax (shape a) 0) axes
    /\ wf b
    /\ forall idx', in_bounds (shape b) idx' = true ->
                    get b idx' = get a (source_index axes idx').
Proof.
  intros Hwf Hlen Hp. unfold transpose.
  rewrite Hlen, Nat.eqb_refl, Hp. simpl.
  set (sh' := map (fun ax => nth ax (shape a) 0) axes).
  set (old := fun off' => ravel (shape a)
                                (source_index axes (unravel sh' off'))).
  assert (Hold : forall off', off' < size_of sh' ->
                              old off' < List.length (data a)).
  { intros off' Hoff. unfold old. rewrite Hwf. apply ravel_lt.
    apply (source_index_in_bounds _ _ _ Hp Hlen).
    now apply unravel_in_bounds. }
  assert (Hall : Forall (fun o => o < List.length (data a))
                        (map old (seq 0 (size_of sh')))).
  { apply Forall_forall. intros o Ho. apply in_map_iff in Ho as (x & <- & Hx).
    apply Hold. apply in_seq in Hx. lia. }
  eexists. split; [reflexivity|]. split; [reflexivity|]. split.
  - unfold wf. simpl. rewrite (gather_length _ _ Hall).
    now rewrite length_map, length_seq.
  - intros idx' Hb. simpl in Hb. unfold get at 1. simpl. fold sh'.
    rewrite Hb. rewrite (gather_nth _ _ _ Hall).
    rewrite nth_error_map.
    pose proof (ravel_lt _ _ Hb) as Hr.
    rewrite nth_error_seq. apply Nat.ltb_lt in Hr. rewrite Hr. simpl.
    unfold old. rewrite (unravel_ravel _ _ Hb).
    unfold get.
    now rewrite (source_index_in_bounds _ _ _ Hp Hlen Hb).
Qed.

Lemma index_last0_spec a front last :
  wf a -> shape a = front ++ [last] -> last <> 0 ->
  exists b,
    index_last0 a = Ok b
    /\ shape b = front
    /\ wf b
    /\ forall idx, in_bounds front idx = true ->
                   get b idx = get a (idx ++ [0]).
Proof.
  intros Hwf Hsh Hl. unfold index_last0. rewrite Hsh, rev_app_distr. simpl.
  apply Nat.eqb_neq in Hl. rewrite Hl. apply Nat.eqb_neq in Hl.
  rewrite rev_involutive.
  assert (Hall : Forall (fun o => o < List.length (data a))
                   (map (fun i => i * last) (seq 0 (size_of front)))).
  { apply Forall_forall. intros o Ho. apply in_map_iff in Ho as (x & <- & Hx).
    apply in_seq in Hx. rewrite Hwf, Hsh, size_of_snoc. nia. }
  eexists. split; [reflexivity|]. split; [reflexivity|]. split.
  - unfold wf. simpl. rewrite (gather_length _ _ Hall).
    now rewrite length_map, length_seq.
  - intros idx Hb. unfold get. simpl. rewrite Hb, Hsh.
    rewrite (in_bounds_snoc _ _ _ _ Hb) by lia.
    rewrite (gather_nth _ _ _ Hall), nth_error_map, nth_error_seq.
    pose proof (ravel_lt _ _ Hb) as Hr. apply Nat.ltb_lt in Hr.
    rewrite Hr. simpl.
    rewrite ravel_snoc by (now apply in_bounds_length).
    now rewrite Nat.add_0_r.
Qed.

(** Two views of the same elements agree where their offsets agree. *)
Lemma get_same_offset sh1 sh2 (xs : list A) idx1 idx2 :
  in_bounds sh1 idx1 = true -> in_bounds sh2 idx2 = true ->
  ravel sh1 idx1 = ravel sh2 idx2 ->
  get (Array sh1 xs) idx1 = get (Array sh2 xs) idx2.
Proof. intros H1 H2 E. unfold get. simpl. now rewrite H1, H2, E. Qed.

End TransposeFacts.

Section ReshapeFacts.
Context {A : Type}.
Implicit Types (a b : ndarray A).

Lemma of_nat_not_below n : (Z.of_nat n <? -1)%Z = false.
Proof. apply Z.ltb_ge. lia. Qed.

Lemma of_nat_not_unknown n : (Z.of_nat n =? -1)%Z = false.
Proof. apply Z.eqb_neq. lia. Qed.

(** [a.reshape(rows, -1)] *)
Lemma reshape_infer_cols a rows cols :
  rows <> 0 -> size_of (shape a) = rows * cols ->
  reshape [Z.of_nat rows; (-1)%Z] a = Ok (Array [rows; cols] (data a)).
Proof.
  intros Hr Hsz. unfold reshape, resolve_shape, count_unknown, known_size.
  simpl. rewrite !of_nat_not_below, !of_nat_not_unknown. simpl.
  rewrite Nat2Z.id, Hsz, Nat.mul_1_r.
  apply Nat.eqb_neq in Hr. rewrite Hr. apply Nat.eqb_neq in Hr.
  rewrite (Nat.mul_comm rows cols), Nat.Div0.mod_mul. simpl.
  now rewrite Nat.div_mul by exact Hr.
Qed.

(** [a.reshape(-1, cols)] *)
Lemma reshape_infer_rows a rows cols :
  cols <> 0 -> size_of (shape a) = rows * cols ->
  reshape [(-1)%Z; Z.of_nat cols] a = Ok (Array [rows; cols] (data a)).
Proof.
  intros Hc Hsz. unfold reshape, resolve_shape, count_unknown, known_size.
  simpl. rewrite !of_nat_not_below, !of_nat_not_unknown. simpl.
  rewrite Nat2Z.id, Hsz, Nat.mul_1_r.
  apply Nat.eqb_neq in Hc. rewrite Hc. apply Nat.eqb_neq in Hc.
  rewrite Nat.Div0.mod_mul. simpl.
  now rewrite Nat.div_mul by exact Hc.
Qed.

(** [a.reshape(d0, d1, -1, k)] *)
Lemma reshape_infer_groups a d0 d1 groups k :
  d0 <> 0 -> d1 <> 0 -> k <> 0 ->
  size_of (shape a) = d0 * (d1 * (groups * k)) ->
  reshape [Z.of_nat d0; Z.of_nat d1; (-1)%Z; Z.of_nat k] a
  = Ok (Array [d0; d1; groups; k] (data a)).
Proof.
  intros H0 H1 Hk Hsz.
  unfold reshape, resolve_shape, count_unknown, known_size.
  simpl. rewrite !of_nat_not_below, !of_nat_not_unknown. simpl.
  rewrite !Nat2Z.id, Hsz, Nat.mul_1_r.
  assert (Hne : d0 * (d1 * k) <> 0) by nia.
  apply Nat.eqb_neq in Hne. rewrite Hne. apply Nat.eqb_neq in Hne.
  replace (d0 * (d1 * (groups * k))) with (groups * (d0 * (d1 * k))) by lia.
  rewrite Nat.Div0.mod_mul. simpl.
  now rewrite Nat.div_mul by exact Hne.
Qed.

End ReshapeFacts.

Section Regrouping.
Context {sample : Type}.
Implicit Types (xs : list sample).

(** What lines 133 to 138 of [read_stems] make of one decoded stream of
    [groups * k] channels: [groups] stems of [k] channels each, stem [g]
    holding the consecutive channels [g * k .. g * k + k - 1]. *)
Lemma stems_of_channels_spec xs rows groups k :
  0 < rows -> 0 < k -> 1 < groups * k ->
  List.length xs = rows * (groups * k) ->
  exists b,
    stems_of_channels (Z.of_nat k) (Array [1; rows; groups * k] xs) = Ok b
    /\ shape b = [groups; rows; k]
    /\ wf b
    /\ forall g t j, g < groups -> t < rows -> j < k ->
         get b [g; t; j] = nth_error xs (t * (groups * k) + g * k + j).
Proof.
  intros Hrows Hk Hc Hlen.
  set (a0 := Array [1; rows; groups * k] xs).
  assert (Hwf0 : wf a0) by (unfold wf; simpl; lia).
  destruct (transpose_spec [1; 0; 2] a0 Hwf0 eq_refl eq_refl)
    as (a1 & E1 & Hsh1 & Hwf1 & Hget1).
  simpl in Hsh1.
  assert (E2 : reshape [Z.of_nat (nth 0 (shape a1) 0);
                        Z.of_nat (nth 1 (shape a1) 0);
                        (-1)%Z; Z.of_nat k] a1
               = Ok (Array [rows; 1; groups; k] (data a1))).
  { rewrite Hsh1. simpl.
    apply (reshape_infer_groups a1 rows 1 groups k); try lia.
    rewrite Hsh1. simpl. lia. }
  set (a2 := Array [rows; 1; groups; k] (data a1)).
  assert (Hwf2 : wf a2).
  { unfold wf. simpl. rewrite Hwf1, Hsh1. simpl. lia. }
  destruct (transpose_spec [2; 0; 3; 1] a2 Hwf2 eq_refl eq_refl)
    as (a3 & E3 & Hsh3 & Hwf3 & Hget3).
  simpl in Hsh3.
  destruct (index_last0_spec a3 [groups; rows; k] 1 Hwf3 Hsh3)
    as (a4 & E4 & Hsh4 & Hwf4 & Hget4); [lia|].
  exists a4. split.
  - unfold stems_of_channels.
    assert (Hcond : negb (Z.of_nat k =? 0)%Z
                    && (1 <? last (shape a0) 0) = true).
    { apply andb_true_iff. split.
      - apply negb_true_iff, Z.eqb_neq. lia.
      - apply Nat.ltb_lt. simpl. exact Hc. }
    rewrite Hcond. fold a0. rewrite E1. cbn [rbind]. rewrite E2.
    cbn [rbind]. fold a2. rewrite E3. cbn [rbind]. exact E4.
  - split; [exact Hsh4|]. split; [exact Hwf4|].
    intros g t j Hg Ht Hj.
    assert (Hb4 : in_bounds [groups; rows; k] [g; t; j] = true).
    { simpl. repeat (apply andb_true_iff; split); try reflexivity;
        apply Nat.ltb_lt; lia. }
    rewrite (Hget4 _ Hb4). simpl.
    assert (Hb3 : in_bounds (shape a3) [g; t; j; 0] = true).
    { rewrite Hsh3. simpl. repeat (apply andb_true_iff; split);
        try reflexivity; apply Nat.ltb_lt; lia. }
    rewrite (Hget3 _ Hb3). unfold source_index. simpl.
    assert (Hb1 : in_bounds (shape a1) [t; 0; g * k + j] = true).
    { rewrite Hsh1. simpl. repeat (apply andb_true_iff; split);
        try reflexivity; apply Nat.ltb_lt; nia. }
    transitivity (get a1 [t; 0; g * k + j]).
    + destruct a1 as [sh1 d1]. simpl in *. subst sh1. unfold a2.
      apply get_same_offset.
      * simpl. repeat (apply andb_true_iff; split);
          try reflexivity; apply Nat.ltb_lt; lia.
      * exact Hb1.
      * simpl. lia.
    + rewrite (Hget1 _ Hb1). unfold source_index. simpl.
      unfold get, a0. simpl.
      assert (Hin : (t <? rows) && ((g * k + j <? groups * k) && true)
                    = true).
      { repeat (apply andb_true_iff; split); try reflexivity;
          apply Nat.ltb_lt; nia. }
      rewrite Hin. f_equal. lia.
Qed.

End Regrouping.

(* ===================================================================== *)
(** * Strings and argument lists *)
(* ===================================================================== *)

Section StringFacts.

Lemma contains_char_app c s1 s2 :
  contains_char c (s1 ++ s2)%string
  = contains_char c s1 || contains_char c s2.
Proof.
  induction s1 as [|x s1 IH]; simpl; [reflexivity|].
  now rewrite IH, orb_assoc.
Qed.

Lemma string_of_uint_no_semicolon d :
  contains_char ";" (NilZero.string_of_uint d) = false.
Proof.
  assert (H : forall u, contains_char ";" (NilEmpty.string_of_uint u) = false).
  { induction u; simpl; auto. }
  destruct d; simpl; auto; apply H.
Qed.

Lemma str_int_no_semicolon n : contains_char ";" (str_int n) = false.
Proof.
  unfold str_int. destruct (Z.to_int n) as [d|d]; simpl.
  - apply string_of_uint_no_semicolon.
  - apply string_of_uint_no_semicolon.
Qed.

Lemma pan_mono_no_semicolon i : contains_char ";" (pan_mono i) = false.
Proof.
  unfold pan_mono. rewrite !contains_char_app, !str_int_no_semicolon.
  reflexivity.
Qed.

Lemma pan_stereo_no_semicolon i : contains_char ";" (pan_stereo i) = false.
Proof.
  unfold pan_stereo. rewrite !contains_char_app, !str_int_no_semicolon.
  reflexivity.
Qed.

Lemma split_char_unbroken c s :
  contains_char c s = false -> split_char c s = [s].
Proof.
  induction s as [|x s IH]; simpl; [reflexivity|].
  intros H. apply orb_false_iff in H as [Hx Hs].
  rewrite Hx, (IH Hs). reflexivity.
Qed.

Lemma split_char_app c s rest :
  contains_char c s = false ->
  split_char c (s ++ String c rest)%string = s :: split_char c rest.
Proof.
  induction s as [|x s IH]; simpl.
  - intros _. now rewrite Ascii.eqb_refl.
  - intros H. apply orb_false_iff in H as [Hx Hs].
    rewrite Hx, (IH Hs). reflexivity.
Qed.

(** Splitting what was joined gives the parts back. *)
Lemma split_char_join c parts :
  parts <> [] ->
  forallb (fun p => negb (contains_char c p)) parts = true ->
  split_char c (join (String c EmptyString) parts) = parts.
Proof.
  unfold join. induction parts as [|p parts IH]; [congruence|].
  intros _ H. simpl in H. apply andb_true_iff in H as [Hp Hps].
  apply negb_true_iff in Hp.
  destruct parts as [|q parts].
  - simpl. now apply split_char_unbroken.
  - change (String.concat (String c "") (p :: q :: parts))
      with (p ++ String c (String.concat (String c "") (q :: parts)))%string.
    rewrite (split_char_app _ _ _ Hp). f_equal.
    apply IH; [discriminate|exact Hps].
Qed.

End StringFacts.

Section ListFacts.
Context {X Y : Type}.

Lemma map_result_ok (f : X -> result Y) (g : X -> Y) xs :
  (forall x, In x xs -> f x = Ok (g x)) ->
  map_result f xs = Ok (map g xs).
Proof.
  induction xs as [|x xs IH]; intros H; simpl; [reflexivity|].
  rewrite (H x) by now left. simpl.
  rewrite IH by (intros y Hy; apply H; now right). reflexivity.
Qed.

Lemma length_concat_uniform (k : nat) (ls : list (list Y)) :
  Forall (fun l => List.length l = k) ls ->
  List.length (List.concat ls) = k * List.length ls.
Proof.
  induction 1 as [|l ls Hl _ IH]; simpl; [lia|].
  rewrite length_app, Hl, IH. lia.
Qed.

Lemma chunk_of_concat (k : nat) (ls : list (list Y)) i l :
  Forall (fun l => List.length l = k) ls ->
  nth_error ls i = Some l ->
  firstn k (skipn (k * i) (List.concat ls)) = l.
Proof.
  intros Hall. revert i. induction Hall as [|l0 ls Hl _ IH]; intros i Hi.
  - now destruct i.
  - destruct i as [|i]; simpl in Hi.
    + injection Hi as ->. rewrite Nat.mul_0_r. simpl.
      rewrite firstn_app, Hl, Nat.sub_diag. simpl.
      rewrite <- Hl at 1. rewrite firstn_all. apply app_nil_r.
    + simpl List.concat.
      replace (k * S i) with (List.length l0 + k * i) by lia.
      rewrite skipn_app, Nat.add_comm, Nat.add_sub.
      rewrite (skipn_all2 l0) by lia. simpl. now apply IH.
Qed.

Lemma getitem_of_nat (xs : list Y) i x :
  nth_error xs i = Some x -> getitem xs (Z.of_nat i) = Ok x.
Proof.
  intros H. unfold getitem.
  assert (Hlt : i < List.length xs) by (apply nth_error_Some; congruence).
  replace (Z.of_nat i <? 0)%Z with false by (symmetry; apply Z.ltb_ge; lia).
  replace ((0 <=? Z.of_nat i) && (Z.of_nat i <? Z.of_nat (List.length xs)))%Z
    with true
    by (symmetry; apply andb_true_iff; split;
        [apply Z.leb_le|apply Z.ltb_lt]; lia).
  now rewrite Nat2Z.id, H.
Qed.

End ListFacts.

(* ===================================================================== *)
(** * Properties of read.py *)
(* ===================================================================== *)

Section ReadFacts.
Context {sample : Type}.
Variable env : environment sample.
Variables (filename : string) (metadata : Info)
          (start duration : option Q) (dt : dtype).

Local Notation "'body'" :=
  (decode_stem env filename metadata start duration dt).
Local Notation "'decode_of' rate" :=
  (fun stem => FFmpegDecode filename
                 (decode_kwargs rate duration start stem))
  (at level 10, rate at level 9).

Lemma world_eta (w : world sample) :
  World (procs w) (fs_log w) (warnings_log w) = w.
Proof. now destruct w. Qed.

(** One round of the loop once the sample rate is set. *)
Lemma decode_stem_some stem rate stems w :
  body stem (Some rate, stems) w =
  match Info_channels metadata stem with
  | Raise e => (Raise e, w)
  | Ok channels =>
      let kw := decode_kwargs rate duration start stem in
      let w1 := World (procs w ++ [FFmpegDecode filename kw])
                      (fs_log w) (warnings_log w) in
      match reshape [(-1)%Z; channels]
              (frombuffer (ffmpeg_decode env filename kw)) with
      | Raise e => (Raise e, w1)
      | Ok waveform =>
          (Ok (Some rate, stems ++ [cast_to env dt waveform]), w1)
      end
  end.
Proof.
  unfold decode_stem, bind, ret, lift, spawn, modify.
  destruct (Info_channels metadata stem) as [channels|e]; [|reflexivity].
  cbn. destruct (reshape _ _); reflexivity.
Qed.

(** The loop once the sample rate is set: it starts one decoder per
    sub-stream, in order, all at that rate, until a round raises. *)
Lemma decode_loop_some substreams rate stems w :
  exists n,
    n <= List.length substreams
    /\ snd (for_each substreams body (Some rate, stems) w)
       = World (procs w ++ map (decode_of rate) (firstn n substreams))
               (fs_log w) (warnings_log w)
    /\ forall sr' stems',
         fst (for_each substreams body (Some rate, stems) w)
         = Ok (sr', stems') ->
         n = List.length substreams /\ sr' = Some rate.
Proof.
  revert stems w. induction substreams as [|stem rest IH]; intros stems w.
  - exists 0. simpl. rewrite app_nil_r, world_eta.
    split; [lia|]. split; [reflexivity|].
    intros sr' stems' [= <- _]. now split.
  - set (run := for_each (stem :: rest) body (Some rate, stems) w).
    assert (Erun : run = match body stem (Some rate, stems) w with
                         | (Ok a, w') => for_each rest body a w'
                         | (Raise e, w') => (Raise e, w')
                         end) by reflexivity.
    rewrite decode_stem_some in Erun.
    destruct (Info_channels metadata stem) as [channels|e].
    + cbv zeta in Erun. destruct (reshape _ _) as [waveform|e].
      * match type of Erun with
        | _ = for_each rest _ (Some rate, ?s) ?w1 =>
            destruct (IH s w1) as (n & Hn & Hw & Hok)
        end.
        rewrite Erun. exists (S n). split; [simpl; lia|]. split.
        -- rewrite Hw. cbn [procs fs_log warnings_log firstn map].
           now rewrite <- app_assoc.
        -- intros sr' stems' H. destruct (Hok _ _ H) as [-> ->].
           now split.
      * rewrite Erun. exists 1. split; [simpl; lia|].
        split; [reflexivity|].
        intros sr' stems' H. discriminate H.
    + rewrite Erun. exists 0. split; [lia|]. cbn [firstn map snd fst].
      rewrite app_nil_r, world_eta. split; [reflexivity|].
      intros sr' stems' H. discriminate H.
Qed.

(** With [sample_rate=None] the first round sets the rate for all. *)
Lemma decode_loop_none_ok first rest stems w native :
  Info_sample_rate metadata first = Ok native ->
  for_each (first :: rest) body (None, stems) w
  = for_each (first :: rest) body (Some native, stems) w.
Proof.
  intros H.
  assert (E : body first (None, stems) w
              = body first (Some native, stems) w).
  { unfold decode_stem, bind, lift, ret. now rewrite H. }
  cbn [for_each]. unfold bind. now rewrite E.
Qed.

Lemma decode_loop_none_raise first rest stems w e :
  Info_sample_rate metadata first = Raise e ->
  for_each (first :: rest) body (None, stems) w = (Raise e, w).
Proof.
  intros H.
  assert (E : body first (None, stems) w = (Raise e, w)).
  { unfold decode_stem, bind, lift. now rewrite H. }
  cbn [for_each]. unfold bind. now rewrite E.
Qed.

(** The alignment step leaves the world as it is: it returns the stems or
    raises. *)
Lemma align_stems_world (stems : list (ndarray sample)) w :
  snd (align_stems stems w) = w.
Proof.
  unfold align_stems.
  destruct (map nb_rows stems) as [|first ds]; [reflexivity|].
  destruct (negb _); reflexivity.
Qed.

(** Stems of differing lengths: the warning cannot be issued. *)
Lemma align_stems_differing (stems : list (ndarray sample)) first ds w :
  map nb_rows stems = first :: ds ->
  forallb (Nat.eqb first) (first :: ds) = false ->
  align_stems stems w
  = (Raise (Exn AttributeError
              "module 'warnings' has no attribute 'warning'"), w).
Proof.
  intros Hd Hneq. unfold align_stems. rewrite Hd, Hneq. reflexivity.
Qed.

Lemma align_stems_equal (stems : list (ndarray sample)) first ds w :
  map nb_rows stems = first :: ds ->
  forallb (Nat.eqb first) (first :: ds) = true ->
  align_stems stems w = (Ok stems, w).
Proof.
  intros Hd Heq. unfold align_stems. rewrite Hd, Heq. reflexivity.
Qed.

Lemma stack_single (a : ndarray sample) :
  stack [a] = Ok (Array (1 :: shape a) (data a)).
Proof.
  unfold stack. cbn [forallb].
  destruct (list_eq_dec Nat.eq_dec (shape a) (shape a)); [|congruence].
  cbn. now rewrite app_nil_r.
Qed.

End ReadFacts.

Section ReadStemsFacts.
Context {sample : Type}.
Variable env : environment sample.

(** Probing starts ffprobe only, once or twice. *)
Lemma probe_metadata_world filename info (w : world sample) :
  exists probes,
    snd (probe_metadata env filename info w)
    = World (procs w ++ probes) (fs_log w) (warnings_log w)
    /\ Forall (fun p => p = FFprobe filename) probes.
Proof.
  unfold probe_metadata, try_except, Info_init, ffmpeg_probe, bind, spawn,
    modify, ret, raise.
  destruct info as [i|]; cbn.
  - destruct (ffprobe env filename) as [err|pi]; cbn;
      exists [FFprobe filename]; split; auto.
  - destruct (ffprobe env filename) as [err|pi]; cbn.
    + exists [FFprobe filename]; split; auto.
    + destruct (pi_streams pi); cbn.
      * exists [FFprobe filename; FFprobe filename].
        split; [now rewrite <- app_assoc|auto].
      * exists [FFprobe filename]; split; auto.
Qed.

(** The three outcomes of probing. *)
Lemma probe_metadata_failed filename info (w : world sample) err :
  ffprobe env filename = inl err ->
  probe_metadata env filename info w
  = (Raise (Exn Warning
              ("An error occurs with ffprobe (see ffprobe output below)"
               ++ nl ++ nl ++ err)%string),
     World (procs w ++ [FFprobe filename]) (fs_log w) (warnings_log w)).
Proof.
  intros H.
  unfold probe_metadata, try_except, Info_init, ffmpeg_probe, bind, spawn,
    modify, ret, raise.
  rewrite H. destruct info as [i|]; reflexivity.
Qed.

Lemma probe_metadata_given filename i (w : world sample) pi :
  ffprobe env filename = inr pi ->
  probe_metadata env filename (Some i) w
  = (Ok i, World (procs w ++ [FFprobe filename]) (fs_log w) (warnings_log w)).
Proof.
  intros H.
  unfold probe_metadata, try_except, ffmpeg_probe, bind, spawn, modify, ret.
  now rewrite H.
Qed.

Lemma probe_metadata_fresh filename (w : world sample) pi ss :
  ffprobe env filename = inr pi ->
  pi_streams pi = Some ss ->
  probe_metadata env filename None w
  = (Ok (MkInfo filename pi
           (filter (fun st => String.eqb (st_codec_type st) "audio") ss)),
     World (procs w ++ [FFprobe filename; FFprobe filename])
           (fs_log w) (warnings_log w)).
Proof.
  intros H Hss.
  unfold probe_metadata, try_except, Info_init, ffmpeg_probe, bind, spawn,
    modify, ret, raise.
  rewrite H. cbn. rewrite Hss. cbn. now rewrite <- app_assoc.
Qed.

(** [read_stems] once the metadata and the selection are known. *)
Lemma read_stems_eq filename start duration stem_id always_3d dt
    info sample_rate stems_from_channels w metadata w1 substreams :
  probe_metadata env filename info w = (Ok metadata, w1) ->
  select_substreams metadata stem_id stems_from_channels = Ok substreams ->
  read_stems env filename start duration stem_id always_3d dt
    info sample_rate stems_from_channels w
  = match for_each substreams
            (decode_stem env filename metadata (effective_start start)
               duration dt)
            (sample_rate, []) w1 with
    | (Ok (sr', stems), w2) =>
        match align_stems stems w2 with
        | (Ok aligned, w3) =>
            match stack aligned with
            | Ok stacked =>
                match stems_of_channels stems_from_channels stacked with
                | Ok regrouped =>
                    (Ok (if always_3d then regrouped
                         else squeeze regrouped, sr'), w3)
                | Raise e => (Raise e, w3)
                end
            | Raise e => (Raise e, w3)
            end
        | (Raise e, w3) => (Raise e, w3)
        end
    | (Raise e, w2) => (Raise e, w2)
    end.
Proof.
  intros Hp Hs. unfold read_stems, bind, lift, ret. rewrite Hp, Hs.
  destruct (for_each _ _ _ _) as [[[sr' stems]|e] w2]; [|reflexivity].
  destruct (align_stems stems w2) as [[aligned|e] w3]; [|reflexivity].
  destruct (stack aligned); [|reflexivity].
  destruct (stems_of_channels _ _); reflexivity.
Qed.

Lemma read_stems_after_loop filename start duration stem_id always_3d dt
    info sample_rate stems_from_channels w metadata w1 substreams :
  probe_metadata env filename info w = (Ok metadata, w1) ->
  select_substreams metadata stem_id stems_from_channels = Ok substreams ->
  let loop :=
    for_each substreams
      (decode_stem env filename metadata (effective_start start)
         duration dt)
      (sample_rate, []) w1 in
  let out := read_stems env filename start duration stem_id always_3d dt
               info sample_rate stems_from_channels w in
  snd out = snd loop
  /\ forall t sr', fst out = Ok (t, sr') ->
                   exists stems, fst loop = Ok (sr', stems).
Proof.
  intros Hp Hs loop out. subst out.
  rewrite (read_stems_eq _ _ _ _ _ _ _ _ _ _ _ _ _ Hp Hs). fold loop.
  destruct loop as [[[sr' stems]|e] w2]; cbn [fst snd];
    [|split; [reflexivity|intros; discriminate]].
  pose proof (align_stems_world stems w2) as Hw.
  destruct (align_stems stems w2) as [[aligned|e] w3];
    cbn [snd] in Hw; subst w3;
    [|split; [reflexivity|intros; discriminate]].
  destruct (stack aligned) as [stacked|e];
    [|split; [reflexivity|intros; discriminate]].
  destruct (stems_of_channels stems_from_channels stacked)
    as [regrouped|e]; [|split; [reflexivity|intros; discriminate]].
  split; [reflexivity|]. intros t sr'' H. cbn [fst] in H.
  injection H as _ <-. now exists stems.
Qed.

End ReadStemsFacts.

Section SingleStream.
Context {sample : Type}.
Variable env : environment sample.

Lemma shape_cast_to dt (a : ndarray sample) :
  shape (cast_to env dt a) = shape a.
Proof. unfold cast_to. now destruct (dtype_eqb float32 dt). Qed.

Lemma length_cast_to dt (a : ndarray sample) :
  List.length (data (cast_to env dt a)) = List.length (data a).
Proof.
  unfold cast_to. destruct (dtype_eqb float32 dt); [reflexivity|].
  apply length_map.
Qed.

(** The loop over a single sub-stream. *)
Lemma decode_single filename metadata start duration dt stem sample_rate
    rate channels waveform (w : world sample) :
  match sample_rate with
  | Some r => Ok r
  | None => Info_sample_rate metadata stem
  end = Ok rate ->
  Info_channels metadata stem = Ok channels ->
  reshape [(-1)%Z; channels]
    (frombuffer (ffmpeg_decode env filename
                   (decode_kwargs rate duration start stem)))
  = Ok waveform ->
  for_each [stem] (decode_stem env filename metadata start duration dt)
    (sample_rate, []) w
  = (Ok (Some rate, [cast_to env dt waveform]),
     World (procs w ++ [FFmpegDecode filename
                          (decode_kwargs rate duration start stem)])
           (fs_log w) (warnings_log w)).
Proof.
  intros Hr Hc Hw.
  assert (E : for_each [stem]
                (decode_stem env filename metadata start duration dt)
                (sample_rate, []) w
              = for_each [stem]
                  (decode_stem env filename metadata start duration dt)
                  (Some rate, []) w).
  { destruct sample_rate as [r|].
    - now injection Hr as ->.
    - now apply decode_loop_none_ok. }
  rewrite E. cbn [for_each]. unfold bind.
  rewrite decode_stem_some, Hc. cbv zeta. rewrite Hw. reflexivity.
Qed.

(** [read_stems] of a single sub-stream. *)
Lemma read_single filename start duration stem_id always_3d dt info
    sample_rate stems_from_channels w metadata w1 stem rate channels
    waveform regrouped :
  probe_metadata env filename info w = (Ok metadata, w1) ->
  select_substreams metadata stem_id stems_from_channels = Ok [stem] ->
  match sample_rate with
  | Some r => Ok r
  | None => Info_sample_rate metadata stem
  end = Ok rate ->
  Info_channels metadata stem = Ok channels ->
  reshape [(-1)%Z; channels]
    (frombuffer (ffmpeg_decode env filename
                   (decode_kwargs rate duration (effective_start start)
                      stem)))
  = Ok waveform ->
  stems_of_channels stems_from_channels
    (Array (1 :: shape (cast_to env dt waveform))
           (data (cast_to env dt waveform))) = Ok regrouped ->
  read_stems env filename start duration stem_id always_3d dt info
    sample_rate stems_from_channels w
  = (Ok (if always_3d then regrouped else squeeze regrouped, Some rate),
     World (procs w1 ++ [FFmpegDecode filename
                           (decode_kwargs rate duration
                              (effective_start start) stem)])
           (fs_log w1) (warnings_log w1)).
Proof.
  intros Hp Hs Hr Hc Hw Hg.
  rewrite (read_stems_eq _ _ _ _ _ _ _ _ _ _ _ _ _ _ Hp Hs).
  rewrite (decode_single _ _ _ _ _ _ _ _ _ _ _ Hr Hc Hw).
  rewrite (align_stems_equal _ (nb_rows (cast_to env dt waveform)) []);
    [|reflexivity|cbn; now rewrite Nat.eqb_refl].
  rewrite stack_single, Hg. reflexivity.
Qed.

(** A scalar [stem_id] and the one-element list select the same. *)
Lemma select_scalar metadata k stems_from_channels :
  select_substreams metadata (Some (an_int k)) stems_from_channels
  = select_substreams metadata (Some (a_list [k])) stems_from_channels.
Proof.
  unfold select_substreams.
  destruct (_ || _); [reflexivity|].
  destruct (negb (stems_from_channels =? 0)%Z); reflexivity.
Qed.

Lemma effective_start_small (s : Q) :
  ~ (s == 0)%Q -> (s < 1 # 10000)%Q -> effective_start (Some s) = None.
Proof.
  intros Hnz Hlt. unfold effective_start, float_truthy, float_ltb.
  assert (E0 : Qeq_bool s 0 = false).
  { destruct (Qeq_bool s 0) eqn:E; [|reflexivity].
    apply Qeq_bool_iff in E. contradiction. }
  rewrite E0. cbn [negb].
  assert (E1 : Qle_bool float_1e_4 s = false).
  { destruct (Qle_bool float_1e_4 s) eqn:E; [|reflexivity].
    apply Qle_bool_iff in E.
    assert (H : (1 # 10000 < float_1e_4)%Q) by reflexivity.
    exfalso. apply (Qlt_irrefl s).
    apply (Qlt_le_trans _ (1 # 10000)); [exact Hlt|].
    apply (Qle_trans _ float_1e_4); [now apply Qlt_le_weak|exact E]. }
  now rewrite E1.
Qed.

Lemma seek_options_app (ps qs : list (process sample)) :
  seek_options (ps ++ qs) = seek_options ps ++ seek_options qs.
Proof. unfold seek_options. apply flat_map_app. Qed.

Lemma seek_options_probes filename (ps : list (process sample)) :
  Forall (fun p => p = FFprobe filename) ps -> seek_options ps = [].
Proof. induction 1 as [|p ps -> _ IH]; [reflexivity|exact IH]. Qed.

Lemma seek_options_decodes filename rate duration start (subs : list Z) :
  Forall (fun o => o = option_map _to_ffmpeg_time start)
    (seek_options
       (map (fun stem => @FFmpegDecode sample filename
                           (decode_kwargs rate duration start stem))
            subs)).
Proof. induction subs as [|s subs IH]; cbn; auto. Qed.

(** Every decoder [read_stems] starts is given the start that survived
    the fix, and no other seek option. *)
Lemma read_stems_seek_options filename start duration stem_id always_3d dt
    info sample_rate stems_from_channels (w : world sample) :
  exists new,
    procs (snd (read_stems env filename start duration stem_id always_3d
                  dt info sample_rate stems_from_channels w))
    = procs w ++ new
    /\ Forall (fun o => o = option_map _to_ffmpeg_time
                              (effective_start start))
              (seek_options new).
Proof.
  destruct (probe_metadata_world env filename info w)
    as (probes & Hw1 & Hprobes).
  destruct (probe_metadata env filename info w) as [[md|e] w1] eqn:Hp;
    cbn [snd] in Hw1.
  - destruct (select_substreams md stem_id stems_from_channels)
      as [subs|e] eqn:Hs.
    + destruct (read_stems_after_loop env filename start duration stem_id
                  always_3d dt info sample_rate stems_from_channels
                  w md w1 subs Hp Hs) as [Hsnd _].
      cbv zeta in Hsnd. rewrite Hsnd.
      assert (Hloop : exists n rate,
                 snd (for_each subs
                        (decode_stem env filename md
                           (effective_start start) duration dt)
                        (sample_rate, []) w1)
                 = World (procs w1 ++ map (fun stem =>
                            FFmpegDecode filename
                              (decode_kwargs rate duration
                                 (effective_start start) stem))
                            (firstn n subs))
                         (fs_log w1) (warnings_log w1)).
      { destruct sample_rate as [rate|].
        - destruct (decode_loop_some env filename md
                      (effective_start start) duration dt subs rate [] w1)
            as (n & _ & H & _). now exists n, rate.
        - destruct subs as [|first rest].
          + exists 0, 0%Z. cbn. now rewrite app_nil_r, world_eta.
          + destruct (Info_sample_rate md first) as [native|e] eqn:Hn.
            * rewrite (decode_loop_none_ok _ _ _ _ _ _ _ _ _ _ _ Hn).
              destruct (decode_loop_some env filename md
                          (effective_start start) duration dt
                          (first :: rest) native [] w1)
                as (n & _ & H & _). now exists n, native.
            * rewrite (decode_loop_none_raise _ _ _ _ _ _ _ _ _ _ _ Hn).
              exists 0, 0%Z. cbn. now rewrite app_nil_r, world_eta. }
      destruct Hloop as (n & rate & Hloop). rewrite Hloop, Hw1.
      cbn [procs]. eexists. split; [now rewrite <- app_assoc|].
      rewrite seek_options_app, (seek_options_probes _ _ Hprobes).
      apply seek_options_decodes.
    + exists probes. unfold read_stems, bind, lift. rewrite Hp, Hs.
      cbn [snd]. rewrite Hw1. split; [reflexivity|].
      now rewrite (seek_options_probes _ _ Hprobes).
  - exists probes. unfold read_stems, bind. rewrite Hp.
    cbn [snd]. rewrite Hw1. split; [reflexivity|].
    now rewrite (seek_options_probes _ _ Hprobes).
Qed.

End SingleStream.

(* ===================================================================== *)
(** * Properties of write.py *)
(* ===================================================================== *)

Section WriteFacts.
Context {sample : Type}.
Variable env : environment sample.

(** What one call of [write_audio] does, in closed form.  The exit status
    of the process takes no part in it. *)
Lemma write_audio_eq path (data : ndarray sample) sr osr codec bitrate w :
  write_audio env path data sr osr codec bitrate w =
  if Nat.eqb (ndim data) 1 || Nat.eqb (ndim data) 2 then
    let call := encode_process env path data sr osr codec bitrate
                  (if Nat.eqb (ndim data) 1 then 1
                   else last (shape data) 0) in
    let outcome := ffmpeg_encode env call in
    (if write_raises_ioerror outcome || close_raises_ioerror outcome
     then Raise (Exn Warning
                   ("FFMPEG error: "
                    ++ bytes_repr env (stderr_text outcome))%string)
     else Ok tt,
     World (procs w ++ [FFmpegEncode call])
           (fs_log w ++ [MkdirParentOf path]) (warnings_log w))
  else
    (Raise (Exn RuntimeError "Number of channels not supported"),
     World (procs w) (fs_log w ++ [MkdirParentOf path]) (warnings_log w)).
Proof.
  unfold write_audio, bind, fs_write, spawn, modify, try_except,
    stdin_write, stdin_close, process_wait, ret, raise.
  destruct (Nat.eqb (ndim data) 1) eqn:E1; simpl.
  - destruct (write_raises_ioerror _); simpl; [reflexivity|].
    destruct (close_raises_ioerror _); reflexivity.
  - destruct (Nat.eqb (ndim data) 2) eqn:E2; simpl; [|reflexivity].
    destruct (write_raises_ioerror _); simpl; [reflexivity|].
    destruct (close_raises_ioerror _); reflexivity.
Qed.

(** The array the interleaved-multichannel strategy hands on. *)
Lemma interleave_spec (xs : list sample) S T C :
  List.length xs = S * T * C -> T <> 0 ->
  exists ys,
    (b <-- transpose [1; 0; 2] (Array [S; T; C] xs) ;;
     reshape [Z.of_nat T; (-1)%Z] b)%py = Ok (Array [T; S * C] ys)
    /\ List.length ys = T * (S * C)
    /\ forall s t c, s < S -> t < T -> c < C ->
         nth_error ys (t * (S * C) + s * C + c)
         = get (Array [S; T; C] xs) [s; t; c].
Proof.
  intros Hlen HT.
  set (a0 := Array [S; T; C] xs).
  assert (Hwf0 : wf a0) by (unfold wf; simpl; lia).
  destruct (transpose_spec [1; 0; 2] a0 Hwf0 eq_refl eq_refl)
    as (a1 & E1 & Hsh1 & Hwf1 & Hget1).
  simpl in Hsh1. exists (data a1). rewrite E1. cbn [rbind]. split.
  - apply reshape_infer_cols; [exact HT|]. rewrite Hsh1. simpl. lia.
  - split; [rewrite Hwf1, Hsh1; simpl; lia|].
    intros s t c Hs Ht Hc.
    assert (Hb1 : in_bounds (shape a1) [t; s; c] = true).
    { rewrite Hsh1. simpl. repeat (apply andb_true_iff; split);
        try reflexivity; apply Nat.ltb_lt; lia. }
    rewrite <- (Hget1 _ Hb1 : get a1 [t; s; c] = get a0 [s; t; c]).
    unfold get. rewrite Hb1, Hsh1. simpl. f_equal. lia.
Qed.

(** What [ChannelsMapper.__call__] does for a tensor of at least two
    samples: the array handed to [write_audio] loses its channel axis when
    there is one channel in all. *)
Lemma ChannelsMapper_call_written self (xs : list sample) S T C path sr w :
  List.length xs = S * T * C -> 2 <= T ->
  exists ys,
    List.length ys = T * (S * C)
    /\ (forall s t c, s < S -> t < T -> c < C ->
          nth_error ys (t * (S * C) + s * C + c)
          = get (Array [S; T; C] xs) [s; t; c])
    /\ let self' :=
         match cm_output_sample_rate self with
         | None => MkChannelsMapper (cm_codec self) (cm_bitrate self)
                     (Some sr) (cm_stem_names self)
         | Some _ => self
         end in
       let call := encode_process env path
                     (Array (if Nat.eqb (S * C) 1 then [T] else [T; S * C])
                            ys) sr
                     (cm_output_sample_rate self') (cm_codec self')
                     (cm_bitrate self') (S * C) in
       let outcome := ffmpeg_encode env call in
       ChannelsMapper_call env self (Array [S; T; C] xs) path sr w
       = (if write_raises_ioerror outcome || close_raises_ioerror outcome
          then Raise (Exn Warning
                        ("FFMPEG error: "
                         ++ bytes_repr env (stderr_text outcome))%string)
          else Ok self',
          World (procs w ++ [FFmpegEncode call])
                (fs_log w ++ [MkdirParentOf path]) (warnings_log w)).
Proof.
  intros Hlen HT.
  destruct (interleave_spec xs S T C Hlen) as (ys & E & Hys & Hnth); [lia|].
  exists ys. split; [exact Hys|]. split; [exact Hnth|]. cbv zeta.
  unfold ChannelsMapper_call. cbn [shape].
  destruct (transpose [1; 0; 2] (Array [S; T; C] xs)) as [b|e] eqn:Eb;
    cbn [rbind] in E; [|discriminate].
  unfold bind at 1. unfold lift at 1. unfold bind at 1. unfold lift at 1.
  rewrite E. unfold squeeze. cbn [shape data filter].
  assert (HT1 : Nat.eqb T 1 = false) by (apply Nat.eqb_neq; lia).
  rewrite HT1. cbn [negb].
  unfold bind. rewrite write_audio_eq.
  destruct (Nat.eqb (S * C) 1) eqn:ESC;
    cbn [negb ndim shape List.length Nat.eqb orb last].
  - apply Nat.eqb_eq in ESC. rewrite ESC.
    match goal with
    | |- context [if ?c then Raise _ else Ok tt] => destruct c
    end; reflexivity.
  - match goal with
    | |- context [if ?c then Raise _ else Ok tt] => destruct c
    end; reflexivity.
Qed.

(** Reading an element of an array whose elements were mapped. *)
Lemma get_map (f : sample -> sample) sh (xs : list sample) idx :
  get (Array sh (map f xs)) idx = option_map f (get (Array sh xs) idx).
Proof.
  unfold get. cbn [shape data].
  destruct (in_bounds sh idx); [apply nth_error_map|reflexivity].
Qed.

(** [write_stems] refuses a tensor that is not three-dimensional before
    the mapper is called and before anything is written, when the ffmpeg
    found is of major version 3 or later. *)
Lemma write_stems_not_3d {T} (H : Mapper sample T) path data sr
    (mapper : T) w version major a :
  ffmpeg_version_output env = Ok version ->
  major_version version = Ok major ->
  (3 <= major)%Z ->
  resolved_tensor data = Ok a ->
  ndim a <> 3 ->
  write_stems env path data sr mapper w =
  (Raise (Exn RuntimeError "Input tensor dimension should be 3d"),
   World (procs w ++ [FFmpegVersion]) (fs_log w) (warnings_log w)).
Proof.
  intros Hv Hm H3 Hres Hnd.
  unfold write_stems, ffmpeg_version, bind, spawn, modify, lift, ret, raise.
  rewrite Hv, Hm.
  apply Z.ltb_ge in H3. rewrite H3.
  apply Nat.eqb_neq in Hnd.
  destruct data as [t|items]; simpl in Hres.
  - injection Hres as ->. now rewrite Hnd.
  - rewrite Hres. now rewrite Hnd.
Qed.

End WriteFacts.

(* ===================================================================== *)
(** * The claims about read.py *)
(* ===================================================================== *)

(** C1.  When the decoded sub-streams differ in their sample counts,
    [read_stems] is to truncate them to the shortest, warn and return.  It
    raises [AttributeError] instead, before anything is truncated: the
    warning is sent through [warnings.warning], which the [warnings] module
    does not have. *)
Theorem C1_differing_lengths_raise :
  forall (sample : Type) (env : environment sample) filename start duration
         stem_id always_3d dt info sample_rate stems_from_channels
         w metadata w1 substreams sr' stems w2 first ds,
    probe_metadata env filename info w = (Ok metadata, w1) ->
    select_substreams metadata stem_id stems_from_channels = Ok substreams ->
    for_each substreams
      (decode_stem env filename metadata (effective_start start) duration dt)
      (sample_rate, []) w1 = (Ok (sr', stems), w2) ->
    map nb_rows stems = first :: ds ->
    forallb (Nat.eqb first) ds = false ->
    read_stems env filename start duration stem_id always_3d dt info
      sample_rate stems_from_channels w
    = (Raise (Exn AttributeError
                "module 'warnings' has no attribute 'warning'"), w2).
Proof.
  intros sample env filename start duration stem_id always_3d dt info
    sample_rate stems_from_channels w metadata w1 substreams sr' stems w2
    first ds Hp Hs Hloop Hrows Hdiff.
  rewrite (read_stems_eq _ _ _ _ _ _ _ _ _ _ _ _ _ _ Hp Hs), Hloop.
  rewrite (align_stems_differing stems first ds w2 Hrows); [reflexivity|].
  cbn [forallb]. now rewrite Nat.eqb_refl, Hdiff.
Qed.

(** C1 at two mono sub-streams of two samples and of one sample. *)
Lemma C1_differing_lengths_raise_witness :
  read_stems uneven_env "stems.mp4" None None None false float32 None None 0
    empty_world
  = (Raise (Exn AttributeError
              "module 'warnings' has no attribute 'warning'"),
     World [FFprobe "stems.mp4"; FFprobe "stems.mp4";
            FFmpegDecode "stems.mp4" (OutputKwargs "f32le" 44100 None None "0:0");
            FFmpegDecode "stems.mp4" (OutputKwargs "f32le" 44100 None None "0:1")]
           [] []).
Proof.
  apply (C1_differing_lengths_raise Z uneven_env "stems.mp4" None None None
           false float32 None None 0%Z empty_world
           (MkInfo "stems.mp4"
              (ProbeInfo (Some [Stream 0 "audio" 44100 1;
                                Stream 1 "audio" 44100 1]))
              [Stream 0 "audio" 44100 1; Stream 1 "audio" 44100 1])
           (World [FFprobe "stems.mp4"; FFprobe "stems.mp4"] [] [])
           [0; 1]%Z (Some 44100%Z)
           [Array [2; 1] [10; 11]%Z; Array [1; 1] [20]%Z]
           _ 2 [1]); reflexivity.
Defined.

(** C2, as stated, fails: of two sub-streams of 44100 Hz and 48000 Hz read
    with [sample_rate=None], the second is decoded at 44100 Hz. *)
Lemma C2_second_stream_resampled :
  procs (snd (read_stems even_env "stems.mp4" None None None false float32
                None None 0 empty_world))
  = [FFprobe "stems.mp4"; FFprobe "stems.mp4";
     FFmpegDecode "stems.mp4" (OutputKwargs "f32le" 44100 None None "0:0");
     FFmpegDecode "stems.mp4" (OutputKwargs "f32le" 44100 None None "0:1")]
  /\ Info_sample_rate
       (MkInfo "stems.mp4" (ProbeInfo (Some two_streams)) two_streams) 1
     = Ok 48000%Z.
Proof. split; reflexivity. Qed.

(** C2, amended.  With [sample_rate=None], every selected sub-stream is
    decoded at the native sample rate of the first selected sub-stream, and
    that rate is the one returned.  The decoders are started in the order of
    the selection, and all of them whenever the call returns. *)
Theorem C2_streams_decoded_at_first_rate :
  forall (sample : Type) (env : environment sample) filename start duration
         stem_id always_3d dt info stems_from_channels w metadata w1
         first rest native,
    probe_metadata env filename info w = (Ok metadata, w1) ->
    select_substreams metadata stem_id stems_from_channels
    = Ok (first :: rest) ->
    Info_sample_rate metadata first = Ok native ->
    let out := read_stems env filename start duration stem_id always_3d dt
                 info None stems_from_channels w in
    exists n,
      n <= List.length (first :: rest)
      /\ procs (snd out)
         = procs w1
           ++ map (fun stem =>
                     FFmpegDecode filename
                       (decode_kwargs native duration
                          (effective_start start) stem))
                  (firstn n (first :: rest))
      /\ forall t sr', fst out = Ok (t, sr') ->
                       n = List.length (first :: rest) /\ sr' = Some native.
Proof.
  intros sample env filename start duration stem_id always_3d dt info
    stems_from_channels w metadata w1 first rest native Hp Hs Hn out.
  destruct (read_stems_after_loop env filename start duration stem_id
              always_3d dt info None stems_from_channels w metadata w1
              (first :: rest) Hp Hs) as [Hsnd Hfst].
  cbv zeta in Hsnd, Hfst. fold out in Hsnd, Hfst.
  rewrite (decode_loop_none_ok _ _ _ _ _ _ _ _ _ _ _ Hn) in Hsnd, Hfst.
  destruct (decode_loop_some env filename metadata (effective_start start)
              duration dt (first :: rest) native [] w1)
    as (n & Hle & Hw & Hok).
  exists n. split; [exact Hle|]. split.
  - rewrite Hsnd, Hw. reflexivity.
  - intros t sr' H. destruct (Hfst t sr' H) as (stems & Hloop).
    exact (Hok _ _ Hloop).
Qed.

(** C2 at the two sub-streams of 44100 Hz and 48000 Hz. *)
Lemma C2_streams_decoded_at_first_rate_witness :
  procs (snd (read_stems even_env "stems.mp4" None None None false float32
                None None 0 empty_world))
  = [FFprobe "stems.mp4"; FFprobe "stems.mp4";
     FFmpegDecode "stems.mp4" (decode_kwargs 44100 None None 0);
     FFmpegDecode "stems.mp4" (decode_kwargs 44100 None None 1)].
Proof.
  destruct (C2_streams_decoded_at_first_rate Z even_env "stems.mp4" None None
              None false float32 None 0%Z empty_world
              (MkInfo "stems.mp4" (ProbeInfo (Some two_streams)) two_streams)
              (World [FFprobe "stems.mp4"; FFprobe "stems.mp4"] [] [])
              0%Z [1%Z] 44100%Z eq_refl eq_refl eq_refl)
    as (n & _ & Hprocs & Hok).
  destruct (Hok _ _ eq_refl) as [-> _]. exact Hprocs.
Defined.

(** C5, as stated, fails.  One sub-stream that holds two stereo stems as
    channel pairs, read with [stems_from_channels=2], gives two stems of two
    channels each; a plain stereo sub-stream gives one stem of two
    channels.  Neither result has one-channel stems. *)
Lemma C5_stems_keep_two_channels :
  fst (read_stems four_channel_env "stems.wav" None None None true float32
         None None 2 empty_world)
  = Ok (Array [2; 2; 2] [1; 2; 5; 6; 3; 4; 7; 8]%Z, Some 44100%Z)
  /\ fst (read_stems stereo_env "stems.wav" None None None true float32
            None None 2 empty_world)
     = Ok (Array [1; 4; 2] [1; 2; 3; 4; 5; 6; 7; 8]%Z, Some 44100%Z).
Proof. split; reflexivity. Qed.

(** C5, amended.  Reading a container whose single audio sub-stream has
    [groups * k] channels with [stems_from_channels = k] decodes that
    sub-stream once, at the requested rate or else its native one, and
    regroups the decoded samples without changing them: the tensor has
    [groups] stems of [k] channels each, and channel [j] of stem [g] is
    channel [g * k + j] of the sub-stream.  For two stems stored as stereo
    pairs and [k = 2] each stem is a stereo pair of consecutive channels. *)
Theorem C5_channels_regrouped_into_stems :
  forall (sample : Type) (env : environment sample) filename start duration
         stem_id always_3d dt info sample_rate w metadata w1 ss st
         (rows groups k : nat),
    probe_metadata env filename info w = (Ok metadata, w1) ->
    pi_streams (Info_info metadata) = Some ss ->
    audio_streams metadata = [st] ->
    st_channels st = Z.of_nat (groups * k) ->
    0 < k -> 1 < groups * k -> 0 < rows ->
    let rate := match sample_rate with
                | Some r => r
                | None => st_sample_rate st
                end in
    let kw := decode_kwargs rate duration (effective_start start) 0 in
    let decoded := ffmpeg_decode env filename kw in
    let samples := data (cast_to env dt (Array [rows; groups * k] decoded)) in
    List.length decoded = rows * (groups * k) ->
    exists stems,
      read_stems env filename start duration stem_id always_3d dt info
        sample_rate (Z.of_nat k) w
      = (Ok (if always_3d then stems else squeeze stems, Some rate),
         World (procs w1 ++ [FFmpegDecode filename kw])
               (fs_log w1) (warnings_log w1))
      /\ shape stems = [groups; rows; k]
      /\ forall g t j, g < groups -> t < rows -> j < k ->
           get stems [g; t; j]
           = nth_error samples (t * (groups * k) + g * k + j).
Proof.
  intros sample env filename start duration stem_id always_3d dt info
    sample_rate w metadata w1 ss st rows groups k Hp Hss Haudio Hch Hk Hc
    Hrows rate kw decoded samples Hlen.
  assert (Hsel : select_substreams metadata stem_id (Z.of_nat k) = Ok [0%Z]).
  { unfold select_substreams, nb_audio_streams. rewrite Hss, Haudio.
    cbn [List.length Nat.eqb orb negb getitem].
    replace (Z.of_nat k =? 0)%Z with false
      by (symmetry; apply Z.eqb_neq; lia).
    cbn. rewrite Hch, Nat2Z.inj_mul, Z.mod_mul by lia. reflexivity. }
  assert (Hrate : match sample_rate with
                  | Some r => Ok r
                  | None => Info_sample_rate metadata 0
                  end = Ok rate).
  { subst rate. destruct sample_rate; [reflexivity|].
    unfold Info_sample_rate. now rewrite Haudio. }
  assert (Hchan : Info_channels metadata 0 = Ok (Z.of_nat (groups * k))).
  { unfold Info_channels. rewrite Haudio. cbn. now rewrite Hch. }
  assert (Hwave : reshape [(-1)%Z; Z.of_nat (groups * k)] (frombuffer decoded)
                  = Ok (Array [rows; groups * k] decoded)).
  { apply (reshape_infer_rows (frombuffer decoded) rows (groups * k));
      [lia|]. cbn. lia. }
  set (waveform := Array [rows; groups * k] decoded).
  assert (Hshape : shape (cast_to env dt waveform) = [rows; groups * k])
    by apply shape_cast_to.
  assert (Hsamples : List.length samples = rows * (groups * k)).
  { subst samples. fold waveform. now rewrite length_cast_to. }
  destruct (stems_of_channels_spec samples rows groups k Hrows Hk Hc Hsamples)
    as (stems & Hre & Hsh & _ & Hget).
  exists stems. split; [|split; [exact Hsh|exact Hget]].
  apply (read_single env filename start duration stem_id always_3d dt info
           sample_rate (Z.of_nat k) w metadata w1 0%Z rate
           (Z.of_nat (groups * k)) waveform stems Hp Hsel Hrate Hchan Hwave).
  rewrite Hshape. exact Hre.
Qed.

(** C5 at four channels, two per stem, two samples. *)
Lemma C5_channels_regrouped_into_stems_witness :
  exists stems,
    read_stems four_channel_env "stems.wav" None None None true float32 None
      None 2 empty_world
    = (Ok (stems, Some 44100%Z),
       World [FFprobe "stems.wav"; FFprobe "stems.wav";
              FFmpegDecode "stems.wav" (decode_kwargs 44100 None None 0)]
             [] [])
    /\ shape stems = [2; 2; 2]
    /\ get stems [1; 0; 1] = Some 4%Z.
Proof.
  destruct (C5_channels_regrouped_into_stems Z four_channel_env "stems.wav"
              None None None true float32 None None empty_world
              (MkInfo "stems.wav"
                 (ProbeInfo (Some [Stream 0 "audio" 44100 4]))
                 [Stream 0 "audio" 44100 4])
              (World [FFprobe "stems.wav"; FFprobe "stems.wav"] [] [])
              [Stream 0 "audio" 44100 4] (Stream 0 "audio" 44100 4)
              2 2 2 eq_refl eq_refl eq_refl eq_refl
              ltac:(lia) ltac:(lia) ltac:(lia) eq_refl)
    as (stems & Hread & Hsh & Hget).
  exists stems. split; [exact Hread|]. split; [exact Hsh|].
  exact (Hget 1 0 1 ltac:(lia) ltac:(lia) ltac:(lia)).
Defined.

(** C9, as stated, fails at [start = 0]: zero is not reset to [None], and
    the seek option ['ss': '0:00:00.000000'] is given to every decoder,
    where the same call with [start=None] gives none. *)
Lemma C9_zero_start_is_forwarded :
  seek_options
    (procs (snd (read_stems even_env "stems.mp4" (Some 0%Q) None None false
                   float32 None None 0 empty_world)))
  = [Some "0:00:00.000000"; Some "0:00:00.000000"]
  /\ seek_options
       (procs (snd (read_stems even_env "stems.mp4" None None None false
                      float32 None None 0 empty_world)))
     = [None; None].
Proof. split; reflexivity. Qed.

(** C9, amended.  For every start value other than zero that is strictly
    below 1e-4 seconds, [read_stems] behaves as the same call with
    [start=None]: the two calls return the same result and leave the same
    processes behind, and no decoder is given a seek option. *)
Theorem C9_small_start_is_no_start :
  forall (sample : Type) (env : environment sample) filename (s : Q)
         duration stem_id always_3d dt info sample_rate stems_from_channels
         w,
    ~ (s == 0)%Q ->
    (s < 1 # 10000)%Q ->
    read_stems env filename (Some s) duration stem_id always_3d dt info
      sample_rate stems_from_channels w
    = read_stems env filename None duration stem_id always_3d dt info
        sample_rate stems_from_channels w
    /\ exists new,
         procs (snd (read_stems env filename (Some s) duration stem_id
                       always_3d dt info sample_rate stems_from_channels w))
         = procs w ++ new
         /\ Forall (fun o => o = None) (seek_options new).
Proof.
  intros sample env filename s duration stem_id always_3d dt info
    sample_rate stems_from_channels w Hnz Hlt.
  pose proof (effective_start_small s Hnz Hlt) as Hs.
  split.
  - unfold read_stems. rewrite Hs. reflexivity.
  - destruct (read_stems_seek_options env filename (Some s) duration stem_id
                always_3d dt info sample_rate stems_from_channels w)
      as (new & Hprocs & Hall).
    exists new. split; [exact Hprocs|]. now rewrite Hs in Hall.
Qed.

(** C9 at a start of ten microseconds. *)
Lemma C9_small_start_is_no_start_witness :
  ~ (1 # 100000 == 0)%Q
  /\ (1 # 100000 < 1 # 10000)%Q
  /\ read_stems even_env "stems.mp4" (Some (1 # 100000)%Q) None None false
       float32 None None 0 empty_world
     = read_stems even_env "stems.mp4" None None None false float32 None
         None 0 empty_world.
Proof.
  assert (Hnz : ~ (1 # 100000 == 0)%Q) by discriminate.
  assert (Hlt : (1 # 100000 < 1 # 10000)%Q) by reflexivity.
  split; [exact Hnz|]. split; [exact Hlt|].
  exact (proj1 (C9_small_start_is_no_start Z even_env "stems.mp4"
                  (1 # 100000)%Q None None false float32 None None 0%Z
                  empty_world Hnz Hlt)).
Defined.

(** C10.  A single sub-stream index [k] given as [stem_id] is wrapped into
    a one-element selection: the call is the same as with the one-element
    list.  When sub-streams are not taken from channels the call starts,
    after the probes, exactly one decoder, on the given file and with the
    option [map] set to "0:k", and returns the buffer that decoder answers
    as the only stem: an array of shape (1, samples, channels), with the
    channel count of the audio stream at position [k], cast to the dtype
    asked for, and squeezed unless [always_3d] is set. *)
Theorem C10_scalar_stem_id_is_wrapped :
  forall (sample : Type) (env : environment sample) filename start duration
         (k : Z) always_3d dt info sample_rate w,
    (forall stems_from_channels,
        read_stems env filename start duration (Some (an_int k)) always_3d
          dt info sample_rate stems_from_channels w
        = read_stems env filename start duration (Some (a_list [k]))
            always_3d dt info sample_rate stems_from_channels w)
    /\ forall pi ss st (rows channels : nat),
         ffprobe env filename = inr pi ->
         let metadata :=
           match info with
           | Some i => i
           | None =>
               MkInfo filename pi
                 (filter (fun st => String.eqb (st_codec_type st) "audio") ss)
           end in
         pi_streams (Info_info metadata) = Some ss ->
         getitem (audio_streams metadata) k = Ok st ->
         st_channels st = Z.of_nat channels ->
         channels <> 0 ->
         let rate := match sample_rate with
                     | Some r => r
                     | None => st_sample_rate st
                     end in
         let kw := OutputKwargs "f32le" rate
                     (option_map _to_ffmpeg_time duration)
                     (option_map _to_ffmpeg_time (effective_start start))
                     ("0:" ++ str_int k) in
         let buffer := ffmpeg_decode env filename kw in
         List.length buffer = rows * channels ->
         let stems :=
           Array [1; rows; channels]
             (if dtype_eqb float32 dt then buffer
              else map (astype env dt) buffer) in
         read_stems env filename start duration (Some (an_int k)) always_3d
           dt info sample_rate 0 w
         = (Ok (if always_3d then stems else squeeze stems, Some rate),
            World (procs w
                   ++ match info with
                      | Some _ => [FFprobe filename]
                      | None => [FFprobe filename; FFprobe filename]
                      end
                   ++ [FFmpegDecode filename kw])
                  (fs_log w) (warnings_log w)).
Proof.
  intros sample env filename start duration k always_3d dt info sample_rate
    w. split.
  - intros stems_from_channels. unfold read_stems, bind.
    destruct (probe_metadata env filename info w) as [[md|e] w1];
      [|reflexivity].
    unfold lift at 1 3. now rewrite select_scalar.
  - intros pi ss st rows channels Hpi metadata Hss Hget Hch Hc rate kw buffer
      Hlen stems.
    assert (Hp : probe_metadata env filename info w
                 = (Ok metadata,
                    World (procs w
                           ++ match info with
                              | Some _ => [FFprobe filename]
                              | None => [FFprobe filename; FFprobe filename]
                              end)
                          (fs_log w) (warnings_log w))).
    { subst metadata. destruct info as [i|].
      - exact (probe_metadata_given env filename i w pi Hpi).
      - exact (probe_metadata_fresh env filename w pi ss Hpi Hss). }
    assert (Hsel : select_substreams metadata (Some (an_int k)) 0
                   = Ok [k]).
    { unfold select_substreams, nb_audio_streams. rewrite Hss.
      destruct (audio_streams metadata); [|reflexivity].
      exfalso. unfold getitem in Hget.
      destruct (_ && _)%bool in Hget; [|discriminate].
      destruct (Z.to_nat _) in Hget; discriminate. }
    assert (Hrate : match sample_rate with
                    | Some r => Ok r
                    | None => Info_sample_rate metadata k
                    end = Ok rate).
    { subst rate. destruct sample_rate; [reflexivity|].
      unfold Info_sample_rate. now rewrite Hget. }
    assert (Hchan : Info_channels metadata k = Ok (Z.of_nat channels)).
    { unfold Info_channels. rewrite Hget. cbn. now rewrite Hch. }
    assert (Hwave : reshape [(-1)%Z; Z.of_nat channels]
                      (frombuffer
                         (ffmpeg_decode env filename
                            (decode_kwargs rate duration
                               (effective_start start) k)))
                    = Ok (Array [rows; channels] buffer)).
    { change (decode_kwargs rate duration (effective_start start) k) with kw.
      apply (reshape_infer_rows (frombuffer buffer) rows channels Hc).
      cbn. lia. }
    rewrite (read_single env filename start duration (Some (an_int k))
               always_3d dt info sample_rate 0%Z w metadata _ k rate
               (Z.of_nat channels) (Array [rows; channels] buffer) stems Hp
               Hsel Hrate Hchan Hwave).
    + cbn [procs fs_log warnings_log]. now rewrite <- app_assoc.
    + unfold stems_of_channels, cast_to, map_elems. cbn [Z.eqb negb andb].
      subst stems. now destruct (dtype_eqb float32 dt).
Qed.

(** C10 at the stereo sub-stream 1 of two: the decoder is asked for "0:1"
    and its buffer, two samples of two channels, is what comes back. *)
Lemma C10_scalar_stem_id_is_wrapped_witness :
  read_stems mono_stereo_env "stems.mp4" None None (Some (an_int 1)) false
    float32 None None 0 empty_world
  = read_stems mono_stereo_env "stems.mp4" None None (Some (a_list [1%Z]))
      false float32 None None 0 empty_world
  /\ read_stems mono_stereo_env "stems.mp4" None None (Some (an_int 1)) false
       float32 None None 0 empty_world
     = (Ok (Array [2; 2] [20; 21; 22; 23]%Z, Some 48000%Z),
        World [FFprobe "stems.mp4"; FFprobe "stems.mp4";
               FFmpegDecode "stems.mp4"
                 (OutputKwargs "f32le" 48000 None None "0:1")]
              [] []).
Proof.
  destruct (C10_scalar_stem_id_is_wrapped Z mono_stereo_env "stems.mp4" None
              None 1%Z false float32 None None empty_world) as [Heq Hone].
  split; [exact (Heq 0%Z)|].
  exact (Hone (ProbeInfo (Some [Stream 0 "audio" 44100 1;
                                Stream 1 "audio" 48000 2]))
              [Stream 0 "audio" 44100 1; Stream 1 "audio" 48000 2]
              (Stream 1 "audio" 48000 2) 2 2
              eq_refl eq_refl eq_refl eq_refl ltac:(discriminate) eq_refl).
Defined.

(* ===================================================================== *)
(** * The claims about write.py *)
(* ===================================================================== *)

(** C3.  [write_stems] is to raise the shape error ([RuntimeError], "Input
    tensor dimension should be 3d") for every tensor that is not
    three-dimensional.  Whenever the ffmpeg found is of a major version
    below 3, the call raises [AttributeError] instead, whatever the tensor:
    the version warning is sent through [warnings.warning], which the
    [warnings] module does not have, and the shape check is never reached.
    Nothing is written to the file system. *)
Theorem C3_old_ffmpeg_attribute_error :
  forall (sample : Type) (env : environment sample) (T : Type)
         (H : Mapper sample T) path (data : stems_data sample) sr
         (mapper : T) w version major,
    ffmpeg_version_output env = Ok version ->
    major_version version = Ok major ->
    (major < 3)%Z ->
    write_stems env path data sr mapper w
    = (Raise (Exn AttributeError
                "module 'warnings' has no attribute 'warning'"),
       World (procs w ++ [FFmpegVersion]) (fs_log w) (warnings_log w)).
Proof.
  intros sample env T H path d sr mapper w version major Hv Hm Hlt.
  unfold write_stems, ffmpeg_version, bind, spawn, modify, lift.
  rewrite Hv, Hm. apply Z.ltb_lt in Hlt. rewrite Hlt. reflexivity.
Qed.

(** C3 with ffmpeg 2.8.15 and a tensor of shape (3, 1). *)
Lemma C3_old_ffmpeg_attribute_error_witness :
  write_stems old_ffmpeg_env (H := ChannelsMapper_Mapper old_ffmpeg_env)
    "out.wav" (Tensor (Array [3; 1] [1; 2; 3]%Z)) 44100 plain_channels_mapper
    empty_world
  = (Raise (Exn AttributeError "module 'warnings' has no attribute 'warning'"),
     World [FFmpegVersion] [] []).
Proof.
  apply (C3_old_ffmpeg_attribute_error Z old_ffmpeg_env ChannelsMapper
           (ChannelsMapper_Mapper old_ffmpeg_env) "out.wav"
           (Tensor (Array [3; 1] [1; 2; 3]%Z)) 44100 plain_channels_mapper
           empty_world (Some "2.8.15") 2%Z eq_refl eq_refl).
  reflexivity.
Defined.

(** C4, as stated, fails: an encoder that accepts all its input and exits
    with status 1 makes [write_audio] return normally. *)
Lemma C4_nonzero_exit_returns_normally :
  let data := Array [2; 1] [1; 2]%Z in
  let call := encode_process failing_encoder_env "out.wav" data 44100 None
                None None 1 in
  exit_status (ffmpeg_encode failing_encoder_env call) = 1%Z
  /\ fst (write_audio failing_encoder_env "out.wav" data 44100 None None None
            empty_world) = Ok tt.
Proof. split; reflexivity. Qed.

(** C4, amended.  [write_audio] rejects data of a rank other than one or
    two with [RuntimeError] before a process is started: the parent
    directory of the path has been asked for, and nothing else has happened.
    For data of rank one or two it starts exactly one encoder, and raises
    [Warning] with the process's captured error stream exactly when writing
    to or closing the input pipe raises [IOError]; it returns silently in
    every other case.  The exit status is not looked at. *)
Theorem C4_write_audio_fails_on_broken_pipe :
  forall (sample : Type) (env : environment sample) path
         (data : ndarray sample) sr osr codec bitrate w,
    let out := write_audio env path data sr osr codec bitrate w in
    let call := encode_process env path data sr osr codec bitrate
                  (if Nat.eqb (ndim data) 1 then 1
                   else last (shape data) 0) in
    let outcome := ffmpeg_encode env call in
    fst out =
    (if Nat.eqb (ndim data) 1 || Nat.eqb (ndim data) 2 then
       if write_raises_ioerror outcome || close_raises_ioerror outcome
       then Raise (Exn Warning
                     ("FFMPEG error: "
                      ++ bytes_repr env (stderr_text outcome))%string)
       else Ok tt
     else Raise (Exn RuntimeError "Number of channels not supported"))
    /\ procs (snd out) =
       (if Nat.eqb (ndim data) 1 || Nat.eqb (ndim data) 2
        then procs w ++ [FFmpegEncode call]
        else procs w)
    /\ fs_log (snd out) = fs_log w ++ [MkdirParentOf path]
    /\ warnings_log (snd out) = warnings_log w.
Proof.
  intros sample env path d sr osr codec bitrate w. cbv zeta.
  rewrite write_audio_eq.
  destruct (Nat.eqb (ndim d) 1 || Nat.eqb (ndim d) 2);
    repeat split; reflexivity.
Qed.

(** C8, as stated, fails: for a single mono stem the squeeze step removes
    the channel axis, and the encoder is given a one-dimensional array. *)
Lemma C8_single_mono_stem_is_squeezed :
  exists call,
    procs (snd (ChannelsMapper_call even_env plain_channels_mapper
                  (Array [1; 2; 1] [7; 8]%Z) "out.wav" 44100 empty_world))
    = [FFmpegEncode call]
    /\ enc_shape call = [2]
    /\ enc_shape call <> [2; 1 * 1].
Proof. eexists. split; [reflexivity|]. split; [reflexivity|discriminate]. Qed.

(** C8, amended.  For a tensor of shape (stems, samples, channels) with at
    least two samples, the interleaved-multichannel strategy starts exactly
    one encoder, declares stems x channels input channels, and writes
    stems x samples x channels samples, each cast to float32, so that the
    one at offset t * (stems * channels) + s * channels + c is the cast of
    element (s, t, c) of the tensor.  The array written has shape
    (samples, stems * channels), except that for stems * channels = 1 the
    squeeze step leaves the one-dimensional array of the samples. *)
Theorem C8_interleaved_multichannel :
  forall (sample : Type) (env : environment sample) (self : ChannelsMapper)
         (xs : list sample) (S T C : nat) path sr w,
    List.length xs = S * T * C ->
    2 <= T ->
    exists call,
      procs (snd (ChannelsMapper_call env self (Array [S; T; C] xs) path sr w))
      = procs w ++ [FFmpegEncode call]
      /\ enc_shape call = (if Nat.eqb (S * C) 1 then [T] else [T; S * C])
      /\ enc_in_ac call = Z.of_nat (S * C)
      /\ List.length (enc_payload call) = S * T * C
      /\ forall s t c, s < S -> t < T -> c < C ->
           nth_error (enc_payload call) (t * (S * C) + s * C + c)
           = option_map (astype env float32)
               (get (Array [S; T; C] xs) [s; t; c]).
Proof.
  intros sample env self xs S T C path sr w Hlen HT.
  destruct (ChannelsMapper_call_written env self xs S T C path sr w Hlen HT)
    as (ys & Hys & Hnth & Hrun).
  cbv zeta in Hrun. rewrite Hrun. cbn [snd procs].
  eexists. split; [reflexivity|].
  unfold encode_process. cbn [enc_shape enc_in_ac enc_payload shape data].
  split; [reflexivity|]. split; [reflexivity|].
  split; [rewrite length_map; lia|].
  intros s t c Hs Ht Hc.
  now rewrite nth_error_map, (Hnth s t c Hs Ht Hc).
Qed.

(** C8 at shape (2, 2, 2), with a sample that float32 cannot hold: 2^24 + 1
    is written as 2^24. *)
Lemma C8_interleaved_multichannel_witness :
  exists call,
    procs (snd (ChannelsMapper_call rounding_env plain_channels_mapper
                  (Array [2; 2; 2] [1; 2; 3; 4; 5; 6; 7; 16777217]%Z)
                  "out.wav" 44100 empty_world))
    = [FFmpegEncode call]
    /\ enc_shape call = [2; 4]
    /\ enc_in_ac call = 4%Z
    /\ enc_payload call = [1; 2; 5; 6; 3; 4; 7; 16777216]%Z.
Proof.
  destruct (C8_interleaved_multichannel Z rounding_env plain_channels_mapper
              [1; 2; 3; 4; 5; 6; 7; 16777217]%Z 2 2 2 "out.wav" 44100
              empty_world eq_refl ltac:(lia))
    as (call & Hprocs & Hshape & Hac & Hlen & Hnth).
  exists call. split; [exact Hprocs|]. split; [exact Hshape|].
  split; [exact Hac|].
  pose proof (Hnth 0 0 0 ltac:(lia) ltac:(lia) ltac:(lia)) as H0.
  pose proof (Hnth 0 0 1 ltac:(lia) ltac:(lia) ltac:(lia)) as H1.
  pose proof (Hnth 1 0 0 ltac:(lia) ltac:(lia) ltac:(lia)) as H2.
  pose proof (Hnth 1 0 1 ltac:(lia) ltac:(lia) ltac:(lia)) as H3.
  pose proof (Hnth 0 1 0 ltac:(lia) ltac:(lia) ltac:(lia)) as H4.
  pose proof (Hnth 0 1 1 ltac:(lia) ltac:(lia) ltac:(lia)) as H5.
  pose proof (Hnth 1 1 0 ltac:(lia) ltac:(lia) ltac:(lia)) as H6.
  pose proof (Hnth 1 1 1 ltac:(lia) ltac:(lia) ltac:(lia)) as H7.
  destruct (enc_payload call) as [|a0 [|a1 [|a2 [|a3 [|a4 [|a5 [|a6 [|a7
    [|a8 rest]]]]]]]]]; try discriminate Hlen.
  vm_compute in H0, H1, H2, H3, H4, H5, H6, H7.
  congruence.
Defined.

(* ===================================================================== *)
(** * The claims about build_channel_map *)
(* ===================================================================== *)

Section ChannelMapFacts.

Lemma nth_error_range n i :
  i < n -> nth_error (range (Z.of_nat n)) i = Some (Z.of_nat i).
Proof.
  intros H. unfold range. rewrite Nat2Z.id, nth_error_map, nth_error_seq.
  apply Nat.ltb_lt in H. now rewrite H.
Qed.

Lemma in_range n x :
  In x (range (Z.of_nat n)) -> exists i, x = Z.of_nat i /\ i < n.
Proof.
  unfold range. rewrite Nat2Z.id. intros H.
  apply in_map_iff in H as (i & <- & Hi). apply in_seq in Hi.
  exists i. split; [reflexivity|lia].
Qed.

(** The eight arguments of stem [idx], its name looked up once. *)
Lemma stream_args_ok stem_names idx :
  In idx (range (Z.of_nat (List.length stem_names))) ->
  stream_args stem_names idx =
  Ok (let name := nth (Z.to_nat idx) stem_names EmptyString in
      [ "-map"; ("[a" ++ str_int idx ++ "]")%string;
        ("-metadata:s:a:" ++ str_int idx)%string; ("title=" ++ name)%string;
        ("-metadata:s:a:" ++ str_int idx)%string; ("handler=" ++ name)%string;
        ("-metadata:s:a:" ++ str_int idx)%string;
        ("handler_name=" ++ name)%string ]).
Proof.
  intros H. apply in_range in H as (i & -> & Hi).
  unfold stream_args. rewrite Nat2Z.id.
  rewrite (getitem_of_nat stem_names i (nth i stem_names EmptyString))
    by now apply nth_error_nth'.
  reflexivity.
Qed.

Lemma range_nonempty n : n <> 0 -> range (Z.of_nat n) <> [].
Proof.
  unfold range. rewrite Nat2Z.id. destruct n; [congruence|discriminate].
Qed.

End ChannelMapFacts.

(** C6.  For stem names of length N and one or two channels per stem,
    [build_channel_map] gives ["-filter_complex"], a filter graph and, per
    stem, eight arguments.  The graph splits at [";"] into one branch per
    stem, which routes channel i (mono) or the channel pair (2i, 2i+1)
    (stereo) into the output labelled [a<i>].  The eight arguments of stem i
    map that output and set the tags title, handler and handler_name of
    audio stream i to the i-th stem name. *)
Theorem C6_build_channel_map_branches :
  forall (stem_names : list string) (nb_channels : Z),
    nb_channels = 1%Z \/ nb_channels = 2%Z ->
    exists graph tags,
      build_channel_map (Z.of_nat (List.length stem_names)) nb_channels
        stem_names
      = Ok ("-filter_complex" :: graph :: tags)
      /\ (stem_names <> [] ->
          split_char ";" graph =
          map
            (fun i =>
               if (nb_channels =? 1)%Z then
                 ("[a:0]pan=mono| c0=c" ++ str_int i
                  ++ "[a" ++ str_int i ++ "]")%string
               else
                 ("[a:0]pan=stereo| c0=c" ++ str_int (2 * i)%Z
                  ++ " | c1=c" ++ str_int (2 * i + 1)%Z
                  ++ "[a" ++ str_int i ++ "]")%string)
            (range (Z.of_nat (List.length stem_names))))
      /\ List.length tags = 8 * List.length stem_names
      /\ forall i name,
           nth_error stem_names i = Some name ->
           firstn 8 (skipn (8 * i) tags) =
           [ "-map";
             ("[a" ++ str_int (Z.of_nat i) ++ "]")%string;
             ("-metadata:s:a:" ++ str_int (Z.of_nat i))%string;
             ("title=" ++ name)%string;
             ("-metadata:s:a:" ++ str_int (Z.of_nat i))%string;
             ("handler=" ++ name)%string;
             ("-metadata:s:a:" ++ str_int (Z.of_nat i))%string;
             ("handler_name=" ++ name)%string ].
Proof.
  intros stem_names nb_channels Hch.
  set (n := List.length stem_names).
  set (args := fun idx : Z =>
         let name := nth (Z.to_nat idx) stem_names EmptyString in
         [ "-map"; ("[a" ++ str_int idx ++ "]")%string;
           ("-metadata:s:a:" ++ str_int idx)%string; ("title=" ++ name)%string;
           ("-metadata:s:a:" ++ str_int idx)%string; ("handler=" ++ name)%string;
           ("-metadata:s:a:" ++ str_int idx)%string;
           ("handler_name=" ++ name)%string ]).
  assert (Hper : map_result (stream_args stem_names) (range (Z.of_nat n))
                 = Ok (map args (range (Z.of_nat n)))).
  { apply map_result_ok. intros x Hx. now apply stream_args_ok. }
  assert (Hall : Forall (fun l : list string => List.length l = 8)
                        (map args (range (Z.of_nat n)))).
  { apply Forall_forall. intros l Hl.
    apply in_map_iff in Hl as (x & <- & _). reflexivity. }
  assert (Htags : List.length (List.concat (map args (range (Z.of_nat n))))
                  = 8 * n).
  { rewrite (length_concat_uniform 8 _ Hall), length_map.
    unfold range. now rewrite length_map, length_seq, Nat2Z.id. }
  assert (Hchunk : forall i name,
             nth_error stem_names i = Some name ->
             firstn 8 (skipn (8 * i)
                         (List.concat (map args (range (Z.of_nat n)))))
             = args (Z.of_nat i)
             /\ nth (Z.to_nat (Z.of_nat i)) stem_names EmptyString = name).
  { intros i name Hi.
    assert (Hlt : i < n) by (apply nth_error_Some; congruence).
    split.
    - apply (chunk_of_concat 8 _ i _ Hall).
      now rewrite nth_error_map, (nth_error_range n i Hlt).
    - rewrite Nat2Z.id. now apply nth_error_nth. }
  unfold build_channel_map. fold n. rewrite Z.eqb_refl. cbn [negb].
  destruct Hch as [-> | ->]; cbn [Z.eqb Pos.eqb]; rewrite Hper; cbn [rbind].
  - eexists. eexists. split; [reflexivity|]. split; [|split].
    + intros Hne. rewrite split_char_join.
      * apply map_ext. intros i. reflexivity.
      * intros E. apply map_eq_nil in E.
        apply (range_nonempty n); [|exact E].
        unfold n. now destruct stem_names.
      * apply forallb_forall. intros p Hp.
        apply in_map_iff in Hp as (i & <- & _).
        now rewrite pan_mono_no_semicolon.
    + exact Htags.
    + intros i name Hi. destruct (Hchunk i name Hi) as [E Hn].
      rewrite E. unfold args. cbv zeta. now rewrite Hn.
  - eexists. eexists. split; [reflexivity|]. split; [|split].
    + intros Hne. rewrite split_char_join.
      * apply map_ext. intros i. unfold pan_stereo.
        now rewrite (Z.mul_comm i 2).
      * intros E. apply map_eq_nil in E.
        apply (range_nonempty n); [|exact E].
        unfold n. now destruct stem_names.
      * apply forallb_forall. intros p Hp.
        apply in_map_iff in Hp as (i & <- & _).
        now rewrite pan_stereo_no_semicolon.
    + exact Htags.
    + intros i name Hi. destruct (Hchunk i name Hi) as [E Hn].
      rewrite E. unfold args. cbv zeta. now rewrite Hn.
Qed.

(** C7, as stated, fails: with four channels per stem and no stem names the
    name check comes first and raises [RuntimeError], not
    [NotImplementedError]. *)
Lemma C7_name_check_comes_first :
  raised_class (build_channel_map 2 4 []) = Some RuntimeError
  /\ raised_class (build_channel_map 2 4 []) <> Some NotImplementedError.
Proof. split; [reflexivity|discriminate]. Qed.

(** C7, amended.  [build_channel_map] raises [RuntimeError] whenever the
    number of stem names differs from the number of stems; when they agree
    it raises [NotImplementedError] for every channel count other than 1 and
    2; it raises in no other case. *)
Theorem C7_build_channel_map_errors :
  forall (nb_stems nb_channels : Z) (stem_names : list string),
    raised_class (build_channel_map nb_stems nb_channels stem_names) =
    if negb (nb_stems =? Z.of_nat (List.length stem_names))%Z then
      Some RuntimeError
    else if ((nb_channels =? 1) || (nb_channels =? 2))%Z then None
    else Some NotImplementedError.
Proof.
  intros nb_stems nb_channels stem_names. unfold build_channel_map.
  destruct (nb_stems =? Z.of_nat (List.length stem_names))%Z eqn:En;
    cbn [negb]; [|reflexivity].
  apply Z.eqb_eq in En. subst nb_stems.
  assert (Hper : exists per_stem,
             map_result (stream_args stem_names)
               (range (Z.of_nat (List.length stem_names))) = Ok per_stem).
  { eexists. apply map_result_ok. intros x Hx. now apply stream_args_ok. }
  destruct Hper as (per_stem & Hper).
  destruct (nb_channels =? 1)%Z; cbn [orb].
  - now rewrite Hper.
  - destruct (nb_channels =? 2)%Z; [now rewrite Hper|reflexivity].
Qed.

(** C6 for two stereo stems. *)
Lemma C6_build_channel_map_branches_witness :
  (2 = 1 \/ 2 = 2)%Z
  /\ exists graph tags,
      build_channel_map 2 2 ["drums"; "bass"]
      = Ok ("-filter_complex" :: graph :: tags)
      /\ split_char ";" graph
         = ["[a:0]pan=stereo| c0=c0 | c1=c1[a0]";
            "[a:0]pan=stereo| c0=c2 | c1=c3[a1]"]
      /\ firstn 8 (skipn 8 tags)
         = ["-map"; "[a1]"; "-metadata:s:a:1"; "title=bass";
            "-metadata:s:a:1"; "handler=bass";
            "-metadata:s:a:1"; "handler_name=bass"].
Proof.
  split; [now right|].
  destruct (C6_build_channel_map_branches ["drums"; "bass"] 2
              (or_intror eq_refl))
    as (graph & tags & E & Hsplit & _ & Htags).
  exists graph, tags. split; [exact E|]. split.
  - rewrite Hsplit by discriminate. reflexivity.
  - exact (Htags 1 "bass" eq_refl).
Defined.

(* ===================================================================== *)
(** * Further properties: arrays written and read back *)
(* ===================================================================== *)

Section ArrayEquality.
Context {A : Type}.

(** Arrays of one shape with the same element at every index are equal. *)
Lemma array_ext (a b : ndarray A) :
  wf a -> wf b -> shape a = shape b ->
  (forall idx, in_bounds (shape a) idx = true -> get a idx = get b idx) ->
  a = b.
Proof.
  destruct a as [sh xs], b as [sh' ys]. unfold wf. simpl.
  intros Ha Hb <- Hget. f_equal. apply nth_error_ext. intros n.
  destruct (Nat.ltb n (size_of sh)) eqn:E.
  - apply Nat.ltb_lt in E.
    pose proof (unravel_in_bounds sh n E) as Hb'.
    specialize (Hget _ Hb'). unfold get in Hget. simpl in Hget.
    now rewrite Hb', (ravel_unravel sh n E) in Hget.
  - apply Nat.ltb_ge in E.
    assert (H1 : nth_error xs n = None) by (apply nth_error_None; lia).
    assert (H2 : nth_error ys n = None) by (apply nth_error_None; lia).
    congruence.
Qed.

Lemma in_bounds_3 d0 d1 d2 idx :
  in_bounds [d0; d1; d2] idx = true ->
  exists i j k, idx = [i; j; k] /\ i < d0 /\ j < d1 /\ k < d2.
Proof.
  destruct idx as [|i [|j [|k [|? ?]]]]; simpl; try discriminate;
    try (rewrite ?andb_false_r; discriminate).
  intros H. apply andb_true_iff in H as [Hi H].
  apply andb_true_iff in H as [Hj H]. apply andb_true_iff in H as [Hk _].
  apply Nat.ltb_lt in Hi, Hj, Hk. now exists i, j, k.
Qed.

End ArrayEquality.

Section ChannelsRoundTrip.
Context {sample : Type}.
Variable env : environment sample.

(** What [ChannelsMapper.__call__] does for a tensor of at least two
    samples and more than one channel in all. *)
Lemma ChannelsMapper_call_eq self (xs : list sample) S T C path sr w :
  List.length xs = S * T * C -> 2 <= T -> S * C <> 1 ->
  exists ys,
    (b <-- transpose [1; 0; 2] (Array [S; T; C] xs) ;;
     reshape [Z.of_nat T; (-1)%Z] b)%py = Ok (Array [T; S * C] ys)
    /\ let self' :=
         match cm_output_sample_rate self with
         | None => MkChannelsMapper (cm_codec self) (cm_bitrate self)
                     (Some sr) (cm_stem_names self)
         | Some _ => self
         end in
       let call := encode_process env path (Array [T; S * C] ys) sr
                     (cm_output_sample_rate self') (cm_codec self')
                     (cm_bitrate self') (S * C) in
       let outcome := ffmpeg_encode env call in
       ChannelsMapper_call env self (Array [S; T; C] xs) path sr w
       = (if write_raises_ioerror outcome || close_raises_ioerror outcome
          then Raise (Exn Warning
                        ("FFMPEG error: "
                         ++ bytes_repr env (stderr_text outcome))%string)
          else Ok self',
          World (procs w ++ [FFmpegEncode call])
                (fs_log w ++ [MkdirParentOf path]) (warnings_log w)).
Proof.
  intros Hlen HT HSC.
  destruct (interleave_spec xs S T C Hlen) as (ys & E & _ & _); [lia|].
  exists ys. split; [exact E|]. cbv zeta.
  unfold ChannelsMapper_call. cbn [shape].
  destruct (transpose [1; 0; 2] (Array [S; T; C] xs)) as [b|e] eqn:Eb;
    cbn [rbind] in E; [|discriminate].
  unfold bind at 1. unfold lift at 1. unfold bind at 1. unfold lift at 1.
  rewrite E. unfold squeeze. cbn [shape data filter].
  assert (HT1 : Nat.eqb T 1 = false) by (apply Nat.eqb_neq; lia).
  apply Nat.eqb_neq in HSC. rewrite HT1, HSC. cbn [negb].
  unfold bind. rewrite write_audio_eq. cbn [ndim shape List.length Nat.eqb orb].
  cbn [last].
  match goal with
  | |- context [if ?c then Raise _ else Ok tt] => destruct c
  end; reflexivity.
Qed.

(** X1.  Writing a non-empty tensor of at least two samples with the
    interleaved-multichannel strategy and reading the file back with
    [stems_from_channels] set to the number of channels per stem gives the
    tensor back with every sample cast to float32 (and from there to the
    dtype asked for, when that is another one), squeezed unless [always_3d]
    is set, provided the container stores the written samples unchanged as
    one sub-stream of stems x channels channels.  So the tensor itself
    comes back when its samples are float32 values already and the call
    asks for float32 and [always_3d]. *)
Theorem X1_channels_mapper_round_trip :
  forall (self : ChannelsMapper) (xs : list sample) (S T C : nat) path sr w0
         call start duration stem_id always_3d dt info sample_rate w metadata
         w1 ss st,
    List.length xs = S * T * C -> 2 <= T -> 0 < S -> 0 < C ->
    procs (snd (ChannelsMapper_call env self (Array [S; T; C] xs) path sr w0))
    = procs w0 ++ [FFmpegEncode call] ->
    probe_metadata env path info w = (Ok metadata, w1) ->
    pi_streams (Info_info metadata) = Some ss ->
    audio_streams metadata = [st] ->
    st_channels st = Z.of_nat (S * C) ->
    let rate := match sample_rate with
                | Some r => r
                | None => st_sample_rate st
                end in
    ffmpeg_decode env path
      (OutputKwargs "f32le" rate (option_map _to_ffmpeg_time duration)
         (option_map _to_ffmpeg_time (effective_start start)) "0:0")
    = enc_payload call ->
    let cast := fun x => if dtype_eqb float32 dt then astype env float32 x
                         else astype env dt (astype env float32 x) in
    let back := Array [S; T; C] (map cast xs) in
    fst (read_stems env path start duration stem_id always_3d dt info
           sample_rate (Z.of_nat C) w)
    = Ok (if always_3d then back else squeeze back, Some rate)
    /\ ((forall x, In x xs -> astype env float32 x = x) ->
        dt = float32 -> always_3d = true ->
        fst (read_stems env path start duration stem_id always_3d dt info
               sample_rate (Z.of_nat C) w)
        = Ok (Array [S; T; C] xs, Some rate)).
Proof.
  intros self xs S T C path sr w0 call start duration stem_id always_3d dt
    info sample_rate w metadata w1 ss st Hlen HT HS HC Hcall Hp Hss Haudio
    Hch rate Hdec cast back.
  destruct (ChannelsMapper_call_written env self xs S T C path sr w0 Hlen HT)
    as (ys & Hys & Hnth & Hrun).
  cbv zeta in Hrun. rewrite Hrun in Hcall. cbn [snd procs] in Hcall.
  apply app_inv_head in Hcall. injection Hcall as Hcall.
  assert (Hpay : enc_payload call = map (astype env float32) ys)
    by now subst call.
  assert (Hsel : select_substreams metadata stem_id (Z.of_nat C) = Ok [0%Z]).
  { unfold select_substreams, nb_audio_streams. rewrite Hss, Haudio.
    cbn [List.length Nat.eqb orb negb getitem].
    replace (Z.of_nat C =? 0)%Z with false
      by (symmetry; apply Z.eqb_neq; lia).
    cbn. rewrite Hch, Nat2Z.inj_mul, Z.mod_mul by lia. reflexivity. }
  assert (Hrate : match sample_rate with
                  | Some r => Ok r
                  | None => Info_sample_rate metadata 0
                  end = Ok rate).
  { subst rate. destruct sample_rate; [reflexivity|].
    unfold Info_sample_rate. now rewrite Haudio. }
  assert (Hchan : Info_channels metadata 0 = Ok (Z.of_nat (S * C))).
  { unfold Info_channels. rewrite Haudio. cbn. now rewrite Hch. }
  assert (Hwave : reshape [(-1)%Z; Z.of_nat (S * C)]
                    (frombuffer
                       (ffmpeg_decode env path
                          (decode_kwargs rate duration
                             (effective_start start) 0)))
                  = Ok (Array [T; S * C] (map (astype env float32) ys))).
  { change (decode_kwargs rate duration (effective_start start) 0)
      with (OutputKwargs "f32le" rate (option_map _to_ffmpeg_time duration)
              (option_map _to_ffmpeg_time (effective_start start)) "0:0").
    rewrite Hdec, Hpay.
    apply (reshape_infer_rows (frombuffer _) T (S * C));
      [apply Nat.neq_mul_0; lia|].
    cbn. rewrite length_map. lia. }
  assert (Hcast : cast_to env dt
                    (Array [T; S * C] (map (astype env float32) ys))
                  = Array [T; S * C] (map cast ys)).
  { unfold cast_to, map_elems. subst cast. cbn [shape data].
    destruct (dtype_eqb float32 dt); [reflexivity|]. now rewrite map_map. }
  assert (Hre : stems_of_channels (Z.of_nat C)
                  (Array [1; T; S * C] (map cast ys)) = Ok back).
  { destruct (Nat.eq_dec (S * C) 1) as [E1|E1].
    - assert (S = 1 /\ C = 1) as [-> ->] by nia.
      unfold stems_of_channels. cbn. f_equal. subst back. f_equal. f_equal.
      apply nth_error_ext. intros n.
      destruct (Nat.ltb n T) eqn:En.
      + apply Nat.ltb_lt in En.
        pose proof (Hnth 0 n 0 ltac:(lia) En ltac:(lia)) as Hn.
        unfold get in Hn. cbn in Hn.
        destruct T as [|m]; [lia|].
        replace (n <=? m) with true in Hn
          by (symmetry; apply Nat.leb_le; lia).
        cbn in Hn. replace (n * 1 + 0 + 0) with n in Hn by lia.
        replace (n * 1 + 0) with n in Hn by lia. exact Hn.
      + apply Nat.ltb_ge in En.
        assert (H1 : nth_error ys n = None) by (apply nth_error_None; lia).
        assert (H2 : nth_error xs n = None) by (apply nth_error_None; lia).
        congruence.
    - assert (HSC : S * C <> 0) by (apply Nat.neq_mul_0; lia).
      destruct (stems_of_channels_spec (map cast ys) T S C)
        as (b & Hb & Hsh & Hwf & Hget);
        try lia; [rewrite length_map; lia|].
      rewrite Hb. f_equal.
      apply array_ext;
        [exact Hwf|unfold wf; subst back; simpl; rewrite length_map; lia
        |exact Hsh|].
      intros idx Hidx. rewrite Hsh in Hidx.
      apply in_bounds_3 in Hidx as (g & t & j & -> & Hg & Ht & Hj).
      rewrite (Hget g t j Hg Ht Hj), nth_error_map, (Hnth g t j Hg Ht Hj).
      subst back. now rewrite get_map. }
  assert (Hread : fst (read_stems env path start duration stem_id always_3d
                         dt info sample_rate (Z.of_nat C) w)
                  = Ok (if always_3d then back else squeeze back, Some rate)).
  { rewrite (read_single env path start duration stem_id always_3d dt info
               sample_rate (Z.of_nat C) w metadata w1 0%Z rate
               (Z.of_nat (S * C))
               (Array [T; S * C] (map (astype env float32) ys)) back Hp Hsel
               Hrate Hchan Hwave);
      [reflexivity|].
    rewrite Hcast. exact Hre. }
  split; [exact Hread|].
  intros Hfix -> ->. rewrite Hread. subst back cast. cbn [dtype_eqb].
  do 3 f_equal. rewrite <- (map_id xs) at 2.
  apply map_ext_in. exact Hfix.
Qed.

End ChannelsRoundTrip.

(** X1 for the tensor of shape (2, 2, 2) with the samples 1 to 7 and
    2^24 + 1, which float32 cannot hold: 2^24 comes back in its place. *)
Lemma X1_channels_mapper_round_trip_witness :
  fst (read_stems rounding_env "out.wav" None None None true float32 None
         None 2 empty_world)
  = Ok (Array [2; 2; 2] [1; 2; 3; 4; 5; 6; 7; 16777216]%Z, Some 44100%Z).
Proof.
  exact (proj1
    (X1_channels_mapper_round_trip (sample := Z) rounding_env
       plain_channels_mapper
       [1; 2; 3; 4; 5; 6; 7; 16777217]%Z 2 2 2 "out.wav" 44100 empty_world
       (encode_process rounding_env "out.wav"
          (Array [2; 4] [1; 2; 5; 6; 3; 4; 7; 16777217]%Z) 44100
          (Some 44100%Q) None None 4)
       None None None true float32 None None empty_world
       (MkInfo "out.wav" (ProbeInfo (Some [Stream 0 "audio" 44100 4]))
          [Stream 0 "audio" 44100 4])
       (World [FFprobe "out.wav"; FFprobe "out.wav"] [] [])
       [Stream 0 "audio" 44100 4] (Stream 0 "audio" 44100 4)
       eq_refl ltac:(lia) ltac:(lia) ltac:(lia) eq_refl eq_refl eq_refl
       eq_refl eq_refl eq_refl)).
Defined.


(* ===================================================================== *)
(** * Further properties of read.py *)
(* ===================================================================== *)

Section ReadWorld.
Context {sample : Type}.
Variable env : environment sample.

(** The decoding loop only appends decoders of the given file. *)
Lemma decode_loop_world filename metadata start duration dt substreams
    sample_rate stems (w : world sample) :
  exists n rate,
    snd (for_each substreams
           (decode_stem env filename metadata start duration dt)
           (sample_rate, stems) w)
    = World (procs w
             ++ map (fun stem => FFmpegDecode filename
                                   (decode_kwargs rate duration start stem))
                    (firstn n substreams))
            (fs_log w) (warnings_log w).
Proof.
  destruct sample_rate as [rate|].
  - destruct (decode_loop_some env filename metadata start duration dt
                substreams rate stems w) as (n & _ & H & _).
    now exists n, rate.
  - destruct substreams as [|first rest].
    + exists 0, 0%Z. cbn. now rewrite app_nil_r, world_eta.
    + destruct (Info_sample_rate metadata first) as [native|e] eqn:Hn.
      * rewrite (decode_loop_none_ok _ _ _ _ _ _ _ _ _ _ _ Hn).
        destruct (decode_loop_some env filename metadata start duration dt
                    (first :: rest) native stems w) as (n & _ & H & _).
        now exists n, native.
      * rewrite (decode_loop_none_raise _ _ _ _ _ _ _ _ _ _ _ Hn).
        exists 0, 0%Z. cbn. now rewrite app_nil_r, world_eta.
Qed.

(** The world after any call of [read_stems]. *)
Lemma read_stems_world filename start duration stem_id always_3d dt info
    sample_rate stems_from_channels (w : world sample) :
  exists probes decodes,
    snd (read_stems env filename start duration stem_id always_3d dt info
           sample_rate stems_from_channels w)
    = World (procs w ++ probes ++ decodes) (fs_log w) (warnings_log w)
    /\ Forall (fun p => p = FFprobe filename) probes
    /\ Forall (fun p => exists kw, p = FFmpegDecode filename kw) decodes.
Proof.
  destruct (probe_metadata_world env filename info w)
    as (probes & Hw1 & Hprobes).
  exists probes.
  destruct (probe_metadata env filename info w) as [[md|e] w1] eqn:Hp;
    cbn [snd] in Hw1.
  - destruct (select_substreams md stem_id stems_from_channels)
      as [subs|e] eqn:Hs.
    + destruct (read_stems_after_loop env filename start duration stem_id
                  always_3d dt info sample_rate stems_from_channels
                  w md w1 subs Hp Hs) as [Hsnd _].
      cbv zeta in Hsnd. rewrite Hsnd.
      destruct (decode_loop_world filename md (effective_start start)
                  duration dt subs sample_rate [] w1) as (n & rate & Hloop).
      rewrite Hloop, Hw1. cbn [procs fs_log warnings_log].
      eexists. split; [now rewrite <- app_assoc|]. split; [exact Hprobes|].
      apply Forall_forall. intros p Hin.
      apply in_map_iff in Hin as (stem & <- & _). eauto.
    + exists []. unfold read_stems, bind, lift. rewrite Hp, Hs.
      cbn [snd]. rewrite Hw1, app_nil_r. auto.
  - exists []. unfold read_stems, bind. rewrite Hp.
    cbn [snd]. rewrite Hw1, app_nil_r. auto.
Qed.

End ReadWorld.

(** X2.  Whatever its arguments and whatever the tools answer, [read_stems]
    writes nothing to the file system, shows no warning, and starts only
    ffprobe and decoding ffmpeg processes on the file it was given. *)
Theorem X2_read_stems_only_reads :
  forall (sample : Type) (env : environment sample) filename start duration
         stem_id always_3d dt info sample_rate stems_from_channels w,
    let w' := snd (read_stems env filename start duration stem_id always_3d
                     dt info sample_rate stems_from_channels w) in
    fs_log w' = fs_log w
    /\ warnings_log w' = warnings_log w
    /\ exists new, procs w' = procs w ++ new
                   /\ forallb (read_process filename) new = true.
Proof.
  intros sample env filename start duration stem_id always_3d dt info
    sample_rate stems_from_channels w w'. subst w'.
  destruct (read_stems_world env filename start duration stem_id always_3d dt
              info sample_rate stems_from_channels w)
    as (probes & decodes & Hw & Hp & Hd).
  rewrite Hw. cbn [fs_log warnings_log procs].
  split; [reflexivity|]. split; [reflexivity|].
  exists (probes ++ decodes). split; [reflexivity|].
  apply forallb_forall. intros p Hin. apply in_app_or in Hin as [Hin|Hin].
  - rewrite Forall_forall in Hp. rewrite (Hp p Hin). cbn.
    apply String.eqb_refl.
  - rewrite Forall_forall in Hd. destruct (Hd p Hin) as (kw & ->). cbn.
    apply String.eqb_refl.
Qed.

Section ReadSuccess.
Context {sample : Type}.
Variable env : environment sample.

(** The loop when every round succeeds. *)
Lemma decode_loop_all_ok filename metadata start duration dt
    (rows channels : nat) rate substreams stems (w : world sample) :
  channels <> 0 ->
  (forall stem, In stem substreams ->
      Info_channels metadata stem = Ok (Z.of_nat channels)
      /\ List.length (ffmpeg_decode env filename
                        (decode_kwargs rate duration start stem))
         = rows * channels) ->
  for_each substreams (decode_stem env filename metadata start duration dt)
    (Some rate, stems) w
  = (Ok (Some rate,
         stems ++ map (fun stem =>
                         cast_to env dt
                           (Array [rows; channels]
                              (ffmpeg_decode env filename
                                 (decode_kwargs rate duration start stem))))
                      substreams),
     World (procs w
            ++ map (fun stem => FFmpegDecode filename
                                  (decode_kwargs rate duration start stem))
                   substreams)
           (fs_log w) (warnings_log w)).
Proof.
  intros Hc. revert stems w.
  induction substreams as [|stem rest IH]; intros stems w Hall.
  - cbn. now rewrite !app_nil_r, world_eta.
  - destruct (Hall stem (or_introl eq_refl)) as [Hch Hlen].
    cbn [for_each]. unfold bind. rewrite decode_stem_some, Hch. cbv zeta.
    rewrite (reshape_infer_rows (frombuffer _) rows channels Hc)
      by (cbn; lia).
    cbn [frombuffer data].
    rewrite IH by (intros s Hs; apply Hall; now right).
    cbn [procs fs_log warnings_log map]. now rewrite <- !app_assoc.
Qed.

Lemma stack_uniform (sh : list nat) (arrays : list (ndarray sample)) :
  arrays <> [] ->
  Forall (fun a => shape a = sh) arrays ->
  stack arrays = Ok (Array (List.length arrays :: sh) (flat_map data arrays)).
Proof.
  intros Hne Hall. destruct arrays as [|a0 rest]; [congruence|].
  unfold stack.
  assert (E : forallb (fun a => if list_eq_dec Nat.eq_dec (shape a) (shape a0)
                                then true else false) (a0 :: rest) = true).
  { apply forallb_forall. intros a Ha. rewrite Forall_forall in Hall.
    rewrite (Hall a Ha), (Hall a0 (or_introl eq_refl)).
    destruct (list_eq_dec Nat.eq_dec sh sh); congruence. }
  rewrite E. now rewrite (Forall_inv Hall).
Qed.

End ReadSuccess.

(** X3.  When every selected sub-stream has the same number of channels and
    decodes to the same number of samples, [read_stems] (without
    [stems_from_channels]) starts one decoder per selected sub-stream, in
    the order of the selection and all at one rate, and returns the decoded
    buffers stacked in that order: a tensor of shape (stems, samples,
    channels), squeezed unless [always_3d] is set. *)
Theorem X3_read_stems_stacks_decoded_streams :
  forall (sample : Type) (env : environment sample) filename start duration
         stem_id always_3d dt info sample_rate w metadata w1 first rest
         rate (rows channels : nat),
    probe_metadata env filename info w = (Ok metadata, w1) ->
    select_substreams metadata stem_id 0 = Ok (first :: rest) ->
    match sample_rate with
    | Some r => Ok r
    | None => Info_sample_rate metadata first
    end = Ok rate ->
    channels <> 0 ->
    (forall stem, In stem (first :: rest) ->
        Info_channels metadata stem = Ok (Z.of_nat channels)
        /\ List.length (ffmpeg_decode env filename
                          (decode_kwargs rate duration
                             (effective_start start) stem))
           = rows * channels) ->
    read_stems env filename start duration stem_id always_3d dt info
      sample_rate 0 w
    = (Ok (let stems :=
             Array [List.length (first :: rest); rows; channels]
               (flat_map
                  (fun stem =>
                     data (cast_to env dt
                             (Array [rows; channels]
                                (ffmpeg_decode env filename
                                   (decode_kwargs rate duration
                                      (effective_start start) stem)))))
                  (first :: rest)) in
           if always_3d then stems else squeeze stems,
           Some rate),
       World (procs w1
              ++ map (fun stem =>
                        FFmpegDecode filename
                          (decode_kwargs rate duration
                             (effective_start start) stem))
                     (first :: rest))
             (fs_log w1) (warnings_log w1)).
Proof.
  intros sample env filename start duration stem_id always_3d dt info
    sample_rate w metadata w1 first rest rate rows channels Hp Hs Hr Hc Hall.
  rewrite (read_stems_eq _ _ _ _ _ _ _ _ _ _ _ _ _ _ Hp Hs).
  assert (E : for_each (first :: rest)
                (decode_stem env filename metadata (effective_start start)
                   duration dt) (sample_rate, []) w1
              = for_each (first :: rest)
                  (decode_stem env filename metadata (effective_start start)
                     duration dt) (Some rate, []) w1).
  { destruct sample_rate as [r|].
    - now injection Hr as ->.
    - now apply decode_loop_none_ok. }
  rewrite E, (decode_loop_all_ok env _ _ _ _ _ rows channels rate _ _ _ Hc Hall).
  cbn [app].
  set (stems := map _ (first :: rest)).
  assert (Hshape : Forall (fun a : ndarray sample => shape a = [rows; channels])
                          stems).
  { apply Forall_forall. intros a Ha. apply in_map_iff in Ha as (s & <- & _).
    apply shape_cast_to. }
  assert (Hrows : map nb_rows stems = rows :: map (fun _ => rows) rest).
  { subst stems. cbn [map]. f_equal.
    - unfold nb_rows. now rewrite shape_cast_to.
    - rewrite map_map. apply map_ext. intros s. unfold nb_rows.
      now rewrite shape_cast_to. }
  rewrite (align_stems_equal stems rows (map (fun _ => rows) rest) _ Hrows).
  2:{ apply forallb_forall. intros x [<-|Hx]; [apply Nat.eqb_refl|].
      apply in_map_iff in Hx as (? & <- & _). apply Nat.eqb_refl. }
  rewrite (stack_uniform [rows; channels] stems); [|subst stems; discriminate|exact Hshape].
  unfold stems_of_channels. cbn [Z.eqb negb andb].
  subst stems. rewrite length_map, flat_map_concat_map, map_map,
    <- flat_map_concat_map. reflexivity.
Qed.

(** X3 at the two mono sub-streams of two samples each. *)
Lemma X3_read_stems_stacks_decoded_streams_witness :
  read_stems even_env "stems.mp4" None None None true float32 None None 0
    empty_world
  = (Ok (Array [2; 2; 1] [10; 11; 20; 21]%Z, Some 44100%Z),
     World [FFprobe "stems.mp4"; FFprobe "stems.mp4";
            FFmpegDecode "stems.mp4" (decode_kwargs 44100 None None 0);
            FFmpegDecode "stems.mp4" (decode_kwargs 44100 None None 1)]
           [] []).
Proof.
  apply (X3_read_stems_stacks_decoded_streams Z even_env "stems.mp4" None
           None None true float32 None None empty_world
           (MkInfo "stems.mp4" (ProbeInfo (Some two_streams)) two_streams)
           (World [FFprobe "stems.mp4"; FFprobe "stems.mp4"] [] [])
           0%Z [1%Z] 44100%Z 2 1 eq_refl eq_refl eq_refl).
  - discriminate.
  - intros stem [<-|[<-|[]]]; split; reflexivity.
Defined.

Section ReadGuards.
Context {sample : Type}.
Variable env : environment sample.

(** [read_stems] when the selection raises. *)
Lemma read_stems_select_raises filename start duration stem_id always_3d dt
    info sample_rate stems_from_channels (w : world sample) metadata w1 e :
  probe_metadata env filename info w = (Ok metadata, w1) ->
  select_substreams metadata stem_id stems_from_channels = Raise e ->
  read_stems env filename start duration stem_id always_3d dt info
    sample_rate stems_from_channels w = (Raise e, w1).
Proof.
  intros Hp Hs. unfold read_stems, bind, lift. now rewrite Hp, Hs.
Qed.

(** After the probes, [read_stems] starts decoders only. *)
Lemma read_stems_after_probe filename start duration stem_id always_3d dt
    info sample_rate stems_from_channels (w : world sample) r w1 :
  probe_metadata env filename info w = (r, w1) ->
  exists decodes,
    procs (snd (read_stems env filename start duration stem_id always_3d dt
                  info sample_rate stems_from_channels w))
    = procs w1 ++ decodes
    /\ forallb is_decode decodes = true.
Proof.
  intros Hp. destruct r as [md|e].
  - destruct (select_substreams md stem_id stems_from_channels)
      as [subs|e] eqn:Hs.
    + destruct (read_stems_after_loop env filename start duration stem_id
                  always_3d dt info sample_rate stems_from_channels
                  w md w1 subs Hp Hs) as [Hsnd _].
      cbv zeta in Hsnd. rewrite Hsnd.
      destruct (decode_loop_world env filename md (effective_start start)
                  duration dt subs sample_rate [] w1) as (n & rate & Hloop).
      rewrite Hloop. cbn [procs]. eexists. split; [reflexivity|].
      apply forallb_forall. intros p Hin.
      apply in_map_iff in Hin as (stem & <- & _). reflexivity.
    + rewrite (read_stems_select_raises _ _ _ _ _ _ _ _ _ _ _ _ _ Hp Hs).
      exists []. cbn. now rewrite app_nil_r.
  - exists []. unfold read_stems, bind. rewrite Hp. cbn.
    now rewrite app_nil_r.
Qed.

End ReadGuards.

(** X4.  When [stems_from_channels] is set, [stem_id] is not looked at: any
    two values of it give the same call. *)
Theorem X4_stem_id_ignored_with_stems_from_channels :
  forall (sample : Type) (env : environment sample) filename start duration
         stem_id stem_id' always_3d dt info sample_rate stems_from_channels
         w,
    stems_from_channels <> 0%Z ->
    read_stems env filename start duration stem_id always_3d dt info
      sample_rate stems_from_channels w
    = read_stems env filename start duration stem_id' always_3d dt info
        sample_rate stems_from_channels w.
Proof.
  intros sample env filename start duration stem_id stem_id' always_3d dt
    info sample_rate stems_from_channels w Hsfc.
  assert (E : forall md,
             select_substreams md stem_id stems_from_channels
             = select_substreams md stem_id' stems_from_channels).
  { intros md. unfold select_substreams.
    apply Z.eqb_neq in Hsfc. rewrite Hsfc. reflexivity. }
  unfold read_stems, bind.
  destruct (probe_metadata env filename info w) as [[md|e] w1];
    [|reflexivity].
  unfold lift at 1 3. now rewrite E.
Qed.

(** X4 on the four-channel file: an index that does not exist changes
    nothing. *)
Lemma X4_stem_id_ignored_with_stems_from_channels_witness :
  read_stems four_channel_env "stems.wav" None None (Some (an_int 7)) true
    float32 None None 2 empty_world
  = read_stems four_channel_env "stems.wav" None None None true float32 None
      None 2 empty_world.
Proof.
  apply (X4_stem_id_ignored_with_stems_from_channels Z four_channel_env
           "stems.wav" None None (Some (an_int 7)) None true float32 None
           None 2%Z empty_world).
  discriminate.
Defined.

(** X5.  When ffprobe fails on the file, [read_stems] raises [Warning] with
    ffprobe's error output in the message, after a single ffprobe run and
    without starting a decoder, also when [info] was passed in. *)
Theorem X5_ffprobe_failure_is_a_warning :
  forall (sample : Type) (env : environment sample) filename start duration
         stem_id always_3d dt info sample_rate stems_from_channels w err,
    ffprobe env filename = inl err ->
    read_stems env filename start duration stem_id always_3d dt info
      sample_rate stems_from_channels w
    = (Raise (Exn Warning
                ("An error occurs with ffprobe (see ffprobe output below)"
                 ++ nl ++ nl ++ err)%string),
       World (procs w ++ [FFprobe filename]) (fs_log w) (warnings_log w)).
Proof.
  intros sample env filename start duration stem_id always_3d dt info
    sample_rate stems_from_channels w err H.
  unfold read_stems, bind.
  now rewrite (probe_metadata_failed env filename info w err H).
Qed.

(** X5 on a file that does not exist. *)
Lemma X5_ffprobe_failure_is_a_warning_witness :
  raised_class
    (fst (read_stems unreadable_env "stems.mp4" None None None false float32
            None None 0 empty_world)) = Some Warning
  /\ procs (snd (read_stems unreadable_env "stems.mp4" None None None false
                   float32 None None 0 empty_world))
     = [FFprobe "stems.mp4"].
Proof.
  rewrite (X5_ffprobe_failure_is_a_warning Z unreadable_env "stems.mp4" None
             None None false float32 None None 0%Z empty_world
             "stems.mp4: No such file or directory" eq_refl).
  split; reflexivity.
Defined.

(** X6.  When the metadata holds no audio stream (or no ['streams'] entry),
    [read_stems] raises [Warning] "No stream was found with ffprobe" and
    starts no decoder. *)
Theorem X6_no_audio_stream_is_a_warning :
  forall (sample : Type) (env : environment sample) filename start duration
         stem_id always_3d dt info sample_rate stems_from_channels w
         metadata w1,
    probe_metadata env filename info w = (Ok metadata, w1) ->
    pi_streams (Info_info metadata) = None \/ audio_streams metadata = [] ->
    read_stems env filename start duration stem_id always_3d dt info
      sample_rate stems_from_channels w
    = (Raise (Exn Warning "No stream was found with ffprobe"), w1).
Proof.
  intros sample env filename start duration stem_id always_3d dt info
    sample_rate stems_from_channels w metadata w1 Hp Hno.
  apply (read_stems_select_raises env _ _ _ _ _ _ _ _ _ _ _ _ _ Hp).
  unfold select_substreams, nb_audio_streams.
  destruct Hno as [-> | ->]; [reflexivity|].
  cbn. now rewrite orb_true_r.
Qed.

(** X6 on a container with a video stream only. *)
Lemma X6_no_audio_stream_is_a_warning_witness :
  read_stems video_only_env "clip.mp4" None None None false float32 None None
    0 empty_world
  = (Raise (Exn Warning "No stream was found with ffprobe"),
     World [FFprobe "clip.mp4"; FFprobe "clip.mp4"] [] []).
Proof.
  apply (X6_no_audio_stream_is_a_warning Z video_only_env "clip.mp4" None
           None None false float32 None None 0%Z empty_world
           (MkInfo "clip.mp4" (ProbeInfo (Some [Stream 0 "video" 0 0])) [])
           _ eq_refl).
  now right.
Defined.

(** X7.  With [stems_from_channels] set, a container with more than one
    audio sub-stream, or whose single audio sub-stream has a channel count
    that [stems_from_channels] does not divide, is refused with [Warning]
    before any decoder is started. *)
Theorem X7_stems_from_channels_guards :
  forall (sample : Type) (env : environment sample) filename start duration
         stem_id always_3d dt info sample_rate stems_from_channels w
         metadata w1 ss st others,
    probe_metadata env filename info w = (Ok metadata, w1) ->
    pi_streams (Info_info metadata) = Some ss ->
    audio_streams metadata = st :: others ->
    stems_from_channels <> 0%Z ->
    others <> [] \/ (st_channels st mod stems_from_channels)%Z <> 0%Z ->
    read_stems env filename start duration stem_id always_3d dt info
      sample_rate stems_from_channels w
    = (Raise (Exn Warning
                (match others with
                 | [] => "Stems should be encoded as multi-channel"
                 | _ :: _ =>
                     "In this configuration, only a single substream is processed"
                 end)), w1).
Proof.
  intros sample env filename start duration stem_id always_3d dt info
    sample_rate stems_from_channels w metadata w1 ss st others Hp Hss Ha
    Hsfc Hbad.
  apply (read_stems_select_raises env _ _ _ _ _ _ _ _ _ _ _ _ _ Hp).
  unfold select_substreams, nb_audio_streams. rewrite Hss, Ha.
  apply Z.eqb_neq in Hsfc. rewrite Hsfc.
  destruct others as [|st' others].
  - destruct Hbad as [Hbad|Hbad]; [congruence|].
    apply Z.eqb_neq in Hbad. cbn. now rewrite Hbad.
  - reflexivity.
Qed.

(** X7 on the file with two sub-streams. *)
Lemma X7_stems_from_channels_guards_witness :
  read_stems even_env "stems.mp4" None None None false float32 None None 2
    empty_world
  = (Raise (Exn Warning
              "In this configuration, only a single substream is processed"),
     World [FFprobe "stems.mp4"; FFprobe "stems.mp4"] [] []).
Proof.
  apply (X7_stems_from_channels_guards Z even_env "stems.mp4" None None None
           false float32 None None 2%Z empty_world
           (MkInfo "stems.mp4" (ProbeInfo (Some two_streams)) two_streams)
           _ two_streams (Stream 0 "audio" 44100 1)
           [Stream 1 "audio" 48000 1] eq_refl eq_refl eq_refl).
  - discriminate.
  - left. discriminate.
Defined.

(** X8.  An empty list as [stem_id] selects nothing: no decoder is started
    and the call raises [IndexError] when it looks for the first stem's
    length. *)
Theorem X8_empty_selection_raises :
  forall (sample : Type) (env : environment sample) filename start duration
         always_3d dt info sample_rate w metadata w1 ss,
    probe_metadata env filename info w = (Ok metadata, w1) ->
    pi_streams (Info_info metadata) = Some ss ->
    audio_streams metadata <> [] ->
    read_stems env filename start duration (Some (a_list [])) always_3d dt
      info sample_rate 0 w
    = (Raise (Exn IndexError
                "index 0 is out of bounds for axis 0 with size 0"), w1).
Proof.
  intros sample env filename start duration always_3d dt info sample_rate w
    metadata w1 ss Hp Hss Hne.
  assert (Hs : select_substreams metadata (Some (a_list [])) 0 = Ok []).
  { unfold select_substreams, nb_audio_streams. rewrite Hss.
    destruct (audio_streams metadata); [congruence|reflexivity]. }
  rewrite (read_stems_eq _ _ _ _ _ _ _ _ _ _ _ _ _ _ Hp Hs). reflexivity.
Qed.

(** X8 on the file with two sub-streams. *)
Lemma X8_empty_selection_raises_witness :
  read_stems even_env "stems.mp4" None None (Some (a_list [])) false float32
    None None 0 empty_world
  = (Raise (Exn IndexError "index 0 is out of bounds for axis 0 with size 0"),
     World [FFprobe "stems.mp4"; FFprobe "stems.mp4"] [] []).
Proof.
  apply (X8_empty_selection_raises Z even_env "stems.mp4" None None false
           float32 None None empty_world
           (MkInfo "stems.mp4" (ProbeInfo (Some two_streams)) two_streams)
           _ two_streams eq_refl eq_refl).
  discriminate.
Defined.

(** X9.  The default selection lists the container indices of the audio
    streams, and each is then used as a position in the list of audio
    streams.  When the first audio stream's container index is not below
    the number of audio streams (a video or cover stream comes first), the
    call raises [IndexError] before any decoder is started. *)
Theorem X9_container_index_used_as_position :
  forall (sample : Type) (env : environment sample) filename start duration
         always_3d dt info sample_rate w metadata w1 ss st others,
    probe_metadata env filename info w = (Ok metadata, w1) ->
    pi_streams (Info_info metadata) = Some ss ->
    audio_streams metadata = st :: others ->
    (Z.of_nat (List.length (st :: others)) <= st_index st)%Z ->
    read_stems env filename start duration None always_3d dt info
      sample_rate 0 w
    = (Raise (Exn IndexError "list index out of range"), w1).
Proof.
  intros sample env filename start duration always_3d dt info sample_rate w
    metadata w1 ss st others Hp Hss Ha Hidx.
  assert (Hs : select_substreams metadata None 0
               = Ok (st_index st :: map st_index others)).
  { unfold select_substreams, nb_audio_streams, audio_stream_idx.
    rewrite Hss, Ha. reflexivity. }
  assert (Hget : forall (f : stream -> Z),
             (s <-- getitem (audio_streams metadata) (st_index st) ;;
              Ok (f s))%py
             = Raise (Exn IndexError "list index out of range")).
  { intros f. unfold getitem. rewrite Ha.
    replace (st_index st <? 0)%Z with false
      by (symmetry; apply Z.ltb_ge; lia).
    replace (st_index st <? Z.of_nat (List.length (st :: others)))%Z
      with false by (symmetry; apply Z.ltb_ge; lia).
    now rewrite andb_false_r. }
  rewrite (read_stems_eq _ _ _ _ _ _ _ _ _ _ _ _ _ _ Hp Hs).
  destruct sample_rate as [r|].
  - cbn [for_each]. unfold bind. rewrite decode_stem_some.
    unfold Info_channels. now rewrite Hget.
  - rewrite (decode_loop_none_raise env _ _ _ _ _ _ _ _ _
               (Exn IndexError "list index out of range")); [reflexivity|].
    unfold Info_sample_rate. apply Hget.
Qed.

(** X9 on a file whose audio comes after a video stream. *)
Lemma X9_container_index_used_as_position_witness :
  read_stems video_first_env "clip.mp4" None None None false float32 None
    None 0 empty_world
  = (Raise (Exn IndexError "list index out of range"),
     World [FFprobe "clip.mp4"; FFprobe "clip.mp4"] [] []).
Proof.
  apply (X9_container_index_used_as_position Z video_first_env "clip.mp4"
           None None false float32 None None empty_world
           (MkInfo "clip.mp4"
              (ProbeInfo (Some [Stream 0 "video" 0 0;
                                Stream 1 "audio" 44100 2]))
              [Stream 1 "audio" 44100 2])
           _ [Stream 0 "video" 0 0; Stream 1 "audio" 44100 2]
           (Stream 1 "audio" 44100 2) [] eq_refl eq_refl eq_refl).
  cbn. lia.
Defined.

(** X10.  Passing [info] saves one of the two ffprobe runs, not both: when
    ffprobe succeeds, the call starts ffprobe once if [info] is given and
    twice if it is not, and every other process it starts is a decoder. *)
Theorem X10_info_saves_one_probe :
  forall (sample : Type) (env : environment sample) filename start duration
         stem_id always_3d dt sample_rate stems_from_channels w pi,
    ffprobe env filename = inr pi ->
    (forall i, exists decodes,
        procs (snd (read_stems env filename start duration stem_id always_3d
                      dt (Some i) sample_rate stems_from_channels w))
        = procs w ++ [FFprobe filename] ++ decodes
        /\ forallb is_decode decodes = true)
    /\ (pi_streams pi <> None ->
        exists decodes,
          procs (snd (read_stems env filename start duration stem_id
                        always_3d dt None sample_rate stems_from_channels w))
          = procs w ++ [FFprobe filename; FFprobe filename] ++ decodes
          /\ forallb is_decode decodes = true).
Proof.
  intros sample env filename start duration stem_id always_3d dt sample_rate
    stems_from_channels w pi Hpi. split.
  - intros i.
    destruct (read_stems_after_probe env filename start duration stem_id
                always_3d dt (Some i) sample_rate stems_from_channels w _ _
                (probe_metadata_given env filename i w pi Hpi))
      as (decodes & H & Hd).
    exists decodes. split; [|exact Hd]. rewrite H. cbn [procs].
    now rewrite <- app_assoc.
  - intros Hss. destruct (pi_streams pi) as [ss|] eqn:E; [|congruence].
    destruct (read_stems_after_probe env filename start duration stem_id
                always_3d dt None sample_rate stems_from_channels w _ _
                (probe_metadata_fresh env filename w pi ss Hpi E))
      as (decodes & H & Hd).
    exists decodes. split; [|exact Hd]. rewrite H. cbn [procs].
    now rewrite <- app_assoc.
Qed.

(** X10 on the file with two sub-streams, with [info] passed in. *)
Lemma X10_info_saves_one_probe_witness :
  exists decodes,
    procs (snd (read_stems even_env "stems.mp4" None None None false float32
                  (Some (MkInfo "stems.mp4" (ProbeInfo (Some two_streams))
                           two_streams))
                  None 0 empty_world))
    = procs (@empty_world Z) ++ [FFprobe "stems.mp4"] ++ decodes
    /\ forallb is_decode decodes = true.
Proof.
  exact (proj1 (X10_info_saves_one_probe Z even_env "stems.mp4" None None
                  None false float32 None 0%Z empty_world
                  (ProbeInfo (Some two_streams)) eq_refl)
               (MkInfo "stems.mp4" (ProbeInfo (Some two_streams))
                  two_streams)).
Defined.

Section TimeFormat.

Lemma round_half_even_integer (x : Q) (k : Z) :
  (x == inject_Z k)%Q -> round_half_even x = k.
Proof.
  intros Hx. unfold round_half_even.
  assert (Hf : Qfloor x = k) by (rewrite Hx; apply Qfloor_Z).
  rewrite Hf.
  assert (Ht : (2 * (x - inject_Z k) == 0)%Q) by (rewrite Hx; ring).
  assert (Hle : Qle_bool (2 * (x - inject_Z k)) 1 = true).
  { apply Qle_bool_iff. rewrite Ht. discriminate. }
  assert (Hne : Qeq_bool (2 * (x - inject_Z k)) 1 = false).
  { destruct (Qeq_bool (2 * (x - inject_Z k)) 1) eqn:E; [|reflexivity].
    apply Qeq_bool_iff in E. rewrite Ht in E. discriminate E. }
  now rewrite Hle, Hne.
Qed.

Lemma fmt_09_6f_whole (s : Q) (k : Z) :
  (s == inject_Z k)%Q -> (0 <= k < 60)%Z ->
  fmt_09_6f s = (fmt_02d k ++ ".000000")%string.
Proof.
  intros Hs Hk. unfold fmt_09_6f.
  rewrite (round_half_even_integer (s * 1000000) (k * 1000000)).
  2:{ rewrite Hs. unfold inject_Z, Qeq, Qmult. simpl. lia. }
  rewrite Z.div_mul, Z.mod_mul by lia.
  assert (E : k = Z.of_nat (Z.to_nat k)) by lia.
  assert (Hn : Z.to_nat k < 60) by lia.
  rewrite E. generalize dependent (Z.to_nat k). clear. intros n _ Hn.
  do 60 (destruct n as [|n]; [reflexivity|]). lia.
Qed.

End TimeFormat.

(** X11.  A whole number of seconds is formatted as H:MM:SS.000000: minutes
    and seconds in two digits, hours as they come (they are not reduced
    modulo 24 and take as many digits as they need). *)
Theorem X11_to_ffmpeg_time_whole_seconds :
  forall n : Z,
    (0 <= n)%Z ->
    _to_ffmpeg_time (inject_Z n)
    = (str_int (n / 3600) ++ ":" ++ fmt_02d ((n / 60) mod 60) ++ ":"
       ++ fmt_02d (n mod 60) ++ ".000000")%string.
Proof.
  intros n Hn. unfold _to_ffmpeg_time.
  assert (Hm : Qfloor (inject_Z n / 60) = (n / 60)%Z).
  { unfold inject_Z, Qdiv, Qmult, Qinv, Qfloor. simpl.
    now rewrite Z.mul_1_r. }
  rewrite Hm.
  rewrite (fmt_09_6f_whole _ (n mod 60)).
  - now rewrite Z.div_div by lia.
  - rewrite (Z.mod_eq n 60) by lia.
    unfold inject_Z, Qeq, Qminus, Qplus, Qopp, Qmult. simpl. lia.
  - apply Z.mod_pos_bound. lia.
Qed.

(** X11 at one hour, two minutes and five seconds. *)
Lemma X11_to_ffmpeg_time_whole_seconds_witness :
  (0 <= 3725)%Z /\ _to_ffmpeg_time (inject_Z 3725) = "1:02:05.000000".
Proof.
  split; [lia|].
  rewrite (X11_to_ffmpeg_time_whole_seconds 3725 ltac:(lia)). reflexivity.
Defined.

(* ===================================================================== *)
(** * Further properties of write.py *)
(* ===================================================================== *)

Section StreamsMapperFacts.
Context {sample : Type}.
Variable env : environment sample.

Lemma length_default_stem_names n :
  List.length (default_stem_names n) = n.
Proof.
  unfold default_stem_names, range.
  now rewrite !length_map, length_seq, Nat2Z.id.
Qed.

Lemma build_channel_map_ok stem_names nb_channels :
  nb_channels = 1%Z \/ nb_channels = 2%Z ->
  exists channel_map,
    build_channel_map (Z.of_nat (List.length stem_names)) nb_channels
      stem_names = Ok channel_map.
Proof.
  intros Hch. unfold build_channel_map. rewrite Z.eqb_refl. cbn [negb].
  assert (Hper : exists per_stem,
             map_result (stream_args stem_names)
               (range (Z.of_nat (List.length stem_names))) = Ok per_stem).
  { eexists. apply map_result_ok. intros x Hx. now apply stream_args_ok. }
  destruct Hper as (per_stem & Hper).
  destruct Hch as [-> | ->]; cbn [Z.eqb Pos.eqb]; rewrite Hper; cbn [rbind];
    eauto.
Qed.

Lemma build_channel_map_unsupported stem_names nb_channels :
  nb_channels <> 1%Z -> nb_channels <> 2%Z ->
  build_channel_map (Z.of_nat (List.length stem_names)) nb_channels stem_names
  = Raise (Exn NotImplementedError
             "Stempeg only support mono or stereo stems").
Proof.
  intros H1 H2. unfold build_channel_map. rewrite Z.eqb_refl. cbn [negb].
  apply Z.eqb_neq in H1, H2. now rewrite H1, H2.
Qed.

Lemma build_channel_map_miscounted nb_stems stem_names nb_channels :
  nb_stems <> Z.of_nat (List.length stem_names) ->
  build_channel_map nb_stems nb_channels stem_names
  = Raise (Exn RuntimeError "Please provide a list of stem names").
Proof.
  intros H. unfold build_channel_map. apply Z.eqb_neq in H. now rewrite H.
Qed.

(** What [StreamsMapper.__call__] does for a tensor with at least one
    sample, in closed form. *)
Lemma StreamsMapper_call_eq self (xs : list sample) S T C path sr w :
  List.length xs = S * T * C -> T <> 0 ->
  exists ys,
    let osr := match sm_output_sample_rate self with
               | None => sr
               | Some r => r
               end in
    let names := match sm_stem_names self with
                 | None => default_stem_names S
                 | Some names => names
                 end in
    let self' := MkStreamsMapper (sm_codec self) (sm_bitrate self)
                   (Some osr) (Some names) in
    let tmp := tempfile_name env ".wav" in
    let call := encode_process env tmp (Array [T; S * C] ys) sr (Some osr)
                  (Some "pcm_s16le") None (S * C) in
    let outcome := ffmpeg_encode env call in
    (forall s t c, s < S -> t < T -> c < C ->
        nth_error ys (t * (S * C) + s * C + c)
        = get (Array [S; T; C] xs) [s; t; c])
    /\ StreamsMapper_call env self (Array [S; T; C] xs) path sr w
       = if write_raises_ioerror outcome || close_raises_ioerror outcome
         then
           (Raise (Exn Warning
                     ("FFMPEG error: "
                      ++ bytes_repr env (stderr_text outcome))%string),
            World (procs w ++ [FFmpegEncode call])
                  (fs_log w ++ [CreateTempFile tmp; MkdirParentOf tmp;
                                RemoveTempFile tmp])
                  (warnings_log w))
         else
           match build_channel_map (Z.of_nat S) (Z.of_nat C) names with
           | Raise e =>
               (Raise e,
                World (procs w ++ [FFmpegEncode call])
                      (fs_log w ++ [CreateTempFile tmp; MkdirParentOf tmp;
                                    MkdirParentOf path; RemoveTempFile tmp])
                      (warnings_log w))
           | Ok channel_map =>
               let cmd := remux_command tmp channel_map (sm_codec self) osr
                            (sm_bitrate self) path in
               (if (check_call env cmd =? 0)%Z then Ok self'
                else Raise (Exn RuntimeError
                              ("Command returned non-zero exit status "
                               ++ str_int (check_call env cmd))%string),
                World (procs w ++ [FFmpegEncode call; Subprocess cmd])
                      (fs_log w ++ [CreateTempFile tmp; MkdirParentOf tmp;
                                    MkdirParentOf path; RemoveTempFile tmp])
                      (warnings_log w))
           end.
Proof.
  intros Hlen HT.
  destruct (interleave_spec xs S T C Hlen HT) as (ys & E & _ & Hnth).
  exists ys. cbv zeta. split; [exact Hnth|].
  unfold StreamsMapper_call. cbn [shape].
  destruct (transpose [1; 0; 2] (Array [S; T; C] xs)) as [b|e] eqn:Eb;
    cbn [rbind] in E; [|discriminate].
  unfold bind at 1. unfold lift at 1. unfold bind at 1. unfold lift at 1.
  rewrite E. fold (default_stem_names S).
  unfold bind at 1. unfold fs_write at 1. unfold modify at 1.
  unfold finally. unfold bind at 1. rewrite write_audio_eq.
  cbn [ndim shape List.length Nat.eqb orb last sm_codec sm_bitrate
       procs fs_log warnings_log].
  match goal with
  | |- context [if ?c then Raise _ else Ok tt] => destruct c
  end.
  - cbn. now rewrite <- !app_assoc.
  - unfold bind, fs_write, modify, lift, spawn, ret, raise.
    cbn [procs fs_log warnings_log].
    destruct (build_channel_map _ _ _) as [channel_map|e'].
    + fold (remux_command (tempfile_name env ".wav") channel_map
              (sm_codec self)
              (match sm_output_sample_rate self with
               | Some r => r
               | None => sr
               end) (sm_bitrate self) path).
      destruct (check_call env _ =? 0)%Z; cbn; now rewrite <- !app_assoc.
    + cbn. now rewrite <- !app_assoc.
Qed.

End StreamsMapperFacts.

(** X12.  [StreamsMapper.__call__] on a tensor with at least one sample
    creates one temporary file and removes it again in every case: whether
    the encoder's pipe breaks, the channel map is refused, the remuxing
    ffmpeg fails or all goes well, the file-system log of the call starts
    with the creation of the temporary file, ends with its removal, and
    holds only directory creations in between. *)
Theorem X12_streams_mapper_removes_temporary_file :
  forall (sample : Type) (env : environment sample) (self : StreamsMapper)
         (xs : list sample) (S T C : nat) path sr w,
    List.length xs = S * T * C ->
    T <> 0 ->
    exists mid,
      fs_log (snd (StreamsMapper_call env self (Array [S; T; C] xs) path sr w))
      = fs_log w
        ++ CreateTempFile (tempfile_name env ".wav")
           :: mid ++ [RemoveTempFile (tempfile_name env ".wav")]
      /\ forallb is_mkdir mid = true.
Proof.
  intros sample env self xs S T C path sr w Hlen HT.
  destruct (StreamsMapper_call_eq env self xs S T C path sr w Hlen HT)
    as (ys & _ & Hrun).
  cbv zeta in Hrun. rewrite Hrun.
  match goal with
  | |- context [if ?c then (Raise _, _) else _] => destruct c
  end.
  - eexists [_]. cbn. split; reflexivity.
  - destruct (build_channel_map _ _ _) as [channel_map|e].
    + eexists [_; _]. cbn. split; reflexivity.
    + eexists [_; _]. cbn. split; reflexivity.
Qed.

(** X12 for two stereo stems of two samples. *)
Lemma X12_streams_mapper_removes_temporary_file_witness :
  exists mid,
    fs_log (snd (StreamsMapper_call even_env plain_streams_mapper
                   (Array [2; 2; 2] [1; 2; 3; 4; 5; 6; 7; 8]%Z)
                   "out/stems.mp4" 44100 empty_world))
    = fs_log (@empty_world Z)
      ++ CreateTempFile (tempfile_name even_env ".wav")
         :: mid ++ [RemoveTempFile (tempfile_name even_env ".wav")]
    /\ forallb is_mkdir mid = true.
Proof.
  exact (X12_streams_mapper_removes_temporary_file Z even_env
           plain_streams_mapper [1; 2; 3; 4; 5; 6; 7; 8]%Z 2 2 2
           "out/stems.mp4" 44100 empty_world eq_refl ltac:(discriminate)).
Defined.

(** X13.  [StreamsMapper.__call__] finds out that the channel count is not
    supported only after it has encoded the temporary file and created the
    output directory: for stems of neither one nor two channels (with a
    matching number of names, and encoders that take their input) it raises
    [NotImplementedError] after exactly one encoder run, on the temporary
    file, and without starting the remuxing ffmpeg. *)
Theorem X13_streams_mapper_unsupported_channels :
  forall (sample : Type) (env : environment sample) (self : StreamsMapper)
         (xs : list sample) (S T C : nat) path sr w,
    List.length xs = S * T * C ->
    T <> 0 ->
    C <> 1 -> C <> 2 ->
    pipes_hold env ->
    match sm_stem_names self with
    | None => True
    | Some names => List.length names = S
    end ->
    exists call,
      StreamsMapper_call env self (Array [S; T; C] xs) path sr w
      = (Raise (Exn NotImplementedError
                  "Stempeg only support mono or stereo stems"),
         World (procs w ++ [FFmpegEncode call])
               (fs_log w ++ [CreateTempFile (tempfile_name env ".wav");
                             MkdirParentOf (tempfile_name env ".wav");
                             MkdirParentOf path;
                             RemoveTempFile (tempfile_name env ".wav")])
               (warnings_log w))
      /\ enc_path call = tempfile_name env ".wav"
      /\ enc_shape call = [T; S * C].
Proof.
  intros sample env self xs S T C path sr w Hlen HT H1 H2 Hpipes Hnames.
  destruct (StreamsMapper_call_eq env self xs S T C path sr w Hlen HT)
    as (ys & _ & Hrun).
  cbv zeta in Hrun.
  assert (E : build_channel_map (Z.of_nat S) (Z.of_nat C)
                match sm_stem_names self with
                | Some names => names
                | None => default_stem_names S
                end
              = Raise (Exn NotImplementedError
                         "Stempeg only support mono or stereo stems")).
  { destruct (sm_stem_names self) as [names|].
    - subst S. apply build_channel_map_unsupported; lia.
    - rewrite <- (length_default_stem_names S) at 1.
      apply build_channel_map_unsupported; lia. }
  rewrite E in Hrun.
  match type of Hrun with
  | context [ffmpeg_encode env ?c] =>
      destruct (Hpipes c) as [Hw Hc]; rewrite Hw, Hc in Hrun; exists c
  end.
  cbn [orb] in Hrun. split; [exact Hrun|]. split; reflexivity.
Qed.

(** X13 for one stem of three channels. *)
Lemma X13_streams_mapper_unsupported_channels_witness :
  raised_class
    (fst (StreamsMapper_call even_env plain_streams_mapper
            (Array [1; 1; 3] [1; 2; 3]%Z) "out/stems.mp4" 44100 empty_world))
  = Some NotImplementedError.
Proof.
  destruct (X13_streams_mapper_unsupported_channels Z even_env
              plain_streams_mapper [1; 2; 3]%Z 1 1 3 "out/stems.mp4" 44100
              empty_world eq_refl ltac:(discriminate) ltac:(discriminate)
              ltac:(discriminate) (fun _ => conj eq_refl eq_refl) I)
    as (call & H & _).
  now rewrite H.
Defined.

(** X14.  Unlike [write_audio], [StreamsMapper.__call__] looks at the exit
    status of the remuxing ffmpeg: for mono or stereo stems with a matching
    number of names (and encoders that take their input) it runs one
    encoder on the temporary file and then one command that reads the
    temporary file and ends with the output path, and it returns exactly
    when that command exits with status 0; otherwise it raises
    [RuntimeError]. *)
Theorem X14_streams_mapper_checks_remux_status :
  forall (sample : Type) (env : environment sample) (self : StreamsMapper)
         (xs : list sample) (S T C : nat) path sr w,
    List.length xs = S * T * C ->
    T <> 0 ->
    C = 1 \/ C = 2 ->
    pipes_hold env ->
    match sm_stem_names self with
    | None => True
    | Some names => List.length names = S
    end ->
    let out := StreamsMapper_call env self (Array [S; T; C] xs) path sr w in
    exists call cmd,
      procs (snd out) = procs w ++ [FFmpegEncode call; Subprocess cmd]
      /\ enc_path call = tempfile_name env ".wav"
      /\ firstn 6 cmd = ["ffmpeg"; "-y"; "-acodec"; "pcm_s16le"; "-i";
                         tempfile_name env ".wav"]
      /\ last cmd EmptyString = path
      /\ raised_class (fst out)
         = if (check_call env cmd =? 0)%Z then None else Some RuntimeError.
Proof.
  intros sample env self xs S T C path sr w Hlen HT HC Hpipes Hnames out.
  subst out.
  destruct (StreamsMapper_call_eq env self xs S T C path sr w Hlen HT)
    as (ys & _ & Hrun).
  cbv zeta in Hrun. rewrite Hrun.
  match goal with
  | |- context [ffmpeg_encode env ?c] => destruct (Hpipes c) as [-> ->]
  end.
  cbn [orb].
  assert (E : exists channel_map,
             build_channel_map (Z.of_nat S) (Z.of_nat C)
               match sm_stem_names self with
               | Some names => names
               | None => default_stem_names S
               end = Ok channel_map).
  { destruct (sm_stem_names self) as [names|].
    - subst S. apply build_channel_map_ok. lia.
    - pose proof (build_channel_map_ok (default_stem_names S) (Z.of_nat C))
        as Hok.
      rewrite length_default_stem_names in Hok. apply Hok. lia. }
  destruct E as (channel_map & ->).
  eexists. eexists. split; [reflexivity|]. split; [reflexivity|].
  split; [reflexivity|]. split.
  - unfold remux_command. rewrite !app_assoc. apply last_last.
  - cbn [fst]. destruct (check_call env _ =? 0)%Z; reflexivity.
Qed.

(** X14 with a remuxing ffmpeg that exits with status 1. *)
Lemma X14_streams_mapper_checks_remux_status_witness :
  raised_class
    (fst (StreamsMapper_call failing_remux_env plain_streams_mapper
            (Array [2; 2; 2] [1; 2; 3; 4; 5; 6; 7; 8]%Z) "out/stems.mp4"
            44100 empty_world))
  = Some RuntimeError.
Proof.
  destruct (X14_streams_mapper_checks_remux_status Z failing_remux_env
              plain_streams_mapper [1; 2; 3; 4; 5; 6; 7; 8]%Z 2 2 2
              "out/stems.mp4" 44100 empty_world eq_refl ltac:(discriminate)
              (or_intror eq_refl) (fun _ => conj eq_refl eq_refl) I)
    as (call & cmd & _ & _ & _ & _ & H).
  rewrite H. reflexivity.
Defined.

(** X15.  A [StreamsMapper] built without stem names keeps the names it
    generates on its first call.  After a call that returned for a tensor
    of S stems, the same mapper object refuses every tensor with another
    number of stems with [RuntimeError] "Please provide a list of stem
    names" (given at least one sample and encoders that take their
    input). *)
Theorem X15_streams_mapper_keeps_generated_names :
  forall (sample : Type) (env : environment sample) (self self' : StreamsMapper)
         (xs : list sample) (S T C : nat) path sr w
         (xs2 : list sample) (S2 T2 C2 : nat) path2 sr2 w2,
    List.length xs = S * T * C -> T <> 0 ->
    sm_stem_names self = None ->
    fst (StreamsMapper_call env self (Array [S; T; C] xs) path sr w)
    = Ok self' ->
    List.length xs2 = S2 * T2 * C2 -> T2 <> 0 ->
    S2 <> S ->
    pipes_hold env ->
    sm_stem_names self' = Some (default_stem_names S)
    /\ fst (StreamsMapper_call env self' (Array [S2; T2; C2] xs2) path2 sr2
              w2)
       = Raise (Exn RuntimeError "Please provide a list of stem names").
Proof.
  intros sample env self self' xs S T C path sr w xs2 S2 T2 C2 path2 sr2 w2
    Hlen HT Hnone Hok Hlen2 HT2 HS Hpipes.
  destruct (StreamsMapper_call_eq env self xs S T C path sr w Hlen HT)
    as (ys & _ & Hrun).
  cbv zeta in Hrun. rewrite Hrun in Hok. rewrite Hnone in Hok.
  assert (Hself : sm_stem_names self' = Some (default_stem_names S)).
  { match type of Hok with
    | context [if ?c then (Raise _, _) else _] => destruct c
    end; [discriminate Hok|].
    destruct (build_channel_map _ _ _); [|discriminate Hok].
    cbn [fst] in Hok.
    destruct (check_call env _ =? 0)%Z; [|discriminate Hok].
    injection Hok as <-. reflexivity. }
  split; [exact Hself|].
  destruct (StreamsMapper_call_eq env self' xs2 S2 T2 C2 path2 sr2 w2
              Hlen2 HT2) as (ys2 & _ & Hrun2).
  cbv zeta in Hrun2. rewrite Hrun2, Hself.
  match goal with
  | |- context [ffmpeg_encode env ?c] => destruct (Hpipes c) as [-> ->]
  end.
  cbn [orb].
  rewrite build_channel_map_miscounted; [reflexivity|].
  rewrite length_default_stem_names. lia.
Qed.

(** X15: a mapper used for two stems and then for one. *)
Lemma X15_streams_mapper_keeps_generated_names_witness :
  fst (StreamsMapper_call even_env
         (MkStreamsMapper None None (Some 44100%Q)
            (Some ["Stem 0"; "Stem 1"]))
         (Array [1; 2; 2] [1; 2; 3; 4]%Z) "out/other.mp4" 44100 empty_world)
  = Raise (Exn RuntimeError "Please provide a list of stem names").
Proof.
  exact (proj2 (X15_streams_mapper_keeps_generated_names Z even_env
                  plain_streams_mapper
                  (MkStreamsMapper None None (Some 44100%Q)
                     (Some ["Stem 0"; "Stem 1"]))
                  [1; 2; 3; 4; 5; 6; 7; 8]%Z 2 2 2 "out/stems.mp4" 44100
                  empty_world
                  [1; 2; 3; 4]%Z 1 2 2 "out/other.mp4" 44100 empty_world
                  eq_refl ltac:(discriminate) eq_refl eq_refl eq_refl
                  ltac:(discriminate) ltac:(discriminate)
                  (fun _ => conj eq_refl eq_refl))).
Defined.

(** X16.  A [ChannelsMapper] built without an output sample rate keeps the
    rate of its first call: after a call at rate [sr] that returned, every
    later call of the same mapper object at a rate [sr2] still encodes to
    [sr]. *)
Theorem X16_channels_mapper_keeps_first_rate :
  forall (sample : Type) (env : environment sample)
         (self self' : ChannelsMapper) (xs : list sample) (S T C : nat)
         path sr w (xs2 : list sample) (S2 T2 C2 : nat) path2 sr2 w2,
    List.length xs = S * T * C -> 2 <= T -> S * C <> 1 ->
    cm_output_sample_rate self = None ->
    fst (ChannelsMapper_call env self (Array [S; T; C] xs) path sr w)
    = Ok self' ->
    List.length xs2 = S2 * T2 * C2 -> 2 <= T2 -> S2 * C2 <> 1 ->
    exists call,
      procs (snd (ChannelsMapper_call env self' (Array [S2; T2; C2] xs2)
                    path2 sr2 w2))
      = procs w2 ++ [FFmpegEncode call]
      /\ enc_in_ar call = sr2
      /\ enc_out_ar call = sr.
Proof.
  intros sample env self self' xs S T C path sr w xs2 S2 T2 C2 path2 sr2 w2
    Hlen HT HSC Hnone Hok Hlen2 HT2 HSC2.
  destruct (ChannelsMapper_call_eq env self xs S T C path sr w Hlen HT HSC)
    as (ys & _ & Hrun).
  cbv zeta in Hrun. rewrite Hrun, Hnone in Hok. cbn [fst] in Hok.
  assert (Hrate : cm_output_sample_rate self' = Some sr).
  { match type of Hok with
    | (if ?c then _ else _) = _ => destruct c
    end; [discriminate Hok|].
    injection Hok as <-. reflexivity. }
  destruct self' as [codec' bitrate' rate' names']. cbn in Hrate.
  subst rate'.
  destruct (ChannelsMapper_call_eq env
              (MkChannelsMapper codec' bitrate' (Some sr) names')
              xs2 S2 T2 C2 path2 sr2 w2 Hlen2 HT2 HSC2)
    as (ys2 & _ & Hrun2).
  cbv zeta in Hrun2. rewrite Hrun2. cbn [snd procs cm_output_sample_rate].
  eexists. split; [reflexivity|]. split; reflexivity.
Qed.

(** X16: a mapper first used at 44100 Hz, then at 48000 Hz. *)
Lemma X16_channels_mapper_keeps_first_rate_witness :
  exists call,
    procs (snd (ChannelsMapper_call even_env
                  (MkChannelsMapper None None (Some 44100%Q) None)
                  (Array [2; 2; 1] [1; 2; 3; 4]%Z) "b.wav" 48000 empty_world))
    = [FFmpegEncode call]
    /\ enc_in_ar call = 48000%Q
    /\ enc_out_ar call = 44100%Q.
Proof.
  exact (X16_channels_mapper_keeps_first_rate Z even_env
           plain_channels_mapper
           (MkChannelsMapper None None (Some 44100%Q) None)
           [1; 2; 3; 4; 5; 6; 7; 8]%Z 2 2 2 "a.wav" 44100 empty_world
           [1; 2; 3; 4]%Z 2 2 1 "b.wav" 48000 empty_world
           eq_refl ltac:(lia) ltac:(discriminate) eq_refl eq_refl
           eq_refl ltac:(lia) ltac:(discriminate)).
Defined.

(** X17.  Giving [write_stems] a dict is the same as giving it the array of
    the stacked values, in the order of the dict, with the keys set as the
    mapper's stem names first -- except for a [ChannelsMapper], whose names
    are left alone.  When the values cannot be stacked the call raises
    before the mapper is called. *)
Theorem X17_write_stems_dict_is_stacked_tensor :
  forall (sample : Type) (env : environment sample) (T : Type)
         (H : Mapper sample T) path (items : list (string * ndarray sample))
         sr (mapper : T) w stacked,
    stack (map snd items) = Ok stacked ->
    write_stems env path (Dict items) sr mapper w
    = write_stems env path (Tensor stacked) sr
        (if is_ChannelsMapper mapper then mapper
         else set_stem_names (map fst items) mapper) w.
Proof.
  intros sample env T H path items sr mapper w stacked Hst.
  unfold write_stems, bind, lift, ret.
  destruct (ffmpeg_version env w) as [[version|e] w1]; [|reflexivity].
  destruct (major_version version) as [major|e]; [|reflexivity].
  destruct (if (major <? 3)%Z then _ else _) as [[[]|e] w2]; [|reflexivity].
  rewrite Hst. destruct (is_ChannelsMapper mapper); reflexivity.
Qed.

(** X17 for a dict of two stereo stems and a [StreamsMapper]. *)
Lemma X17_write_stems_dict_is_stacked_tensor_witness :
  write_stems even_env (H := StreamsMapper_Mapper even_env) "out/stems.mp4"
    (Dict [("drums", Array [2; 2] [1; 2; 3; 4]%Z);
           ("bass", Array [2; 2] [5; 6; 7; 8]%Z)])
    44100 plain_streams_mapper empty_world
  = write_stems even_env (H := StreamsMapper_Mapper even_env) "out/stems.mp4"
      (Tensor (Array [2; 2; 2] [1; 2; 3; 4; 5; 6; 7; 8]%Z))
      44100 (MkStreamsMapper None None None (Some ["drums"; "bass"]))
      empty_world.
Proof.
  exact (X17_write_stems_dict_is_stacked_tensor Z even_env StreamsMapper
           (StreamsMapper_Mapper even_env) "out/stems.mp4"
           [("drums", Array [2; 2] [1; 2; 3; 4]%Z);
            ("bass", Array [2; 2] [5; 6; 7; 8]%Z)]
           44100 plain_streams_mapper empty_world
           (Array [2; 2; 2] [1; 2; 3; 4; 5; 6; 7; 8]%Z) eq_refl).
Defined.

Section FilesMapperFacts.
Context {sample : Type}.
Variable env : environment sample.
Variables (parent_of suffix_of : string -> string)
          (joined : string -> string -> string).
Variables (xs : list sample) (N T C : nat).
Variables (stem_names : list string) (path : string) (sr osr : Q)
          (codec : option string) (bitrate : option Z).
Hypothesis Hlen : List.length xs = N * T * C.
Hypothesis Hpipes : pipes_hold env.

Local Notation "'stem_path' i" :=
  (stem_filepath parent_of suffix_of joined path (nth i stem_names EmptyString))
  (at level 10, i at level 9).
Local Notation "'stem_call' i" :=
  (encode_process env (stem_path i)
     (Array [T; C] (firstn (T * C) (skipn (i * (T * C)) xs)))
     sr (Some osr) codec bitrate C)
  (at level 10, i at level 9).
Local Notation "'body'" :=
  (fun (idx : Z) (_ : unit) =>
     Py.bind (lift (getitem stem_names idx)) (fun name =>
     Py.bind (lift (item (Z.to_nat idx) (Array [N; T; C] xs))) (fun stem =>
     write_audio env (stem_filepath parent_of suffix_of joined path name)
       stem sr (Some osr) codec bitrate))).

(** The loop over the stems from stem [k] on: it writes one file per stem
    as long as there are names. *)
Lemma files_loop m k (w : world sample) :
  k + m <= N -> k <= List.length stem_names ->
  for_each (map Z.of_nat (seq k m)) body tt w
  = (if k + m <=? List.length stem_names then Ok tt
     else Raise (Exn IndexError "list index out of range"),
     World (procs w
            ++ map (fun i => FFmpegEncode (stem_call i))
                 (seq k (Nat.min m (List.length stem_names - k))))
           (fs_log w
            ++ map (fun i => MkdirParentOf (stem_path i))
                 (seq k (Nat.min m (List.length stem_names - k))))
           (warnings_log w)).
Proof.
  revert k w. induction m as [|m IH]; intros k w HkS HkL.
  - cbn. rewrite Nat.add_0_r. apply Nat.leb_le in HkL. rewrite HkL.
    now rewrite !app_nil_r, world_eta.
  - cbn [seq map for_each]. unfold bind at 1.
    destruct (Nat.eq_dec k (List.length stem_names)) as [E|E].
    + assert (Hget : getitem stem_names (Z.of_nat k)
                     = Raise (Exn IndexError "list index out of range")).
      { unfold getitem.
        replace (Z.of_nat k <? 0)%Z with false
          by (symmetry; apply Z.ltb_ge; lia).
        replace (Z.of_nat k <? Z.of_nat (List.length stem_names))%Z
          with false by (symmetry; apply Z.ltb_ge; lia).
        now rewrite andb_false_r. }
      unfold bind, lift. rewrite Hget.
      replace (k + S m <=? List.length stem_names) with false
        by (symmetry; apply Nat.leb_gt; lia).
      replace (List.length stem_names - k) with 0 by lia.
      rewrite Nat.min_0_r. cbn. now rewrite !app_nil_r, world_eta.
    + assert (Hget : getitem stem_names (Z.of_nat k)
                     = Ok (nth k stem_names EmptyString)).
      { apply getitem_of_nat. apply nth_error_nth'. lia. }
      assert (Hitem : item k (Array [N; T; C] xs)
                      = Ok (Array [T; C]
                              (firstn (T * C) (skipn (k * (T * C)) xs)))).
      { unfold item. cbn [shape data size_of fold_right].
        replace (k <? N) with true by (symmetry; apply Nat.ltb_lt; lia).
        now rewrite Nat.mul_1_r. }
      unfold bind at 1. unfold lift at 1. rewrite Hget.
      unfold bind at 1. unfold lift at 1. rewrite Nat2Z.id, Hitem.
      rewrite write_audio_eq. cbn [ndim shape List.length Nat.eqb orb last].
      match goal with
      | |- context [ffmpeg_encode env ?c] => destruct (Hpipes c) as [-> ->]
      end.
      cbn [orb]. rewrite IH by lia.
      cbn [procs fs_log warnings_log].
      replace (k + S m <=? List.length stem_names)
        with (S k + m <=? List.length stem_names)
        by (f_equal; lia).
      replace (Nat.min (S m) (List.length stem_names - k))
        with (S (Nat.min m (List.length stem_names - S k))) by lia.
      cbn [seq map]. now rewrite <- !app_assoc.
Qed.

End FilesMapperFacts.

(** X18.  A [FilesMapper] without a process pool writes the stems of a
    tensor one after the other: stem [i] goes through one encoder, as the
    two-dimensional array of its samples, into the file named after the
    [i]-th stem name in the directory of [path], with the suffix of [path];
    the base name of [path] is not used.  With fewer names than stems the
    call raises [IndexError] after the stems that have a name were written
    (encoders that take their input assumed). *)
Theorem X18_files_mapper_writes_one_file_per_stem :
  forall (sample : Type) (env : environment sample)
         (parent_of suffix_of : string -> string)
         (joined : string -> string -> string)
         (self : FilesMapper) (xs : list sample) (S T C : nat) path sr w,
    List.length xs = S * T * C ->
    pipes_hold env ->
    let names := match fm_stem_names self with
                 | None => default_stem_names S
                 | Some names => names
                 end in
    let osr := match fm_output_sample_rate self with
               | None => sr
               | Some r => r
               end in
    let written := Nat.min S (List.length names) in
    let file i := joined (parent_of path)
                    (nth i names EmptyString ++ suffix_of path)%string in
    let out := FilesMapper_call env parent_of suffix_of joined self
                 (Array [S; T; C] xs) path sr w in
    procs (snd out)
    = procs w
      ++ map (fun i =>
                FFmpegEncode
                  (encode_process env (file i)
                     (Array [T; C] (firstn (T * C) (skipn (i * (T * C)) xs)))
                     sr (Some osr) (fm_codec self) (fm_bitrate self) C))
             (seq 0 written)
    /\ fs_log (snd out)
       = fs_log w ++ map (fun i => MkdirParentOf (file i)) (seq 0 written)
    /\ fst out
       = if S <=? List.length names
         then Ok (MkFilesMapper (fm_codec self) (fm_bitrate self) (Some osr)
                    (Some names))
         else Raise (Exn IndexError "list index out of range").
Proof.
  intros sample env parent_of suffix_of joined self xs S T C path sr w Hlen
    Hpipes names osr written file out.
  assert (E : FilesMapper_call env parent_of suffix_of joined self
                (Array [S; T; C] xs) path sr w
              = (if S <=? List.length names
                 then Ok (MkFilesMapper (fm_codec self) (fm_bitrate self)
                            (Some osr) (Some names))
                 else Raise (Exn IndexError "list index out of range"),
                 World
                   (procs w
                    ++ map (fun i =>
                              FFmpegEncode
                                (encode_process env (file i)
                                   (Array [T; C]
                                      (firstn (T * C)
                                         (skipn (i * (T * C)) xs)))
                                   sr (Some osr) (fm_codec self)
                                   (fm_bitrate self) C))
                         (seq 0 written))
                   (fs_log w
                    ++ map (fun i => MkdirParentOf (file i)) (seq 0 written))
                   (warnings_log w))).
  { unfold FilesMapper_call. cbn [shape].
    fold names. fold osr. unfold bind at 1.
    unfold range. rewrite Nat2Z.id.
    cbn [fm_codec fm_bitrate].
    rewrite (files_loop env parent_of suffix_of joined xs S T C names path
               sr osr (fm_codec self) (fm_bitrate self) Hlen Hpipes S 0 w)
      by lia.
    cbn [Nat.add]. rewrite Nat.sub_0_r. fold written. unfold ret.
    destruct (S <=? List.length names); reflexivity. }
  subst out. rewrite E. cbn [fst snd procs fs_log].
  repeat split; reflexivity.
Qed.

(** X18 for two mono stems of two samples and one name. *)
Lemma X18_files_mapper_writes_one_file_per_stem_witness :
  let out := FilesMapper_call even_env demo_parent demo_suffix demo_joined
               (MkFilesMapper None None None (Some ["drums"]))
               (Array [2; 2; 1] [1; 2; 3; 4]%Z) "out/stems.wav" 44100
               empty_world in
  procs (snd out)
  = [FFmpegEncode
       (encode_process even_env "out/drums.wav" (Array [2; 1] [1; 2]%Z) 44100
          (Some 44100%Q) None None 1)]
  /\ fs_log (snd out) = [MkdirParentOf "out/drums.wav"]
  /\ fst out = Raise (Exn IndexError "list index out of range").
Proof.
  exact (X18_files_mapper_writes_one_file_per_stem Z even_env demo_parent
           demo_suffix demo_joined
           (MkFilesMapper None None None (Some ["drums"]))
           [1; 2; 3; 4]%Z 2 2 1 "out/stems.wav" 44100 empty_world eq_refl
           (fun _ => conj eq_refl eq_refl)).
Defined.

(** X19.  [_check_mp4box_install] never asks for mp4box.  It goes through
    the characters of the string ['mp4box'] and asks for a binary of each
    one-letter name: it passes exactly when binaries called m, p, 4, b, o
    and x are all found, and with no binary called m it raises [OSError]
    "m binary not found" whether or not mp4box is installed. *)
Theorem X19_mp4box_check_asks_for_letters :
  forall which : string -> option string,
    is_ok (_check_mp4box_install which)
    = forallb (fun name => match which name with
                           | Some _ => true
                           | None => false
                           end) ["m"; "p"; "4"; "b"; "o"; "x"]
    /\ (which "m" = None ->
        _check_mp4box_install which
        = Raise (Exn IOError "m binary not found")).
Proof.
  intros which. unfold _check_mp4box_install, characters. cbn. split.
  - destruct (which "m"); [|reflexivity].
    destruct (which "p"); [|reflexivity].
    destruct (which "4"); [|reflexivity].
    destruct (which "b"); [|reflexivity].
    destruct (which "o"); [|reflexivity].
    destruct (which "x"); reflexivity.
  - intros ->. reflexivity.
Qed.

(** X19 on a machine where mp4box is the only binary. *)
Lemma X19_mp4box_check_asks_for_letters_witness :
  which_only_mp4box "mp4box" = Some "/usr/bin/mp4box"
  /\ _check_mp4box_install which_only_mp4box
     = Raise (Exn IOError "m binary not found").
Proof.
  split; [reflexivity|].
  exact (proj2 (X19_mp4box_check_asks_for_letters which_only_mp4box) eq_refl).
Defined.

(** X20.  A tensor with a single sample is not written as one sample of
    stems x channels channels: the squeeze step of [ChannelsMapper.__call__]
    removes the sample axis, and the encoder is given a one-dimensional
    array of stems x channels samples, declared as one channel: the
    samples of the tensor in their order, each cast to float32. *)
Theorem X20_channels_mapper_single_sample :
  forall (sample : Type) (env : environment sample) (self : ChannelsMapper)
         (xs : list sample) (S C : nat) path sr w,
    List.length xs = S * 1 * C ->
    2 <= S * C ->
    exists call,
      procs (snd (ChannelsMapper_call env self (Array [S; 1; C] xs) path sr w))
      = procs w ++ [FFmpegEncode call]
      /\ enc_shape call = [S * C]
      /\ enc_in_ac call = 1%Z
      /\ List.length (enc_payload call) = S * C
      /\ forall s c, s < S -> c < C ->
           nth_error (enc_payload call) (s * C + c)
           = option_map (astype env float32)
               (get (Array [S; 1; C] xs) [s; 0; c]).
Proof.
  intros sample env self xs S C path sr w Hlen HSC.
  destruct (interleave_spec xs S 1 C Hlen) as (ys & E & Hys & Hnth); [lia|].
  assert (Hrun : exists call,
             ChannelsMapper_call env self (Array [S; 1; C] xs) path sr w
             = (if write_raises_ioerror (ffmpeg_encode env call)
                   || close_raises_ioerror (ffmpeg_encode env call)
                then Raise (Exn Warning
                              ("FFMPEG error: "
                               ++ bytes_repr env
                                    (stderr_text (ffmpeg_encode env call)))%string)
                else Ok (match cm_output_sample_rate self with
                         | None => MkChannelsMapper (cm_codec self)
                                     (cm_bitrate self) (Some sr)
                                     (cm_stem_names self)
                         | Some _ => self
                         end),
                World (procs w ++ [FFmpegEncode call])
                      (fs_log w ++ [MkdirParentOf path]) (warnings_log w))
             /\ enc_shape call = [S * C]
             /\ enc_in_ac call = 1%Z
             /\ enc_payload call = map (astype env float32) ys).
  { unfold ChannelsMapper_call. cbn [shape].
    destruct (transpose [1; 0; 2] (Array [S; 1; C] xs)) as [b|e] eqn:Eb;
      cbn [rbind] in E; [|discriminate].
    unfold bind at 1. unfold lift at 1. unfold bind at 1. unfold lift at 1.
    rewrite E. unfold squeeze. cbn [shape data filter Nat.eqb negb].
    assert (HSC1 : Nat.eqb (S * C) 1 = false) by (apply Nat.eqb_neq; lia).
    rewrite HSC1. cbn [negb].
    unfold bind. rewrite write_audio_eq.
    cbn [ndim shape List.length Nat.eqb orb].
    match goal with
    | |- context [ffmpeg_encode env ?c] => exists c
    end.
    split; [|repeat split; reflexivity].
    match goal with
    | |- context [if ?c then Raise _ else Ok tt] => destruct c
    end; reflexivity. }
  destruct Hrun as (call & Hcall & Hshape & Hac & Hpay).
  exists call. rewrite Hcall. cbn [snd procs].
  split; [reflexivity|]. split; [exact Hshape|]. split; [exact Hac|].
  rewrite Hpay. split; [rewrite length_map; lia|].
  intros s c Hs Hc. rewrite nth_error_map.
  rewrite <- (Hnth s 0 c Hs ltac:(lia) Hc). reflexivity.
Qed.

(** X20 for two mono stems of one sample, 7 and 2^24 + 1: the encoder is
    given the two samples 7 and 2^24 as one channel. *)
Lemma X20_channels_mapper_single_sample_witness :
  exists call,
    procs (snd (ChannelsMapper_call rounding_env plain_channels_mapper
                  (Array [2; 1; 1] [7; 16777217]%Z) "out.wav" 44100
                  empty_world))
    = [FFmpegEncode call]
    /\ enc_shape call = [2]
    /\ enc_in_ac call = 1%Z
    /\ enc_payload call = [7; 16777216]%Z.
Proof.
  destruct (X20_channels_mapper_single_sample Z rounding_env
              plain_channels_mapper [7; 16777217]%Z 2 1 "out.wav" 44100
              empty_world eq_refl ltac:(lia))
    as (call & Hprocs & Hshape & Hac & Hlen & Hnth).
  exists call. split; [exact Hprocs|]. split; [exact Hshape|].
  split; [exact Hac|].
  pose proof (Hnth 0 0 ltac:(lia) ltac:(lia)) as H0.
  pose proof (Hnth 1 0 ltac:(lia) ltac:(lia)) as H1.
  destruct (enc_payload call) as [|a0 [|a1 [|a2 rest]]];
    try discriminate Hlen.
  vm_compute in H0, H1. congruence.
Defined.

(** X21.  A tensor without samples cannot be written as one file: for a
    tensor of shape (stems, 0, channels), [ChannelsMapper.__call__] and
    [StreamsMapper.__call__] both raise [ValueError] at their reshape, before
    a directory or a temporary file is created or a process started. *)
Theorem X21_mappers_refuse_empty_tensor :
  forall (sample : Type) (env : environment sample)
         (channels_mapper : ChannelsMapper) (streams_mapper : StreamsMapper)
         (xs : list sample) (S C : nat) path sr w,
    ChannelsMapper_call env channels_mapper (Array [S; 0; C] xs) path sr w
    = (Raise (Exn ValueError "cannot reshape array"), w)
    /\ StreamsMapper_call env streams_mapper (Array [S; 0; C] xs) path sr w
       = (Raise (Exn ValueError "cannot reshape array"), w).
Proof.
  intros sample env channels_mapper streams_mapper xs S C path sr w.
  split; reflexivity.
Qed.

(** X22.  When [info] is not passed and ffprobe's answer has no ['streams']
    entry, building the [Info] object raises [KeyError], which
    [read_stems] does not turn into a [Warning]; the file is probed once
    and no decoder is started. *)
Theorem X22_missing_streams_key_is_a_key_error :
  forall (sample : Type) (env : environment sample) filename start duration
         stem_id always_3d dt sample_rate stems_from_channels w pi,
    ffprobe env filename = inr pi ->
    pi_streams pi = None ->
    read_stems env filename start duration stem_id always_3d dt None
      sample_rate stems_from_channels w
    = (Raise (Exn KeyError "'streams'"),
       World (procs w ++ [FFprobe filename]) (fs_log w) (warnings_log w)).
Proof.
  intros sample env filename start duration stem_id always_3d dt sample_rate
    stems_from_channels w pi Hpi Hss.
  unfold read_stems, probe_metadata, try_except, Info_init, ffmpeg_probe,
    bind, spawn, modify, ret, raise.
  rewrite Hpi. cbn. rewrite Hss. reflexivity.
Qed.

(** X22 on an answer without the entry. *)
Lemma X22_missing_streams_key_is_a_key_error_witness :
  read_stems no_streams_key_env "stems.mp4" None None None false float32 None
    None 0 empty_world
  = (Raise (Exn KeyError "'streams'"), World [FFprobe "stems.mp4"] [] []).
Proof.
  exact (X22_missing_streams_key_is_a_key_error Z no_streams_key_env
           "stems.mp4" None None None false float32 None 0%Z empty_world
           (ProbeInfo None) eq_refl eq_refl).
Defined.
